(** * The article gate of the GPT-5 backend (server.js)

    A shallow embedding of [src/server.js]: the source allow-list
    ([isAllowedSource]), the generation client ([gpt5Structured]) and the
    handler of [POST /api/gpt5/article] with its pre-validation, its
    post-validation and the aggregation of the gate verdict.

    JavaScript strings are sequences of UTF-16 code units, request and
    response bodies are JSON trees, exceptions are a result type, and the
    single [await] of the handler is a node of a small interaction monad.
    What the JavaScript platform provides and the repository does not
    contain (the URL parser, [JSON.parse], [toLowerCase], the printing of
    numbers) is a parameter of the development, class [Platform]. *)

From Stdlib Require Import String Ascii DecimalString.
From Stdlib Require Import List NArith ZArith Arith Bool Lia.
Import ListNotations.

Set Implicit Arguments.
Set Warnings "-register-all".

(** ** Strings *)

(** A string is the list of its UTF-16 code units. *)
Abbreviation char16 := N (only parsing).
Abbreviation jsstring := (list N) (only parsing).

(** String literals of the source file are UTF-8; [utf16] gives the code
    units the JavaScript engine sees. *)
Fixpoint utf16 (s : string) : jsstring :=
  match s with
  | EmptyString => []
  | String a t =>
    let b := N_of_ascii a in
    if (b <? 128)%N then b :: utf16 t
    else match t with
      | EmptyString => [65533%N]
      | String a2 t2 =>
        let b2 := N_of_ascii a2 in
        if (b <? 224)%N then ((b - 192) * 64 + (b2 - 128))%N :: utf16 t2
        else match t2 with
          | EmptyString => [65533%N]
          | String a3 t3 =>
            let b3 := N_of_ascii a3 in
            if (b <? 240)%N
            then ((b - 224) * 4096 + (b2 - 128) * 64 + (b3 - 128))%N :: utf16 t3
            else match t3 with
              | EmptyString => [65533%N]
              | String a4 t4 =>
                let b4 := N_of_ascii a4 in
                let cp := ((b - 240) * 262144 + (b2 - 128) * 4096
                           + (b3 - 128) * 64 + (b4 - 128) - 65536)%N in
                (55296 + cp / 1024)%N :: (56320 + cp mod 1024)%N :: utf16 t4
              end
          end
      end
  end.

Fixpoint str_eqb (a b : jsstring) : bool :=
  match a, b with
  | [], [] => true
  | x :: a', y :: b' => (x =? y)%N && str_eqb a' b'
  | _, _ => false
  end.

Definition is_empty (s : jsstring) : bool :=
  match s with [] => true | _ => false end.

(** [String.prototype.endsWith], on code units. *)
Definition endsWith (s suffix : jsstring) : bool :=
  (length suffix <=? length s)
  && str_eqb (skipn (length s - length suffix) s) suffix.

(** [Array.prototype.join] on an array of strings. *)
Fixpoint join (sep : jsstring) (l : list jsstring) : jsstring :=
  match l with
  | [] => []
  | [s] => s
  | s :: l' => s ++ sep ++ join sep l'
  end.

(** The code unit of an ASCII character. *)
Definition chr (a : ascii) : char16 := N_of_ascii a.

Definition nat_toString (n : nat) : jsstring :=
  utf16 (NilEmpty.string_of_uint (Nat.to_uint n)).

(** ** Regular expressions

    The fragment of ECMAScript regular expressions that the handler uses
    (no [u] flag: a character is one code unit), with the backtracking
    matcher of the language definition: a matcher takes the continuation
    that has to accept the rest of the input. *)

Module RegExp.

Inductive regex : Type :=
| Eps
| Chr (c : char16)
| Cls (f : char16 -> bool)
| Seq (r1 r2 : regex)
| Alt (r1 r2 : regex)
| Star (r : regex)
| WordB.

Definition Plus (r : regex) : regex := Seq r (Star r).

(** A pattern made of ordinary characters. *)
Fixpoint Lit (s : jsstring) : regex :=
  match s with
  | [] => Eps
  | c :: s' => Seq (Chr c) (Lit s')
  end.

(** [\s]: WhiteSpace and LineTerminator code points. *)
Definition is_space (c : char16) : bool :=
  ((9 <=? c) && (c <=? 13) || (c =? 32) || (c =? 160) || (c =? 5760)
   || (8192 <=? c) && (c <=? 8202) || (c =? 8232) || (c =? 8233)
   || (c =? 8239) || (c =? 8287) || (c =? 12288) || (c =? 65279))%N.

(** [\d] *)
Definition is_digit (c : char16) : bool := ((48 <=? c) && (c <=? 57))%N.

(** [\w], the word characters that [\b] looks at: ASCII letters, digits
    and the underscore. *)
Definition is_word (c : char16) : bool :=
  ((97 <=? c) && (c <=? 122) || (65 <=? c) && (c <=? 90)
   || is_digit c || (c =? 95))%N.

(** Canonicalize of the [i] flag. Exact on ASCII; code units outside ASCII
    are left alone, which agrees with the engine on every pattern whose
    characters are ASCII letters or have no case (such as Arabic letters):
    no other code unit canonicalizes to one of those. *)
Definition canonicalize (ignoreCase : bool) (c : char16) : char16 :=
  if ignoreCase && (97 <=? c)%N && (c <=? 122)%N then (c - 32)%N else c.

(** A position in the input: the code unit before it, if any, and the
    rest of the input. *)
Definition input := (option char16 * jsstring)%type.

Definition rest (x : input) : jsstring := snd x.

Definition word_before (x : input) : bool :=
  match fst x with Some c => is_word c | None => false end.

Definition word_after (x : input) : bool :=
  match snd x with c :: _ => is_word c | [] => false end.

Definition matcher := (input -> option input) -> input -> option input.

Definition char_matcher (f : char16 -> bool) : matcher :=
  fun k x =>
    match snd x with
    | c :: t => if f c then k (Some c, t) else None
    | [] => None
    end.

(** RepeatMatcher for a greedy [*]: one more iteration first, then the
    continuation; an iteration that consumes nothing is refused. The
    number of iterations is bounded by the length of the input. *)
Fixpoint repeat_matcher (body : matcher) (k : input -> option input)
         (n : nat) (x : input) : option input :=
  match n with
  | O => k x
  | S n' =>
    match body (fun y => if length (rest y) <? length (rest x)
                         then repeat_matcher body k n' y else None) x with
    | Some z => Some z
    | None => k x
    end
  end.

Fixpoint compile (ic : bool) (r : regex) : matcher :=
  match r with
  | Eps => fun k x => k x
  | Chr c =>
    char_matcher (fun ch => (canonicalize ic ch =? canonicalize ic c)%N)
  | Cls f => char_matcher f
  | Seq r1 r2 => fun k x => compile ic r1 (compile ic r2 k) x
  | Alt r1 r2 => fun k x =>
    match compile ic r1 k x with
    | Some z => Some z
    | None => compile ic r2 k x
    end
  | Star r1 => fun k x =>
    repeat_matcher (compile ic r1) k (length (rest x)) x
  | WordB => fun k x =>
    if xorb (word_before x) (word_after x) then k x else None
  end.

(** A regular expression object: pattern and [i] flag. *)
Record t := mk { pattern : regex; ignoreCase : bool }.

(** One attempt at the current position. *)
Definition match_here (re : t) (x : input) : option input :=
  compile (ignoreCase re) (pattern re) (fun y => Some y) x.

(** RegExpBuiltinExec without the sticky flag: the first position, from
    the current one on, where the pattern matches. *)
Fixpoint search (re : t) (prev : option char16) (s : jsstring) : bool :=
  match match_here re (prev, s) with
  | Some _ => true
  | None =>
    match s with
    | [] => false
    | c :: s' => search re (Some c) s'
    end
  end.

(** [re.test(s)] for a pattern without the [g] flag. *)
Definition test (re : t) (s : jsstring) : bool := search re None s.

(** The matches of a [g] pattern, from left to right, as [s.match(re)]
    collects them: after a match the search resumes where it ended, one
    code unit further when the match was empty. *)
Fixpoint match_loop (re : t) (fuel : nat) (prev : option char16)
         (s : jsstring) : list jsstring :=
  match fuel with
  | O => []
  | S fuel' =>
    match match_here re (prev, s), s with
    | Some (prev', s'), c :: t =>
      let n := length s - length s' in
      firstn n s :: (if n =? 0 then match_loop re fuel' (Some c) t
                     else match_loop re fuel' prev' s')
    | Some _, [] => [[]]
    | None, c :: t => match_loop re fuel' (Some c) t
    | None, [] => []
    end
  end.

Definition match_all (re : t) (s : jsstring) : list jsstring :=
  match_loop re (S (length s)) None s.

(** [s.replace(re, replacement)] for a [g] pattern and a replacement
    without [$]: every match, found as above, becomes the replacement. *)
Fixpoint replace_loop (re : t) (replacement : jsstring) (fuel : nat)
         (prev : option char16) (s : jsstring) : jsstring :=
  match fuel with
  | O => s
  | S fuel' =>
    match match_here re (prev, s), s with
    | Some (prev', s'), c :: t =>
      replacement ++
        (if length s - length s' =? 0
         then c :: replace_loop re replacement fuel' (Some c) t
         else replace_loop re replacement fuel' prev' s')
    | Some _, [] => replacement
    | None, c :: t => c :: replace_loop re replacement fuel' (Some c) t
    | None, [] => []
    end
  end.

Definition replace_all (re : t) (replacement s : jsstring) : jsstring :=
  replace_loop re replacement (S (length s)) None s.

End RegExp.

Import RegExp.

(** The patterns of the handler. *)

(** [[^>]] *)
Definition not_gt (c : char16) : bool := negb (c =? chr ">")%N.

(** [/<[^>]+>/g] *)
Definition RE_TAG : RegExp.t :=
  RegExp.mk
    (Seq (Chr (chr "<")) (Seq (Plus (Cls not_gt)) (Chr (chr ">"))))
    false.

(** [\S] *)
Definition not_space (c : char16) : bool := negb (is_space c).

(** [/\S+/g] *)
Definition RE_WORD : RegExp.t := RegExp.mk (Plus (Cls not_space)) false.

(** [/إخلاء\s*المسؤولية|تنبيه\s*طبي|Disclaimer/i] *)
Definition RE_DISCLAIMER : RegExp.t :=
  RegExp.mk
    (Alt (Seq (Lit (utf16 "إخلاء"))
              (Seq (Star (Cls is_space)) (Lit (utf16 "المسؤولية"))))
         (Alt (Seq (Lit (utf16 "تنبيه"))
                   (Seq (Star (Cls is_space)) (Lit (utf16 "طبي"))))
              (Lit (utf16 "Disclaimer"))))
    true.

(** The alternatives of the claim pattern. *)
Definition CLAIM_VERBS : list jsstring :=
  [utf16 "يقلل"; utf16 "يزيد"; utf16 "يمنع"; utf16 "يعالج"; utf16 "يحسن";
   utf16 "يؤدي إلى"].

Fixpoint alternatives (l : list jsstring) : regex :=
  match l with
  | [] => Cls (fun _ => false)
  | [s] => Lit s
  | s :: l' => Alt (Lit s) (alternatives l')
  end.

(** [/\b(يقلل|يزيد|يمنع|يعالج|يحسن|يؤدي إلى)\b/] *)
Definition RE_CLAIM : RegExp.t :=
  RegExp.mk (Seq WordB (Seq (alternatives CLAIM_VERBS) WordB)) false.

(** [/\[\d+\]/] *)
Definition RE_CITE : RegExp.t :=
  RegExp.mk (Seq (Chr (chr "[")) (Seq (Plus (Cls is_digit)) (Chr (chr "]")))) false.

(** ** Exceptions *)

(** An [Error] object, observed through its [message] only. *)
Record error := Error { message : jsstring }.

(** The messages of the errors the engine raises follow V8; nothing below
    depends on their wording. *)
Definition TypeError (msg : string) : error := Error (utf16 msg).

Inductive result (A : Type) : Type :=
| Ok (a : A)
| Throw (e : error).

Arguments Throw {A} e.

Definition bind {A B : Type} (r : result A) (f : A -> result B) : result B :=
  match r with
  | Ok a => f a
  | Throw e => Throw e
  end.

Notation "x <- r ;; k" := (bind r (fun x => k))
  (at level 61, r at next level, right associativity).

(** ** JSON values

    The fields of an object are kept in their order, which is the order
    in which [JSON.stringify] prints them; a property is read at its
    first binding and written there. *)

Inductive json (number : Type) : Type :=
| JNull
| JBool (b : bool)
| JNum (n : number)
| JStr (s : jsstring)
| JArr (items : list (json number))
| JObj (fields : list (jsstring * json number)).

Arguments JNull {number}.
Arguments JBool {number} b.
Arguments JStr {number} s.

(** ** The platform

    The built-ins the server calls and the repository does not define. *)
Class Platform : Type := {
  (** the Number type, its ToBoolean and its ToString *)
  number : Type;
  number_truthy : number -> bool;
  number_toString : number -> jsstring;
  (** [new URL(s).hostname]; [None] when the constructor throws *)
  URL_hostname : jsstring -> option jsstring;
  (** [String.prototype.toLowerCase] *)
  toLowerCase : jsstring -> jsstring;
  (** [JSON.parse] *)
  JSON_parse : jsstring -> result (json number)
}.

(** ** JSON schemas, as far as [articleSchema] uses them *)

Inductive schema : Type :=
| SString
| SBoolean
| SArray (items : schema)
| SObject (properties : list (jsstring * schema)) (required : list jsstring)
          (additionalProperties : bool).

Record named_schema := { schema_name : jsstring; schema_body : schema }.

(** [articleSchema] *)
Definition articleSchema : named_schema :=
  {| schema_name := utf16 "article_schema";
     schema_body :=
       SObject
         [ (utf16 "article",
            SObject [ (utf16 "articleTitle", SString);
                      (utf16 "articleHtmlContent", SString);
                      (utf16 "secondaryKeywords", SArray SString) ]
                    [ utf16 "articleTitle"; utf16 "articleHtmlContent";
                      utf16 "secondaryKeywords" ]
                    false);
           (utf16 "metadata",
            SObject [ (utf16 "metaTitle", SString);
                      (utf16 "metaDescription", SString);
                      (utf16 "socialTitle", SString);
                      (utf16 "socialDescription", SString) ]
                    [ utf16 "metaTitle"; utf16 "metaDescription";
                      utf16 "socialTitle"; utf16 "socialDescription" ]
                    false);
           (utf16 "gate",
            SObject [ (utf16 "blocked", SBoolean);
                      (utf16 "reasons", SArray SString);
                      (utf16 "claimsNeedingCitations", SArray SString) ]
                    [ utf16 "blocked"; utf16 "reasons";
                      utf16 "claimsNeedingCitations" ]
                    false) ]
         [ utf16 "article"; utf16 "metadata"; utf16 "gate" ]
         false |}.

(** [outlineSchema] *)
Definition outlineSchema : named_schema :=
  {| schema_name := utf16 "outline_schema";
     schema_body :=
       SObject [ (utf16 "outline", SString) ] [ utf16 "outline" ] false |}.

(** ** The asynchronous call

    The handler awaits [openai.chat.completions.create] once; a
    computation is a value or that call with what follows it. *)

Record completion := {
  model : jsstring;
  system_content : jsstring;
  user_content : jsstring;
  json_schema : named_schema
}.

Inductive io (R A : Type) : Type :=
| Ret (a : A)
| Create (c : completion) (k : R -> io R A).

Arguments Ret {R A} a.

Fixpoint io_bind {R A B : Type} (m : io R A) (f : A -> io R B) : io R B :=
  match m with
  | Ret a => f a
  | Create c k => Create c (fun o => io_bind (k o) f)
  end.

(** The number of calls of the generation backend along an execution
    in which the backend answers [answer]. *)
Fixpoint calls {R A : Type} (answer : completion -> R) (m : io R A) : nat :=
  match m with
  | Ret _ => 0
  | Create c k => S (calls answer (k (answer c)))
  end.

Fixpoint run {R A : Type} (answer : completion -> R) (m : io R A) : A :=
  match m with
  | Ret a => a
  | Create c k => run answer (k (answer c))
  end.

(** ** The server *)

Section Server.

Context {P : Platform}.

(** A JavaScript value met by the handler: a JSON value or [undefined]. *)
Definition value := option (json number).

(** ToBoolean *)
Definition truthy (v : value) : bool :=
  match v with
  | None => false
  | Some JNull => false
  | Some (JBool b) => b
  | Some (JNum n) => number_truthy n
  | Some (JStr s) => negb (is_empty s)
  | Some (JArr _) => true
  | Some (JObj _) => true
  end.

(** [v || d] *)
Definition or_else (v : value) (d : json number) : json number :=
  match v with
  | Some j => if truthy v then j else d
  | None => d
  end.

Fixpoint lookup (k : jsstring) (fs : list (jsstring * json number)) : value :=
  match fs with
  | [] => None
  | (k', v) :: fs' => if str_eqb k k' then Some v else lookup k fs'
  end.

(** [j.k] on a value that is neither [null] nor [undefined], for the
    property names of this file; none of them is a built-in property of
    strings, arrays, numbers or booleans. *)
Definition prop (j : json number) (k : string) : value :=
  match j with
  | JObj fs => lookup (utf16 k) fs
  | _ => None
  end.

Definition cannot_read (what k : string) : error :=
  Error (utf16 "Cannot read properties of " ++ utf16 what
         ++ utf16 " (reading '" ++ utf16 k ++ utf16 "')").

(** [v.k] *)
Definition get (v : value) (k : string) : result value :=
  match v with
  | None => Throw (cannot_read "undefined" k)
  | Some JNull => Throw (cannot_read "null" k)
  | Some j => Ok (prop j k)
  end.

(** [v?.k] *)
Definition opt_get (v : value) (k : string) : value :=
  match v with
  | None => None
  | Some JNull => None
  | Some j => prop j k
  end.

(** [v?.[0]] *)
Definition opt_first (v : value) : value :=
  match v with
  | Some (JArr (e :: _)) => Some e
  | Some (JStr (c :: _)) => Some (JStr [c])
  | Some (JObj fs) => lookup (utf16 "0") fs
  | _ => None
  end.

Fixpoint assign (k : jsstring) (v : json number)
         (fs : list (jsstring * json number)) : list (jsstring * json number) :=
  match fs with
  | [] => [(k, v)]
  | (k', v') :: fs' =>
    if str_eqb k k' then (k', v) :: fs' else (k', v') :: assign k v fs'
  end.

(** The object [j] after [j.k = v]. *)
Definition set_prop (j : json number) (k : string) (v : json number)
  : json number :=
  match j with
  | JObj fs => JObj (assign (utf16 k) v fs)
  | _ => j
  end.

(** ToString. An object prints as [[object Object]] unless it has a
    property [toString] of its own, which in a JSON tree is never
    callable; an array joins its elements with commas. *)
Fixpoint toString (j : json number) : result jsstring :=
  match j with
  | JNull => Ok (utf16 "null")
  | JBool b => Ok (if b then utf16 "true" else utf16 "false")
  | JNum n => Ok (number_toString n)
  | JStr s => Ok s
  | JArr l =>
    ss <- (fix elements (l : list (json number)) : result (list jsstring) :=
             match l with
             | [] => Ok []
             | e :: l' =>
               s <- match e with JNull => Ok [] | _ => toString e end ;;
               ss <- elements l' ;;
               Ok (s :: ss)
             end) l ;;
    Ok (join (utf16 ",") ss)
  | JObj fs =>
    match lookup (utf16 "toString") fs with
    | Some _ => Throw (TypeError "Cannot convert object to primitive value")
    | None => Ok (utf16 "[object Object]")
    end
  end.

Definition toString_value (v : value) : result jsstring :=
  match v with
  | None => Ok (utf16 "undefined")
  | Some j => toString j
  end.

(** [l.join(sep)] *)
Fixpoint array_strings (l : list (json number)) : result (list jsstring) :=
  match l with
  | [] => Ok []
  | e :: l' =>
    s <- match e with JNull => Ok [] | _ => toString e end ;;
    ss <- array_strings l' ;;
    Ok (s :: ss)
  end.

Definition array_join (sep : jsstring) (l : list (json number))
  : result jsstring :=
  ss <- array_strings l ;; Ok (join sep ss).

(** *** Helpers *)

Definition SAFE_DOMAINS : list jsstring :=
  [utf16 "who.int"; utf16 "cdc.gov"; utf16 "nhs.uk";
   utf16 "pubmed.ncbi.nlm.nih.gov"; utf16 "ncbi.nlm.nih.gov";
   utf16 "mayoclinic.org"; utf16 "nih.gov"].

(** The [try] block of [isAllowedSource]. *)
Definition isAllowedSource_try (url : json number) : result bool :=
  s <- toString url ;;
  match URL_hostname s with
  | None => Throw (TypeError "Invalid URL")
  | Some hostname =>
    let d := toLowerCase hostname in
    if existsb (fun sd => str_eqb d sd || endsWith d (utf16 "." ++ sd))
               SAFE_DOMAINS
    then Ok true
    else Ok (endsWith d (utf16 ".gov") || endsWith d (utf16 ".edu"))
  end.

Definition isAllowedSource (url : json number) : bool :=
  match isAllowedSource_try url with
  | Ok b => b
  | Throw _ => false
  end.

(** What [await openai.chat.completions.create(...)] gives. *)
Inductive outcome : Type :=
| Rejected (e : error)
| Resolved (resp : json number).

Definition async (A : Type) : Type := io outcome (result A).

Definition async_bind {A B : Type} (m : async A) (f : A -> async B)
  : async B :=
  io_bind m (fun r => match r with Ok a => f a | Throw e => Ret (Throw e) end).

Definition sync {A : Type} (r : result A) : async A := Ret r.

Notation "x <~ m ;; k" := (async_bind m (fun x => k))
  (at level 61, m at next level, right associativity).

(** Lines 33-34: the text of the first choice, [{}] when there is none,
    parsed as JSON. *)
Definition completion_result (o : outcome) : result (json number) :=
  match o with
  | Rejected e => Throw e
  | Resolved resp =>
    choices <- get (Some resp) "choices" ;;
    let content :=
      opt_get (opt_get (opt_first choices) "message") "content" in
    txt <- toString (or_else content (JStr (utf16 "{}"))) ;;
    JSON_parse txt
  end.

Definition gpt5Structured (system user : jsstring) (schema : named_schema)
  : async (json number) :=
  Create {| model := utf16 "gpt-5"; system_content := system;
            user_content := user; json_schema := schema |}
    (fun o => Ret (completion_result o)).

(** *** Prompts *)

Definition nl : jsstring := [10%N].
Definition dq : jsstring := [34%N].

Definition SYS_COMMON : jsstring :=
  utf16 "أنت مساعد تحرير لمحتوى صحي YMYL. التزم بدقة الحقائق، الأسلوب الواضح، والحياد. أخرج دائمًا JSON صالحًا فقط.".

(** [expr.method(f)] for [map] and [filter]: only arrays have these
    methods. *)
Definition array_of (v : value) (expr method : string)
  : result (list (json number)) :=
  match v with
  | Some (JArr l) => Ok l
  | Some JNull => Throw (cannot_read "null" method)
  | None => Throw (cannot_read "undefined" method)
  | Some _ =>
    Throw (Error (utf16 expr ++ utf16 "." ++ utf16 method
                  ++ utf16 " is not a function"))
  end.

(** [l.map((s,i) => f(s,i))] for a callback that can throw. *)
Fixpoint map_indexed (f : json number -> nat -> result jsstring) (i : nat)
         (l : list (json number)) : result (list jsstring) :=
  match l with
  | [] => Ok []
  | e :: l' => s <- f e i ;; ss <- map_indexed f (S i) l' ;; Ok (s :: ss)
  end.

Definition ARTICLE_USER (p : json number) : result jsstring :=
  language <- toString_value (prop p "language") ;;
  outline <- toString_value (prop p "outline") ;;
  introStyle <-
    toString (or_else (prop p "introStyle") (JStr (utf16 "مباشرة"))) ;;
  conclusionStyle <-
    toString (or_else (prop p "conclusionStyle") (JStr (utf16 "تلخيصية"))) ;;
  primaryKeyword <- toString_value (prop p "primaryKeyword") ;;
  sources <- array_of (prop p "sources") "p.sources" "map" ;;
  sources <-
    map_indexed
      (fun s i =>
         s <- toString s ;;
         Ok (utf16 "[" ++ nat_toString (i + 1) ++ utf16 "] " ++ s))
      0 sources ;;
  links <-
    array_of (Some (or_else (prop p "internalLinks") (JArr [])))
             "(p.internalLinks || [])" "map" ;;
  links <-
    map_indexed (fun u _ => u <- toString u ;; Ok (utf16 "- " ++ u)) 0 links ;;
  Ok ( utf16 "اكتب مقالاً (~1500 كلمة) باللغة "
       ++ language
       ++ utf16 " وفق الهيكل التالي:"
       ++ nl
       ++ utf16 "--- OUTLINE START ---"
       ++ nl
       ++ outline
       ++ nl
       ++ utf16 "--- OUTLINE END ---"
       ++ nl
       ++ nl
       ++ utf16 "الشروط:"
       ++ nl
       ++ utf16 "- اتبع أسلوب مقدمة: "
       ++ introStyle
       ++ utf16 "، وخاتمة: "
       ++ conclusionStyle
       ++ utf16 "."
       ++ nl
       ++ utf16 "- أدرج إحالات مرقّمة داخل النص مثل [1], [2] تشير إلى المصادر المعطاة (لا تخترع مصادر)."
       ++ nl
       ++ utf16 "- أضف فقرة "
       ++ dq
       ++ utf16 "إخلاء المسؤولية الطبية"
       ++ dq
       ++ utf16 " في النهاية."
       ++ nl
       ++ utf16 "- إن فُعّل FAQ اجعل قسم "
       ++ dq
       ++ utf16 "أسئلة شائعة"
       ++ dq
       ++ utf16 " آخر عنصر."
       ++ nl
       ++ utf16 "- ولّد secondaryKeywords ذات صلة (≥3)."
       ++ nl
       ++ nl
       ++ utf16 "بيانات مساعدة:"
       ++ nl
       ++ utf16 "- الكلمة الأساسية: "
       ++ primaryKeyword
       ++ nl
       ++ utf16 "- مصادر موثوقة:"
       ++ nl
       ++ join nl sources
       ++ nl
       ++ utf16 "- روابط داخلية (اختياري):"
       ++ nl
       ++ join nl links
       ++ nl
       ++ nl
       ++ utf16 "أعد JSON بالمفاتيح: article{articleTitle, articleHtmlContent, secondaryKeywords[]}, metadata{metaTitle, metaDescription, socialTitle, socialDescription}, gate{blocked, reasons[], claimsNeedingCitations[]}. لا تعُد أي حقول أخرى.").

(** *** Routes: [POST /api/gpt5/article] *)

Inductive response : Type :=
| Json200 (body : json number)
| Text400 (text : jsstring).

Definition MSG_REQUIRED : jsstring := utf16 "topic/primaryKeyword/outline مطلوبة".
Definition MSG_COUNT : jsstring := utf16 "عدد المصادر يجب أن يكون بين 3 و6".
Definition MSG_UNTRUSTED : jsstring := utf16 "مصادر غير موثوقة: ".
Definition MSG_SHORT : jsstring := utf16 "عدد الكلمات أقل من 1200.".
Definition MSG_DISCLAIMER : jsstring := utf16 "لا يوجد إخلاء مسؤولية طبي.".
Definition MSG_KEYWORDS : jsstring := utf16 "كلمات ثانوية غير كافية.".
Definition MSG_CLAIMS : jsstring := utf16 "ادعاءات بدون إحالات مرقمة.".

(** Line 130: the required fields. *)
Definition check_required (p : json number) (reasons : list jsstring)
  : list jsstring :=
  if negb (truthy (prop p "topic")) || negb (truthy (prop p "primaryKeyword"))
     || negb (truthy (prop p "outline"))
  then reasons ++ [MSG_REQUIRED] else reasons.

(** Line 131: the number of sources. *)
Definition check_count (p : json number) (reasons : list jsstring)
  : list jsstring :=
  if match prop p "sources" with
     | Some (JArr l) => (length l <? 3) || (6 <? length l)
     | _ => true
     end
  then reasons ++ [MSG_COUNT] else reasons.

(** Line 132: [(p.sources||[]).filter(s => !isAllowedSource(s))]. *)
Definition bad_sources (p : json number) : result (list (json number)) :=
  l <- array_of (Some (or_else (prop p "sources") (JArr [])))
                "(p.sources || [])" "filter" ;;
  Ok (filter (fun s => negb (isAllowedSource s)) l).

(** Line 133 *)
Definition check_sources (bad : list (json number)) (reasons : list jsstring)
  : result (list jsstring) :=
  if negb (length bad =? 0)
  then names <- array_join (utf16 ", ") bad ;;
       Ok (reasons ++ [MSG_UNTRUSTED ++ names])
  else Ok reasons.

(** Lines 129-133 *)
Definition prevalidate (p : json number) : result (list jsstring) :=
  let reasons := [] in
  let reasons := check_required p reasons in
  let reasons := check_count p reasons in
  bad <- bad_sources p ;;
  check_sources bad reasons.

(** Lines 135-139 *)
Definition blocked_response (p : json number) (reasons : list jsstring)
  : json number :=
  JObj
    [ (utf16 "article",
       JObj [ (utf16 "articleTitle", or_else (prop p "topic") (JStr []));
              (utf16 "articleHtmlContent", JStr []);
              (utf16 "secondaryKeywords", JArr []) ]);
      (utf16 "metadata",
       JObj [ (utf16 "metaTitle", JStr []);
              (utf16 "metaDescription", JStr []);
              (utf16 "socialTitle", JStr []);
              (utf16 "socialDescription", JStr []) ]);
      (utf16 "gate",
       JObj [ (utf16 "blocked", JBool true);
              (utf16 "reasons", JArr (map JStr reasons));
              (utf16 "claimsNeedingCitations", JArr []) ]) ].

(** [out.gate.<field>.push(msg)]: the array is updated in place, that
    is, [out] afterwards has the longer array at [gate.<field>]. *)
Definition gate_push (out : json number) (field : string) (msg : jsstring)
  : result (json number) :=
  gate <- get (Some out) "gate" ;;
  arr <- get gate field ;;
  match gate, arr with
  | Some g, Some (JArr l) =>
    Ok (set_prop out "gate" (set_prop g field (JArr (l ++ [JStr msg]))))
  | _, Some JNull => Throw (cannot_read "null" "push")
  | _, None => Throw (cannot_read "undefined" "push")
  | _, _ =>
    Throw (Error (utf16 "out.gate." ++ utf16 field
                  ++ utf16 ".push is not a function"))
  end.

Definition push_if (c : bool) (out : json number) (field : string)
           (msg : jsstring) : result (json number) :=
  if c then gate_push out field msg else Ok out.

(** Line 144 *)
Definition textOnly_of (out : json number) : result jsstring :=
  match or_else (opt_get (opt_get (Some out) "article") "articleHtmlContent")
                (JStr []) with
  | JStr html => Ok (replace_all RE_TAG (utf16 " ") html)
  | _ => Throw (TypeError "(intermediate value).replace is not a function")
  end.

(** Line 145 *)
Definition word_count (textOnly : jsstring) : nat :=
  length (match_all RE_WORD textOnly).

(** [v.length] as a condition *)
Definition length_truthy (v : value) (what : string) : result bool :=
  match v with
  | None => Throw (cannot_read "undefined" what)
  | Some JNull => Throw (cannot_read "null" what)
  | Some (JArr l) => Ok (negb (length l =? 0))
  | Some (JStr s) => Ok (negb (length s =? 0))
  | Some (JObj fs) => Ok (truthy (lookup (utf16 "length") fs))
  | Some _ => Ok false
  end.

(** Line 154 *)
Definition aggregate (out : json number) : result (json number) :=
  gate <- get (Some out) "gate" ;;
  reasons <- get gate "reasons" ;;
  has_reasons <- length_truthy reasons "length" ;;
  c <- (if has_reasons then Ok true
        else
          blocked <- get gate "blocked" ;;
          if truthy blocked then Ok true
          else
            claims <- get gate "claimsNeedingCitations" ;;
            length_truthy claims "length") ;;
  if c then
    match gate with
    | Some (JObj _ as g) =>
      Ok (set_prop out "gate" (set_prop g "blocked" (JBool true)))
    | _ => Throw (TypeError "Cannot create property 'blocked'")
    end
  else Ok out.

(** Lines 144-154 *)
Definition post_validate (out : json number) : result (json number) :=
  textOnly <- textOnly_of out ;;
  let wc := word_count textOnly in
  out <- push_if (wc <? 1200) out "reasons" MSG_SHORT ;;
  out <- push_if (negb (test RE_DISCLAIMER textOnly)) out "reasons"
                 MSG_DISCLAIMER ;;
  article <- get (Some out) "article" ;;
  keywords <- get article "secondaryKeywords" ;;
  out <- push_if (match keywords with
                  | Some (JArr l) => length l <? 3
                  | _ => true
                  end) out "reasons" MSG_KEYWORDS ;;
  let hasClaims := test RE_CLAIM textOnly in
  article <- get (Some out) "article" ;;
  html <- get article "articleHtmlContent" ;;
  html <- toString (or_else html (JStr [])) ;;
  let hasCites := test RE_CITE html in
  out <- push_if (hasClaims && negb hasCites) out "claimsNeedingCitations"
                 MSG_CLAIMS ;;
  aggregate out.

(** [res.status(400).send(e.message || 'Bad Request')] *)
Definition send_error (e : error) : response :=
  Text400 (if is_empty (message e) then utf16 "Bad Request" else message e).

(** [try { ... } catch (e) { ... }] around the whole handler. *)
Definition try_catch (body : async response) : io outcome response :=
  io_bind body (fun r =>
    match r with
    | Ok resp => Ret resp
    | Throw e => Ret (send_error e)
    end).

Definition article_handler (body : value) : io outcome response :=
  try_catch (
    let p := or_else body (JObj []) in
    reasons <~ sync (prevalidate p) ;;
    if negb (length reasons =? 0)
    then sync (Ok (Json200 (blocked_response p reasons)))
    else
      user <~ sync (ARTICLE_USER p) ;;
      out <~ gpt5Structured SYS_COMMON user articleSchema ;;
      out <~ sync (post_validate out) ;;
      sync (Ok (Json200 out))).

(** *** Routes: [POST /api/gpt5/outline] *)

(** The default of a destructuring pattern: it applies to a missing
    property and to no other value, [null] included. *)
Definition default_to (v : value) (d : json number) : value :=
  match v with
  | None => Some d
  | Some _ => v
  end.

Definition OUTLINE_USER (topic language : value) : result jsstring :=
  topic <- toString_value topic ;;
  language <- toString_value language ;;
  Ok (utf16 "أنشئ هيكل SEO مفصل لمقال (~1500 كلمة) حول: "
      ++ dq
      ++ topic
      ++ dq
      ++ utf16 " باللغة "
      ++ language
      ++ utf16 ". يجب أن يحتوي على H2 رئيسية و H3 فرعية (بدون أرقام تلقائية). أعده في حقل outline نصًا خامًا.").

Definition MSG_TOPIC : jsstring := utf16 "topic مطلوب".

Definition outline_handler (body : value) : io outcome response :=
  try_catch (
    let p := or_else body (JObj []) in
    let topic := prop p "topic" in
    let language := default_to (prop p "language") (JStr (utf16 "العربية")) in
    if negb (truthy topic) then sync (Ok (Text400 MSG_TOPIC))
    else
      user <~ sync (OUTLINE_USER topic language) ;;
      data <~ gpt5Structured SYS_COMMON user outlineSchema ;;
      outline <~ sync (get (Some data) "outline") ;;
      sync (Ok (Json200 (JObj [ (utf16 "outline",
                                 or_else outline (JStr [])) ])))).

(** A request with a topic, a keyword, an outline and the given
    [sources]. *)
Definition request_with (sources : json number) : json number :=
  JObj [ (utf16 "topic", JStr (utf16 "diabetes"));
         (utf16 "primaryKeyword", JStr (utf16 "diabetes"));
         (utf16 "outline", JStr (utf16 "H2 Causes"));
         (utf16 "sources", sources) ].

End Server.

(** ** A reference platform

    A platform for closed examples: integers for numbers, ASCII
    lower-casing, and a URL parser and a [JSON.parse] that agree with the
    real ones on the inputs of the examples. *)

Definition ascii_lower (c : char16) : char16 :=
  if ((65 <=? c) && (c <=? 90))%N then (c + 32)%N else c.

Fixpoint take_until (stop : char16 -> bool) (s : jsstring) : jsstring :=
  match s with
  | [] => []
  | c :: s' => if stop c then [] else c :: take_until stop s'
  end.

(** The host of [http://host/...] and [https://host/...], for hosts made
    of letters, digits, dots and hyphens. *)
Definition simple_hostname (s : jsstring) : option jsstring :=
  let after (prefix : jsstring) :=
    if str_eqb (firstn (length prefix) s) prefix
    then Some (skipn (length prefix) s) else None in
  match match after (utf16 "https://") with
        | Some r => Some r
        | None => after (utf16 "http://")
        end with
  | None => None
  | Some r =>
    let host := take_until (fun c => (c =? chr "/")%N) r in
    if is_empty host
       || negb (forallb (fun c => is_word c || (c =? chr ".")%N
                                  || (c =? chr "-")%N) host)
    then None
    else Some (map ascii_lower host)
  end.

Definition Z_toString (z : Z) : jsstring :=
  match z with
  | Z0 => utf16 "0"
  | Zpos p => nat_toString (Pos.to_nat p)
  | Zneg p => utf16 "-" ++ nat_toString (Pos.to_nat p)
  end.

Definition str (s : string) : json Z := JStr (utf16 s).

Definition field (k : string) (v : json Z) : list N * json Z := (utf16 k, v).

(** A result of the generation backend with the given article text and
    number of secondary keywords, and what the backend reports about
    it. *)
Definition result_with (html : jsstring) (keywords : nat) (blocked : bool)
           (reasons claims : list (json Z)) : json Z :=
  JObj [ field "article"
           (JObj [ field "articleTitle" (str "Diabetes");
                   field "articleHtmlContent" (JStr html);
                   field "secondaryKeywords" (JArr (repeat (str "kw") keywords)) ]);
         field "metadata"
           (JObj [ field "metaTitle" (str "Diabetes");
                   field "metaDescription" (str "About diabetes");
                   field "socialTitle" (str "Diabetes");
                   field "socialDescription" (str "About diabetes") ]);
         field "gate"
           (JObj [ field "blocked" (JBool blocked);
                   field "reasons" (JArr reasons);
                   field "claimsNeedingCitations" (JArr claims) ]) ].

(** An article of [n + 1] words with a disclaimer. *)
Definition article_of_words (n : nat) : jsstring :=
  utf16 "<p>Disclaimer</p>" ++ concat (repeat (utf16 " word") n).

Definition sample_result : json Z :=
  result_with (utf16 "<p>Insulin lowers blood sugar.</p>") 2 false
              [str "checked by the model"] [].

(** A generation result without [metadata]. *)
Definition partial_result : json Z :=
  JObj [ field "article" (JObj []);
         field "gate" (JObj [ field "reasons" (JArr []) ]) ].

(** [JSON.stringify] on the results of the examples, whose strings need
    no escaping. *)
Fixpoint stringify (j : json Z) : jsstring :=
  match j with
  | JNull => utf16 "null"
  | JBool b => if b then utf16 "true" else utf16 "false"
  | JNum z => Z_toString z
  | JStr s => dq ++ s ++ dq
  | JArr l => utf16 "[" ++ join (utf16 ",") (map stringify l) ++ utf16 "]"
  | JObj fs =>
    utf16 "{"
    ++ join (utf16 ",")
         (map (fun kv => dq ++ fst kv ++ dq ++ utf16 ":" ++ stringify (snd kv))
              fs)
    ++ utf16 "}"
  end.

(** [JSON.parse] on the texts of the examples. *)
Definition simple_JSON_parse (s : jsstring) : result (json Z) :=
  if str_eqb s (utf16 "{}") then Ok (JObj [])
  else if str_eqb s (stringify partial_result) then Ok partial_result
  else if str_eqb s (stringify sample_result) then Ok sample_result
  else Throw (Error (utf16 "Unexpected token")).

#[export] Instance reference_platform : Platform := {|
  number := Z;
  number_truthy := fun z => negb (Z.eqb z 0);
  number_toString := Z_toString;
  URL_hostname := simple_hostname;
  toLowerCase := map ascii_lower;
  JSON_parse := simple_JSON_parse
|}.

(** The backend answers with one choice whose message has the content
    [text]. *)
Definition answer_text (text : jsstring) (c : completion)
  : @outcome reference_platform :=
  Resolved
    (JObj [ field "choices"
              (JArr [ JObj [ field "message"
                               (JObj [ field "content" (JStr text) ]) ] ]) ]).

Definition trusted_sources : json Z :=
  JArr [ str "https://www.who.int/health-topics/diabetes";
         str "https://www.cdc.gov/diabetes/";
         str "https://medlineplus.gov/diabetes.html" ].


(** The request of the examples and its prompt. *)
Definition sample_request : json Z := request_with trusted_sources.

Definition sample_prompt : jsstring :=
  match ARTICLE_USER sample_request with
  | Ok user => user
  | Throw _ => []
  end.

(** The same article as [sample_result] with a fresh gate, and once more
    with other metadata and the fields in another order. *)
Definition fresh_result : json Z :=
  result_with (utf16 "<p>Insulin lowers blood sugar.</p>") 2 false [] [].

Definition fresh_result_again : json Z :=
  JObj [ field "gate"
           (JObj [ field "claimsNeedingCitations" (JArr []);
                   field "reasons" (JArr []);
                   field "blocked" (JBool false) ]);
         field "metadata"
           (JObj [ field "metaTitle" (str "Insulin");
                   field "metaDescription" (str "");
                   field "socialTitle" (str "");
                   field "socialDescription" (str "") ]);
         field "article"
           (JObj [ field "articleTitle" (str "Diabetes");
                   field "articleHtmlContent"
                     (JStr (utf16 "<p>Insulin lowers blood sugar.</p>"));
                   field "secondaryKeywords" (JArr [str "kw"; str "kw"]) ]) ].

(** An article in English with a claim verb and no citation marker. *)
Definition english_claim : jsstring :=
  utf16 "<p>Exercise reduces blood pressure.</p>".

(** The same in Arabic, with the verb of the handler between spaces. *)
Definition arabic_claim : jsstring :=
  utf16 "<p>الرياضة يقلل ضغط الدم.</p>".

(** Sources of which the second and the fourth are not on the
    allow-list. *)
Definition mixed_urls : list (list N) :=
  [ utf16 "https://www.who.int/health-topics/diabetes";
    utf16 "https://example.com/diabetes";
    utf16 "https://www.cdc.gov/diabetes/";
    utf16 "https://blog.example.org/sugar" ].

Definition trusted_urls : list (list N) :=
  [ utf16 "https://www.who.int/health-topics/diabetes";
    utf16 "https://www.cdc.gov/diabetes/";
    utf16 "https://medlineplus.gov/diabetes.html" ].

(** The request of the examples with one internal link given as a
    string, not as a list. *)
Definition request_with_link : json Z :=
  JObj [ field "topic" (str "diabetes");
         field "primaryKeyword" (str "diabetes");
         field "outline" (str "H2 Causes");
         field "sources" trusted_sources;
         field "internalLinks" (str "https://example.com/blog") ].

(** The backend answers with [resp]. *)
Definition answer_with (resp : json Z) (c : completion)
  : @outcome reference_platform :=
  Resolved resp.

(** A completion with no choice. *)
Definition no_choice : json Z := JObj [ field "choices" (JArr []) ].

(** A result whose article text is a number. *)
Definition numeric_result : json Z :=
  JObj [ field "article"
           (JObj [ field "articleTitle" (str "Diabetes");
                   field "articleHtmlContent" (JNum 42%Z);
                   field "secondaryKeywords" (JArr []) ]);
         field "gate"
           (JObj [ field "blocked" (JBool false);
                   field "reasons" (JArr []);
                   field "claimsNeedingCitations" (JArr []) ]) ].

(** The reference platform with a [JSON.parse] that knows the text of
    [numeric_result] as well. *)
Definition extended_JSON_parse (s : list N) : result (json Z) :=
  if str_eqb s (stringify numeric_result) then Ok numeric_result
  else simple_JSON_parse s.

Definition extended_platform : Platform := {|
  number := Z;
  number_truthy := fun z => negb (Z.eqb z 0);
  number_toString := Z_toString;
  URL_hostname := simple_hostname;
  toLowerCase := map ascii_lower;
  JSON_parse := extended_JSON_parse
|}.

Definition extended_prompt : list N :=
  match @ARTICLE_USER extended_platform sample_request with
  | Ok user => user
  | Throw _ => []
  end.

Definition answer_numeric (c : completion) : @outcome extended_platform :=
  @Resolved extended_platform
    (JObj [ field "choices"
              (JArr [ JObj [ field "message"
                               (JObj [ field "content"
                                         (JStr (stringify numeric_result)) ])
                           ] ]) ]).

(** A request for an outline that leaves the language out, and its
    prompt. *)
Definition outline_request : json Z := JObj [ field "topic" (str "diabetes") ].

Definition outline_prompt : list N :=
  match OUTLINE_USER (prop outline_request "topic")
          (default_to (prop outline_request "language")
                      (JStr (utf16 "العربية"))) with
  | Ok user => user
  | Throw _ => []
  end.

(** An article of three words with a claim verb between word
    characters. *)
Definition flanked_claim : list N := utf16 "<p>doseXيقللY</p>".

(** ** What the specification says, in its own words *)

(** *** Text *)

Fixpoint take_while (f : char16 -> bool) (s : jsstring) : jsstring :=
  match s with
  | [] => []
  | c :: s' => if f c then c :: take_while f s' else []
  end.

Fixpoint drop_while (f : char16 -> bool) (s : jsstring) : jsstring :=
  match s with
  | [] => []
  | c :: s' => if f c then drop_while f s' else s
  end.

(** The code unit before the position reached after reading [run]. *)
Fixpoint prev_after (p : option char16) (run : jsstring) : option char16 :=
  match run with
  | [] => p
  | c :: run' => prev_after (Some c) run'
  end.

(** The input does not go on with a character of the class. *)
Definition stops (f : char16 -> bool) (s : jsstring) : bool :=
  match s with
  | [] => true
  | c :: _ => negb (f c)
  end.

(** What a greedy [[class]*] followed by [k] tries, longest run first. *)
Fixpoint backtrack (k : input -> option input) (p : option char16)
         (run rest : jsstring) : option input :=
  match run with
  | [] => k (p, rest)
  | c :: run' =>
    match backtrack k (Some c) run' rest with
    | Some z => Some z
    | None => k (p, run ++ rest)
    end
  end.

(** The number of maximal runs of non-whitespace code units: a token
    starts at every non-whitespace code unit that does not continue
    one. *)
Fixpoint count_tokens (in_token : bool) (s : jsstring) : nat :=
  match s with
  | [] => 0
  | c :: s' =>
    if is_space c then count_tokens false s'
    else (if in_token then 0 else 1) + count_tokens true s'
  end.

(** A citation marker: a bracketed integer such as [[1]] or [[12]]. *)
Definition has_bracketed_integer (html : jsstring) : Prop :=
  exists pre digits post,
    html = pre ++ chr "[" :: digits ++ chr "]" :: post
    /\ digits <> [] /\ forallb is_digit digits = true.

(** The text contains one of the claim verbs of the handler. *)
Definition contains_claim_verb (text : jsstring) : Prop :=
  exists pre verb post, In verb CLAIM_VERBS /\ text = pre ++ verb ++ post.

(** A tag: [<], one or more code units other than [>], and [>]. *)
Definition tag_at (s body rest : jsstring) : Prop :=
  s = chr "<" :: body ++ chr ">" :: rest
  /\ body <> [] /\ Forall (fun c => c <> chr ">") body.

(** [stripped s r]: [r] is [s] with every tag, from left to right,
    replaced by one space. *)
Inductive stripped : jsstring -> jsstring -> Prop :=
| stripped_nil : stripped [] []
| stripped_tag s body rest r :
    tag_at s body rest -> stripped rest r -> stripped s (chr " " :: r)
| stripped_char c s r :
    (forall body rest, ~ tag_at (c :: s) body rest) ->
    stripped s r -> stripped (c :: s) (c :: r).


Section Specification.

Context {P : Platform}.

(** A host is trusted when it is an allow-listed domain, a subdomain of
    one (dot-suffix match), or ends in [.gov] or [.edu]. *)
Definition subdomain_or_equal (d sd : jsstring) : Prop :=
  d = sd \/ exists pre, d = pre ++ utf16 "." ++ sd.

Definition trusted_host (d : jsstring) : Prop :=
  (exists sd, In sd SAFE_DOMAINS /\ subdomain_or_equal d sd)
  \/ (exists pre, d = pre ++ utf16 ".gov")
  \/ (exists pre, d = pre ++ utf16 ".edu").

(** The result conforms to the shape asked of the generation backend. *)
Fixpoint valid (j : json number) (s : schema) {struct j} : bool :=
  match j, s with
  | JStr _, SString => true
  | JBool _, SBoolean => true
  | JArr l, SArray items => forallb (fun e => valid e items) l
  | JObj fs, SObject properties required additional =>
    forallb (fun k => match lookup k fs with Some _ => true | None => false end)
            required
    && (fix each (fs : list (jsstring * json number)) : bool :=
          match fs with
          | [] => true
          | (k, v) :: fs' =>
            match find (fun ks => str_eqb k (fst ks)) properties with
            | Some ks => valid v (snd ks)
            | None => additional
            end && each fs'
          end) fs
  | _, _ => false
  end.

Definition conforming (out : json number) : Prop :=
  valid out (schema_body articleSchema) = true.

(** *** The findings of the checkers

    What lines 144-152 add to the gate, as functions of the article. *)

Definition nonempty {A : Type} (l : list A) : bool := negb (length l =? 0).

Definition textOnly (html : jsstring) : jsstring :=
  replace_all RE_TAG (utf16 " ") html.

(** StructuralChecker: length, disclaimer, secondary keywords. *)
Definition structural_findings (html : jsstring) (keywords : value)
  : list jsstring :=
  (if word_count (textOnly html) <? 1200 then [MSG_SHORT] else [])
  ++ (if negb (test RE_DISCLAIMER (textOnly html)) then [MSG_DISCLAIMER]
      else [])
  ++ (if match keywords with
         | Some (JArr l) => length l <? 3
         | _ => true
         end
      then [MSG_KEYWORDS] else []).

(** ClaimScanner: claims without citation markers. *)
Definition claim_findings (html : jsstring) : list jsstring :=
  if test RE_CLAIM (textOnly html) && negb (test RE_CITE html)
  then [MSG_CLAIMS] else [].

(** A result whose article has the HTML [html] and the keywords
    [keywords], and whose gate has the three fields; [fs0] are the fields
    of the result as the backend returned it. *)
Definition gate_state (fs0 : list (jsstring * json number))
           (out : json number) (blocked : value)
           (reasons claims : list (json number)) : Prop :=
  exists fs gfs,
    out = JObj fs
    /\ (forall k, k <> utf16 "gate" -> lookup k fs = lookup k fs0)
    /\ lookup (utf16 "gate") fs = Some (JObj gfs)
    /\ lookup (utf16 "blocked") gfs = blocked
    /\ lookup (utf16 "reasons") gfs = Some (JArr reasons)
    /\ lookup (utf16 "claimsNeedingCitations") gfs = Some (JArr claims).

Definition article_state (fs0 : list (jsstring * json number))
           (html : jsstring) (keywords : value) : Prop :=
  exists article,
    lookup (utf16 "article") fs0 = Some article
    /\ prop article "articleHtmlContent" = Some (JStr html)
    /\ prop article "secondaryKeywords" = keywords.

(** A result with the article, the flag and the two sequences that the
    schema requires. *)
Definition generated (out : json number) (html : jsstring)
           (keywords : list (json number)) (blocked : bool)
           (reasons claims : list (json number)) : Prop :=
  exists fs,
    out = JObj fs
    /\ article_state fs html (Some (JArr keywords))
    /\ gate_state fs out (Some (JBool blocked)) reasons claims.

(** The fields of the gate of a result. *)
Definition gate_field (out : json number) (k : string) : value :=
  opt_get (prop out "gate") k.

(** The claim verbs as the specification lists them, next to the ones of
    the handler. *)
Definition SPEC_CLAIM_VERBS : list jsstring :=
  [utf16 "reduces"; utf16 "increases"; utf16 "prevents"; utf16 "treats";
   utf16 "improves"; utf16 "leads to"] ++ CLAIM_VERBS.

(** [verb] stands in [text] as a whole word: between whitespace or the
    ends of the text. *)
Definition whole_word (verb text : jsstring) : Prop :=
  exists pre post,
    text = pre ++ verb ++ post
    /\ stops not_space (rev pre) = true /\ stops not_space post = true.

Definition has_claim_word (text : jsstring) : Prop :=
  exists verb, In verb SPEC_CLAIM_VERBS /\ whole_word verb text.

(** A gate nobody has written to yet. *)
Definition fresh_gate (out : json number) : Prop :=
  gate_field out "blocked" = Some (JBool false)
  /\ gate_field out "reasons" = Some (JArr [])
  /\ gate_field out "claimsNeedingCitations" = Some (JArr []).

(** The reasons that pre-validation has for refusing a request, as the
    specification lists them. *)
Definition missing_field (p : json number) : Prop :=
  truthy (prop p "topic") = false \/ truthy (prop p "primaryKeyword") = false
  \/ truthy (prop p "outline") = false.

Definition bad_source_count (p : json number) : Prop :=
  forall l, prop p "sources" = Some (JArr l) -> length l < 3 \/ 6 < length l.

Definition rejected_source (p : json number) : Prop :=
  exists l s,
    prop p "sources" = Some (JArr l) /\ In s l /\ isAllowedSource s = false.

Definition reason_exists (p : json number) : Prop :=
  missing_field p \/ bad_source_count p \/ rejected_source p.

(** The fields of a response. *)
Definition response_field (resp : json number) (section name : string)
  : value :=
  opt_get (prop resp section) name.

(** *** The article operation *)

(** The one call the handler makes for a prompt [user]. *)
Definition article_completion (user : jsstring) : completion :=
  {| model := utf16 "gpt-5"; system_content := SYS_COMMON;
     user_content := user; json_schema := articleSchema |}.

(** What the handler answers once the call has returned [o]. *)
Definition after_generation (o : outcome) : response :=
  match out <- completion_result o ;; post_validate out with
  | Ok out' => Json200 out'
  | Throw e => send_error e
  end.

(** [null] or [undefined] *)
Definition nullish (v : value) : bool :=
  match v with
  | None => true
  | Some JNull => true
  | Some _ => false
  end.

(** *** The rest of the server *)

(** [Array.isArray] *)
Definition is_array (v : value) : bool :=
  match v with
  | Some (JArr _) => true
  | _ => false
  end.

(** ToString does not throw. *)
Definition printable (j : json number) : bool :=
  match toString j with
  | Ok _ => true
  | Throw _ => false
  end.

(** [sources] is missing or falsy, or it is an array whose elements can
    be printed. *)
Definition sources_listable (p : json number) : bool :=
  match prop p "sources" with
  | Some (JArr l) => forallb printable l
  | v => negb (truthy v)
  end.

(** [resp.choices?.[0]?.message?.content] *)
Definition completion_content (resp : json number) : value :=
  opt_get (opt_get (opt_first (prop resp "choices")) "message") "content".

(** The one call of the outline operation. *)
Definition outline_completion (user : jsstring) : completion :=
  {| model := utf16 "gpt-5"; system_content := SYS_COMMON;
     user_content := user; json_schema := outlineSchema |}.

(** The lines of the prompt for the sources, numbered from [i + 1]. *)
Fixpoint numbered (i : nat) (urls : list jsstring) : list jsstring :=
  match urls with
  | [] => []
  | u :: urls' =>
    (utf16 "[" ++ nat_toString (i + 1) ++ utf16 "] " ++ u)
      :: numbered (S i) urls'
  end.

(** Equal up to the case of ASCII letters. *)
Definition same_ignoring_case (a b : jsstring) : Prop :=
  map (canonicalize true) a = map (canonicalize true) b.

(** The text has one of the three forms of a disclaimer. *)
Definition has_disclaimer (text : jsstring) : Prop :=
  (exists pre ws post,
      text = pre ++ utf16 "إخلاء" ++ ws ++ utf16 "المسؤولية" ++ post
      /\ forallb is_space ws = true)
  \/ (exists pre ws post,
         text = pre ++ utf16 "تنبيه" ++ ws ++ utf16 "طبي" ++ post
         /\ forallb is_space ws = true)
  \/ (exists pre w post,
         text = pre ++ w ++ post
         /\ same_ignoring_case w (utf16 "Disclaimer")).

(** One of the verbs of the handler stands in the text right between
    two ASCII word characters. *)
Definition flanked_claim_verb (text : jsstring) : Prop :=
  exists pre b verb a post,
    In verb CLAIM_VERBS
    /\ text = pre ++ b :: verb ++ a :: post
    /\ is_word b = true /\ is_word a = true.

(** The article text of the result is there and is not a string. *)
Definition html_not_text (out : json number) : bool :=
  match opt_get (opt_get (Some out) "article") "articleHtmlContent" with
  | Some (JStr _) => false
  | v => truthy v
  end.

(** A code unit that is no ASCII letter is equal, up to case, to itself
    only. *)
Definition caseless (c : N) : bool :=
  negb ((65 <=? c) && (c <=? 90) || (97 <=? c) && (c <=? 122))%N.

End Specification.

(** * Properties *)

(** ** Strings *)

Lemma str_eqb_eq (a b : jsstring) : str_eqb a b = true <-> a = b.
Proof.
  revert b; induction a as [|x a IH]; intros [|y b]; simpl; split;
    try congruence; try reflexivity.
  - intros H. apply andb_true_iff in H as [H1 H2].
    apply N.eqb_eq in H1. apply IH in H2. congruence.
  - intros H. injection H as -> ->. rewrite N.eqb_refl. simpl.
    now apply IH.
Qed.

Lemma str_eqb_refl (a : jsstring) : str_eqb a a = true.
Proof. now apply str_eqb_eq. Qed.

Lemma str_eqb_neq (a b : jsstring) : str_eqb a b = false <-> a <> b.
Proof.
  split.
  - intros H E. apply str_eqb_eq in E. congruence.
  - intros H. destruct (str_eqb a b) eqn:E; [|reflexivity].
    apply str_eqb_eq in E. contradiction.
Qed.

Lemma endsWith_spec (s suffix : jsstring) :
  endsWith s suffix = true <-> exists pre, s = pre ++ suffix.
Proof.
  unfold endsWith. rewrite andb_true_iff, Nat.leb_le, str_eqb_eq. split.
  - intros [_ H]. remember (length s - length suffix) as n.
    exists (firstn n s). rewrite <- H. symmetry. apply firstn_skipn.
  - intros [pre ->]. rewrite length_app. split; [lia|].
    replace (length pre + length suffix - length suffix) with (length pre) by lia.
    rewrite skipn_app, Nat.sub_diag, skipn_all. reflexivity.
Qed.

Section SourceValidator.

Context {P : Platform}.

Lemma safe_domain_check (d : jsstring) :
  existsb (fun sd => str_eqb d sd || endsWith d (utf16 "." ++ sd)) SAFE_DOMAINS
  = true
  <-> exists sd, In sd SAFE_DOMAINS /\ subdomain_or_equal d sd.
Proof.
  rewrite existsb_exists. unfold subdomain_or_equal.
  split; intros [sd [Hin H]]; exists sd; split; trivial.
  - apply orb_true_iff in H as [H|H].
    + left. now apply str_eqb_eq.
    + right. now apply endsWith_spec.
  - apply orb_true_iff. destruct H as [H|H].
    + left. now apply str_eqb_eq.
    + right. now apply endsWith_spec.
Qed.

(** C2. [isAllowedSource(url)] is true exactly when [url] parses as a URL
    whose lower-cased host is an allow-listed domain, a dot-suffix
    subdomain of one, or ends in [.gov] or [.edu]; the failure of the URL
    constructor is caught inside and gives [false]. *)
Theorem isAllowedSource_spec (url : jsstring) :
  (isAllowedSource (JStr url) = true
   <-> exists hostname,
         URL_hostname url = Some hostname
         /\ trusted_host (toLowerCase hostname))
  /\ match URL_hostname url with
     | None => (exists e, isAllowedSource_try (JStr url) = Throw e)
               /\ isAllowedSource (JStr url) = false
     | Some hostname =>
       exists b, isAllowedSource_try (JStr url) = Ok b
     end.
Proof.
  unfold isAllowedSource, isAllowedSource_try, trusted_host.
  cbn [toString bind].
  destruct (URL_hostname url) as [h|]; cbn beta iota.
  - split.
    + destruct (existsb _ SAFE_DOMAINS) eqn:E.
      * split; [intros _|reflexivity]. exists h. split; [reflexivity|].
        left. now apply safe_domain_check.
      * rewrite orb_true_iff, !endsWith_spec. split.
        -- intros H. exists h. split; [reflexivity|]. right. exact H.
        -- intros [h' [Hh [H|H]]]; injection Hh as <-; [|exact H].
           apply safe_domain_check in H. congruence.
    + destruct (existsb _ SAFE_DOMAINS); eauto.
  - split.
    + split; [discriminate|]. intros [h [H _]]. discriminate.
    + split; [eauto|reflexivity].
Qed.

End SourceValidator.

(** ** The regular expressions of the handler *)

Section Greedy.

Variable f : char16 -> bool.

Lemma take_drop_while (s : jsstring) :
  s = take_while f s ++ drop_while f s.
Proof.
  induction s as [|c s IH]; simpl; [reflexivity|].
  destruct (f c); simpl; congruence.
Qed.

Lemma take_while_all (s : jsstring) : forallb f (take_while f s) = true.
Proof.
  induction s as [|c s IH]; simpl; [reflexivity|].
  destruct (f c) eqn:E; simpl; [now rewrite E|reflexivity].
Qed.

Lemma drop_while_stops (s : jsstring) : stops f (drop_while f s) = true.
Proof.
  induction s as [|c s IH]; simpl; [reflexivity|].
  destruct (f c) eqn:E; simpl; [assumption|now rewrite E].
Qed.

Lemma drop_while_length (s : jsstring) :
  length (drop_while f s) <= length s.
Proof.
  induction s as [|c s IH]; simpl; [lia|].
  destruct (f c); simpl; lia.
Qed.

(** The greedy repetition of a class tries the longest run first and
    gives code units back one at a time. *)
Lemma repeat_matcher_class (k : input -> option input) (run : jsstring) :
  forall (n : nat) (p : option char16) (rest : jsstring),
    forallb f run = true -> stops f rest = true -> length run <= n ->
    repeat_matcher (char_matcher f) k n (p, run ++ rest)
    = backtrack k p run rest.
Proof.
  induction run as [|c run IH]; intros n p rest Hrun Hrest Hn.
  - destruct n as [|n]; simpl; [reflexivity|].
    unfold char_matcher; simpl.
    destruct rest as [|c t]; [reflexivity|].
    simpl in Hrest. apply negb_true_iff in Hrest. now rewrite Hrest.
  - destruct n as [|n]; simpl in Hn; [lia|].
    simpl in Hrun. apply andb_true_iff in Hrun as [Hc Hrun].
    cbn [repeat_matcher backtrack].
    unfold char_matcher at 1. cbn [snd app]. rewrite Hc.
    unfold RegExp.rest. cbn [snd].
    replace (length (run ++ rest) <? length (c :: run ++ rest)) with true
      by (symmetry; apply Nat.ltb_lt; simpl; lia).
    rewrite IH by (trivial; lia). reflexivity.
Qed.

Lemma backtrack_first (k : input -> option input) (run : jsstring) :
  forall (p : option char16) (rest : jsstring) (z : input),
    k (prev_after p run, rest) = Some z ->
    backtrack k p run rest = Some z.
Proof.
  induction run as [|c run IH]; intros p rest z H; simpl in *.
  - exact H.
  - now rewrite (IH _ _ _ H).
Qed.

Lemma backtrack_last (k : input -> option input) (run : jsstring) :
  forall (p : option char16) (rest : jsstring),
    (forall q c t, f c = true -> k (q, c :: t) = None) ->
    forallb f run = true ->
    backtrack k p run rest = k (prev_after p run, rest).
Proof.
  induction run as [|c run IH]; intros p rest Hk Hrun; simpl in *.
  - reflexivity.
  - apply andb_true_iff in Hrun as [Hc Hrun].
    rewrite (IH _ _ Hk Hrun).
    destruct (k (prev_after (Some c) run, rest)); [reflexivity|].
    now apply Hk.
Qed.

End Greedy.

Lemma drop_while_app (f : char16 -> bool) (run rest : jsstring) :
  forallb f run = true -> stops f rest = true ->
  drop_while f (run ++ rest) = rest.
Proof.
  induction run as [|c run IH]; simpl; intros Hrun Hrest.
  - destruct rest as [|c t]; [reflexivity|]. simpl in *.
    apply negb_true_iff in Hrest. now rewrite Hrest.
  - apply andb_true_iff in Hrun as [Hc Hrun]. rewrite Hc. now apply IH.
Qed.

(** *** [/\S+/g]: the words *)

Lemma match_here_word (p : option char16) (s : jsstring) :
  match_here RE_WORD (p, s)
  = match s with
    | [] => None
    | c :: t =>
      if is_space c then None
      else Some (prev_after (Some c) (take_while not_space t),
                 drop_while not_space t)
    end.
Proof.
  unfold match_here, RE_WORD. cbn [pattern ignoreCase Plus compile].
  unfold char_matcher at 1. cbn [snd].
  destruct s as [|c t]; [reflexivity|].
  unfold not_space at 1. destruct (is_space c); cbn [negb]; [reflexivity|].
  unfold RegExp.rest. cbn [snd].
  pose proof (repeat_matcher_class not_space (fun y => Some y)
                (take_while not_space t) (n := length t) (Some c)
                (drop_while not_space t)
                (take_while_all _ _) (drop_while_stops _ _)) as H.
  rewrite <- take_drop_while in H.
  rewrite H.
  - now apply backtrack_first.
  - rewrite (take_drop_while not_space t) at 2. rewrite length_app. lia.
Qed.

Lemma count_tokens_in_token (s : jsstring) :
  count_tokens true s = count_tokens false (drop_while not_space s).
Proof.
  induction s as [|c s IH]; [reflexivity|].
  unfold not_space in *. simpl. destruct (is_space c) eqn:E; simpl.
  - now rewrite E.
  - exact IH.
Qed.

Lemma match_loop_word (fuel : nat) :
  forall (p : option char16) (s : jsstring),
    length s < fuel ->
    length (match_loop RE_WORD fuel p s) = count_tokens false s.
Proof.
  induction fuel as [|fuel IH]; intros p s Hlen; [lia|].
  cbn [match_loop]. rewrite match_here_word.
  destruct s as [|c t]; [reflexivity|].
  cbn [count_tokens]. destruct (is_space c).
  - apply IH. simpl in Hlen. lia.
  - pose proof (drop_while_length not_space t) as Hd.
    replace (length (c :: t) - length (drop_while not_space t) =? 0)
      with false by (symmetry; apply Nat.eqb_neq; cbn [length]; lia).
    cbn [length]. rewrite IH by (cbn [length] in Hlen; lia).
    now rewrite count_tokens_in_token.
Qed.

(** The word count of the handler is the number of maximal runs of
    non-whitespace code units. *)
Lemma word_count_tokens (s : jsstring) :
  word_count s = count_tokens false s.
Proof. unfold word_count, match_all. apply match_loop_word. lia. Qed.

(** *** [/<[^>]+>/g]: the tags *)

Lemma match_here_tag (p : option char16) (s : jsstring) :
  match_here RE_TAG (p, s)
  = match s with
    | lt :: c :: t =>
      if (lt =? chr "<")%N && not_gt c then
        match drop_while not_gt t with
        | gt :: r => Some (Some gt, r)
        | [] => None
        end
      else None
    | _ => None
    end.
Proof.
  unfold match_here, RE_TAG. cbn [pattern ignoreCase Plus compile].
  unfold char_matcher at 1. cbn [snd canonicalize andb].
  destruct s as [|lt s]; [reflexivity|].
  destruct (lt =? chr "<")%N; cbn [andb];
    [|now destruct s].
  unfold char_matcher at 1. cbn [snd].
  destruct s as [|c t]; [reflexivity|].
  destruct (not_gt c); [|reflexivity].
  unfold RegExp.rest. cbn [snd].
  set (k := char_matcher _ _).
  pose proof (repeat_matcher_class not_gt k
                (take_while not_gt t) (n := length t) (Some c)
                (drop_while not_gt t)
                (take_while_all _ _) (drop_while_stops _ _)) as H.
  rewrite <- take_drop_while in H.
  rewrite H.
  - rewrite (@backtrack_last not_gt).
    + unfold k, char_matcher. cbn [snd].
      pose proof (drop_while_stops not_gt t) as Hs.
      destruct (drop_while not_gt t) as [|g r]; [reflexivity|].
      simpl in Hs. unfold not_gt in Hs. rewrite negb_involutive in Hs.
      now rewrite Hs.
    + intros q c' t' Hc'. unfold k, char_matcher. cbn [snd].
      unfold not_gt in Hc'. apply negb_true_iff in Hc'. now rewrite Hc'.
    + apply take_while_all.
  - rewrite (take_drop_while not_gt t) at 2. rewrite length_app. lia.
Qed.

Lemma forallb_not_gt (body : jsstring) :
  forallb not_gt body = true <-> Forall (fun c => c <> chr ">") body.
Proof.
  rewrite forallb_forall, Forall_forall. unfold not_gt.
  split; intros H c Hc; specialize (H c Hc).
  - apply negb_true_iff, N.eqb_neq in H. exact H.
  - apply negb_true_iff, N.eqb_neq. exact H.
Qed.

Lemma tag_at_inv (lt c : char16) (t body rest : jsstring) :
  tag_at (lt :: c :: t) body rest ->
  lt = chr "<" /\ not_gt c = true
  /\ drop_while not_gt t = chr ">" :: rest.
Proof.
  intros [E [Hne Hall]].
  destruct body as [|b body]; [contradiction|].
  simpl in E. injection E as -> -> ->.
  inversion Hall as [|? ? Hb Hbody]; subst.
  split; [reflexivity|]. split.
  - unfold not_gt. now apply negb_true_iff, N.eqb_neq.
  - apply drop_while_app; [now apply forallb_not_gt|reflexivity].
Qed.

Lemma replace_loop_stripped (fuel : nat) :
  forall (p : option char16) (s : jsstring),
    length s < fuel ->
    stripped s (replace_loop RE_TAG (utf16 " ") fuel p s).
Proof.
  induction fuel as [|fuel IH]; intros p s Hlen; [lia|].
  cbn [replace_loop]. rewrite match_here_tag.
  destruct s as [|lt [|c t]].
  - constructor.
  - apply stripped_char.
    + intros body rest [E [Hne _]]. destruct body; [contradiction|].
      simpl in E. injection E as _ E. destruct body; discriminate.
    + apply IH. simpl in Hlen. simpl. lia.
  - assert (Hrec : stripped (c :: t)
                     (replace_loop RE_TAG (utf16 " ") fuel (Some lt) (c :: t)))
      by (apply IH; simpl in *; lia).
    destruct ((lt =? chr "<")%N && not_gt c) eqn:Hc.
    + apply andb_true_iff in Hc as [Hlt Hc]. apply N.eqb_eq in Hlt.
      pose proof (drop_while_length not_gt t) as Hd.
      pose proof (drop_while_stops not_gt t) as Hs.
      pose proof (take_drop_while not_gt t) as Ht.
      destruct (drop_while not_gt t) as [|g r] eqn:Hdrop.
      * apply stripped_char; [|exact Hrec].
        intros body rest Htag. apply tag_at_inv in Htag as [_ [_ E]].
        congruence.
      * replace (length (lt :: c :: t) - length r =? 0) with false
          by (symmetry; apply Nat.eqb_neq; cbn [length] in *; lia).
        simpl in Hs. unfold not_gt in Hs. rewrite negb_involutive in Hs.
        apply N.eqb_eq in Hs. subst g lt.
        apply stripped_tag with (body := c :: take_while not_gt t) (rest := r).
        -- split; [cbn [app]; now rewrite <- Ht|]. split; [discriminate|].
           apply forallb_not_gt. cbn [forallb]. rewrite Hc.
           apply take_while_all.
        -- apply IH. cbn [length] in *. lia.
    + apply stripped_char; [|exact Hrec].
      intros body rest Htag. apply tag_at_inv in Htag as [-> [Hc' _]].
      rewrite Hc' in Hc. discriminate.
Qed.

(** Line 144 replaces every tag by one space. *)
Lemma replace_all_stripped (html : jsstring) :
  stripped html (replace_all RE_TAG (utf16 " ") html).
Proof. unfold replace_all. apply replace_loop_stripped. lia. Qed.

Lemma tag_at_unique (s b1 r1 b2 r2 : jsstring) :
  tag_at s b1 r1 -> tag_at s b2 r2 -> b1 = b2 /\ r1 = r2.
Proof.
  intros H1 H2. pose proof H1 as [E1 [N1 _]]. pose proof H2 as [E2 _].
  destruct b1 as [|c b1]; [contradiction|]. cbn [app] in E1. subst s.
  apply tag_at_inv in H1 as [_ [_ D1]]. apply tag_at_inv in H2 as [_ [_ D2]].
  assert (r1 = r2) as <- by congruence. split; [|reflexivity].
  injection E2 as E2.
  exact (app_inv_tail (chr ">" :: r1) (c :: b1) b2 E2).
Qed.

(** The text without tags is determined by the HTML. *)
Lemma stripped_functional (s r1 r2 : jsstring) :
  stripped s r1 -> stripped s r2 -> r1 = r2.
Proof.
  intros H1. revert r2.
  induction H1 as [|s body rest r Htag _ IH|c s r Hno _ IH];
    intros r2 H2; inversion H2; subst; try reflexivity;
    try match goal with
        | H : tag_at [] _ _ |- _ => destruct H as [E _]; discriminate
        end;
    try match goal with
        | Hn : forall body rest, ~ tag_at ?s body rest,
          Ht : tag_at ?s _ _ |- _ => exfalso; exact (Hn _ _ Ht)
        end.
  - match goal with
    | Ht : tag_at s _ _ |- _ =>
      destruct (tag_at_unique Htag Ht) as [_ <-]
    end.
    f_equal. now apply IH.
  - f_equal. now apply IH.
Qed.

(** *** Searching *)

Lemma search_unfold (re : RegExp.t) (p : option char16) (s : jsstring) :
  search re p s
  = match match_here re (p, s) with
    | Some _ => true
    | None => match s with [] => false | c :: s' => search re (Some c) s' end
    end.
Proof. destruct s; reflexivity. Qed.

Lemma search_app (re : RegExp.t) (pre : jsstring) :
  forall (p : option char16) (s : jsstring),
    match_here re (prev_after p pre, s) <> None ->
    search re p (pre ++ s) = true.
Proof.
  induction pre as [|c pre IH]; intros p s H.
  - simpl in *. rewrite search_unfold.
    destruct (match_here re (p, s)); [reflexivity|contradiction].
  - cbn [app]. rewrite search_unfold.
    destruct (match_here re (p, _)); [reflexivity|].
    now apply IH.
Qed.

Lemma search_inv (re : RegExp.t) (s : jsstring) :
  forall (p : option char16),
    search re p s = true ->
    exists pre suf,
      s = pre ++ suf /\ match_here re (prev_after p pre, suf) <> None.
Proof.
  induction s as [|c s IH]; intros p H; rewrite search_unfold in H.
  - destruct (match_here re (p, _)) eqn:E; [|discriminate].
    exists [], []. split; [reflexivity|]. simpl. congruence.
  - destruct (match_here re (p, _)) eqn:E.
    + exists [], (c :: s). split; [reflexivity|]. simpl. congruence.
    + destruct (IH _ H) as [pre [suf [-> Hm]]].
      exists (c :: pre), suf. split; [reflexivity|exact Hm].
Qed.

(** *** [/\[\d+\]/]: the citation markers *)

Lemma match_here_cite (p : option char16) (s : jsstring) :
  match_here RE_CITE (p, s)
  = match s with
    | lb :: d :: t =>
      if (lb =? chr "[")%N && is_digit d then
        match drop_while is_digit t with
        | rb :: r => if (rb =? chr "]")%N then Some (Some rb, r) else None
        | [] => None
        end
      else None
    | _ => None
    end.
Proof.
  unfold match_here, RE_CITE. cbn [pattern ignoreCase Plus compile].
  unfold char_matcher at 1. cbn [snd canonicalize andb].
  destruct s as [|lb s]; [reflexivity|].
  destruct (lb =? chr "[")%N; cbn [andb]; [|now destruct s].
  unfold char_matcher at 1. cbn [snd].
  destruct s as [|d t]; [reflexivity|].
  destruct (is_digit d); [|reflexivity].
  unfold RegExp.rest. cbn [snd].
  set (k := char_matcher _ _).
  pose proof (repeat_matcher_class is_digit k
                (take_while is_digit t) (n := length t) (Some d)
                (drop_while is_digit t)
                (take_while_all _ _) (drop_while_stops _ _)) as H.
  rewrite <- take_drop_while in H. rewrite H.
  - rewrite (@backtrack_last is_digit).
    + unfold k, char_matcher. cbn [snd].
      now destruct (drop_while is_digit t).
    + intros q c' t' Hc'. unfold k, char_matcher. cbn [snd].
      destruct (c' =? chr "]")%N eqn:E; [|reflexivity].
      apply N.eqb_eq in E. subst c'. discriminate.
    + apply take_while_all.
  - rewrite (take_drop_while is_digit t) at 2. rewrite length_app. lia.
Qed.

(** [hasCites] holds exactly when the HTML has a bracketed integer. *)
Lemma test_cite_spec (html : jsstring) :
  test RE_CITE html = true <-> has_bracketed_integer html.
Proof.
  unfold test, has_bracketed_integer. split.
  - intros H. apply search_inv in H as [pre [suf [-> H]]].
    rewrite match_here_cite in H.
    destruct suf as [|lb [|d t]]; try contradiction.
    destruct ((lb =? chr "[")%N && is_digit d) eqn:E; [|contradiction].
    apply andb_true_iff in E as [Elb Ed]. apply N.eqb_eq in Elb. subst lb.
    pose proof (take_drop_while is_digit t) as Ht.
    destruct (drop_while is_digit t) as [|rb r]; [contradiction|].
    destruct (rb =? chr "]")%N eqn:Erb; [|contradiction].
    apply N.eqb_eq in Erb. subst rb.
    exists pre, (d :: take_while is_digit t), r.
    split; [cbn [app]; now rewrite <- Ht|]. split; [discriminate|].
    cbn [forallb]. rewrite Ed. apply take_while_all.
  - intros [pre [ds [post [-> [Hne Hds]]]]].
    apply search_app. rewrite match_here_cite.
    destruct ds as [|d ds]; [contradiction|].
    cbn [forallb] in Hds. apply andb_true_iff in Hds as [Hd Hds].
    cbn [app]. rewrite N.eqb_refl, Hd. cbn [andb].
    rewrite drop_while_app by (trivial; reflexivity).
    rewrite N.eqb_refl. discriminate.
Qed.

(** *** [/\b(...)\b/]: the claim verbs *)

Lemma compile_Lit_inv (s : jsstring) :
  forall (k : input -> option input) (x z : input),
    compile false (Lit s) k x = Some z ->
    exists t, snd x = s ++ t /\ k (prev_after (fst x) s, t) = Some z.
Proof.
  induction s as [|c s IH]; intros k [p w] z H; cbn [Lit compile] in H.
  - exists w. split; [reflexivity|exact H].
  - unfold char_matcher in H. cbn [snd canonicalize andb] in H.
    destruct w as [|ch w]; [discriminate|].
    destruct (ch =? c)%N eqn:E; [|discriminate].
    apply N.eqb_eq in E. subst ch.
    apply IH in H as [t [Hw Hk]]. cbn [fst snd] in *. subst w.
    exists t. split; [reflexivity|exact Hk].
Qed.

Lemma compile_Lit_complete (s : jsstring) :
  forall (k : input -> option input) (p : option char16) (t : jsstring),
    compile false (Lit s) k (p, s ++ t) = k (prev_after p s, t).
Proof.
  induction s as [|c s IH]; intros k p t; cbn [Lit compile].
  - reflexivity.
  - unfold char_matcher. cbn [snd canonicalize andb app].
    rewrite N.eqb_refl. apply IH.
Qed.

Lemma compile_alternatives_inv (l : list jsstring) :
  forall (k : input -> option input) (x z : input),
    compile false (alternatives l) k x = Some z ->
    exists s, In s l /\ compile false (Lit s) k x = Some z.
Proof.
  induction l as [|s l IH]; intros k x z H.
  - cbn [alternatives compile] in H. unfold char_matcher in H.
    now destruct (snd x).
  - destruct l as [|s' l].
    + exists s. split; [now left|exact H].
    + cbn [alternatives compile] in H. fold (alternatives (s' :: l)) in H.
      destruct (compile false (Lit s) k x) eqn:E.
      * injection H as <-. exists s. split; [now left|exact E].
      * apply IH in H as [v [Hv Hc]]. exists v. split; [now right|exact Hc].
Qed.

Lemma compile_alternatives_complete (l : list jsstring) :
  forall (k : input -> option input) (x : input) (s : jsstring),
    In s l -> compile false (Lit s) k x <> None ->
    compile false (alternatives l) k x <> None.
Proof.
  induction l as [|s0 l IH]; intros k x s Hin H; [contradiction|].
  destruct l as [|s' l].
  - destruct Hin as [->|[]]. exact H.
  - cbn [alternatives compile]. fold (alternatives (s' :: l)).
    destruct (compile false (Lit s0) k x) eqn:E; [discriminate|].
    destruct Hin as [->|Hin]; [contradiction|].
    now apply (IH k x s).
Qed.

Lemma prev_after_app (p : option char16) (a b : jsstring) :
  prev_after p (a ++ b) = prev_after (prev_after p a) b.
Proof. revert p. induction a as [|c a IH]; intros p; simpl; auto. Qed.

(** Where [hasClaims] finds a verb, the code unit before it and the one
    after it are ASCII word characters: the verbs begin and end with
    Arabic letters, which [\b] does not count as word characters. *)
Lemma claim_pattern_word_characters (text : jsstring) :
  test RE_CLAIM text = true ->
  exists pre verb post,
    In verb CLAIM_VERBS /\ text = pre ++ verb ++ post
    /\ word_before (prev_after None pre, verb ++ post) = true
    /\ word_after (prev_after None (pre ++ verb), post) = true.
Proof.
  unfold test. intros H. apply search_inv in H as [pre [suf [-> H]]].
  unfold match_here, RE_CLAIM in H.
  cbn [pattern ignoreCase compile] in H.
  destruct (xorb _ _) eqn:X; [|contradiction].
  destruct (compile false (alternatives CLAIM_VERBS) _ _) as [z|] eqn:E;
    [|contradiction].
  apply compile_alternatives_inv in E as [verb [Hin E]].
  apply compile_Lit_inv in E as [t [Hsuf Hk]]. cbn [fst snd] in Hsuf, Hk.
  subst suf. cbn [compile] in Hk.
  destruct (xorb (word_before _) (word_after _)) eqn:Y in Hk; [|discriminate].
  exists pre, verb, t. split; [exact Hin|]. split; [reflexivity|].
  rewrite prev_after_app.
  unfold word_before, word_after in *. cbn [fst snd] in *.
  repeat (destruct Hin as [<-|Hin];
          [cbn in X, Y |- *; rewrite xorb_false_r in X; split; assumption|]).
  destruct Hin.
Qed.

(** [hasClaims] needs one of the verbs in the text. *)
Lemma test_claim_contains (text : jsstring) :
  test RE_CLAIM text = true -> contains_claim_verb text.
Proof.
  unfold test. intros H. apply search_inv in H as [pre [suf [-> H]]].
  unfold match_here, RE_CLAIM in H.
  cbn [pattern ignoreCase compile] in H.
  destruct (xorb _ _); [|contradiction].
  destruct (compile false (alternatives CLAIM_VERBS) _ _) as [z|] eqn:E;
    [|contradiction].
  apply compile_alternatives_inv in E as [verb [Hin E]].
  apply compile_Lit_inv in E as [t [Hsuf _]]. cbn [snd] in Hsuf. subst suf.
  now exists pre, verb, t.
Qed.

(** ** Post-validation *)

Section PostValidation.

Context {P : Platform}.

Lemma lookup_assign_eq (k : jsstring) (v : json number)
      (fs : list (jsstring * json number)) :
  lookup k (assign k v fs) = Some v.
Proof.
  induction fs as [|[k' v'] fs IH]; simpl.
  - now rewrite str_eqb_refl.
  - destruct (str_eqb k k') eqn:E; simpl; rewrite E; [reflexivity|exact IH].
Qed.

Lemma lookup_assign_ne (k k' : jsstring) (v : json number)
      (fs : list (jsstring * json number)) :
  str_eqb k' k = false -> lookup k' (assign k v fs) = lookup k' fs.
Proof.
  intros Hne. induction fs as [|[k0 v0] fs IH]; simpl.
  - now rewrite Hne.
  - destruct (str_eqb k k0) eqn:E; simpl.
    + apply str_eqb_eq in E. subst k0. now rewrite Hne.
    + now rewrite IH.
Qed.

(** An array prints as its elements joined with commas. *)
Lemma toString_array (l : list (json number)) :
  toString (JArr l) = array_join (utf16 ",") l.
Proof. reflexivity. Qed.

Lemma gate_state_others fs0 out b rs cs (k : string) :
  gate_state fs0 out b rs cs -> str_eqb (utf16 k) (utf16 "gate") = false ->
  prop out k = lookup (utf16 k) fs0.
Proof.
  intros [fs [gfs [-> [Hfs _]]]] Hk. simpl. apply Hfs.
  now apply str_eqb_neq.
Qed.

(** A push adds its message at the end of the array and leaves the rest
    of the result alone. *)
Lemma push_reason_state fs0 out b rs cs (c : bool) (msg : jsstring) :
  gate_state fs0 out b rs cs ->
  exists out',
    push_if c out "reasons" msg = Ok out'
    /\ gate_state fs0 out' b (rs ++ map JStr (if c then [msg] else [])) cs.
Proof.
  intros H. destruct c; cbn [push_if map].
  2:{ exists out. rewrite app_nil_r. now split. }
  destruct H as [fs [gfs [-> [Hfs [Hg [Hb [Hr Hc]]]]]]].
  unfold gate_push. cbn [get prop bind]. rewrite Hg. cbn [get prop bind].
  rewrite Hr. cbn [bind set_prop].
  eexists. split; [reflexivity|].
  exists (assign (utf16 "gate")
                 (JObj (assign (utf16 "reasons") (JArr (rs ++ [JStr msg])) gfs))
                 fs),
         (assign (utf16 "reasons") (JArr (rs ++ [JStr msg])) gfs).
  split; [reflexivity|]. split.
  { intros k Hk. rewrite lookup_assign_ne; [now apply Hfs|].
    now apply str_eqb_neq. }
  split; [apply lookup_assign_eq|].
  split; [now rewrite lookup_assign_ne|].
  split; [apply lookup_assign_eq|].
  now rewrite lookup_assign_ne.
Qed.

Lemma push_claim_state fs0 out b rs cs (c : bool) (msg : jsstring) :
  gate_state fs0 out b rs cs ->
  exists out',
    push_if c out "claimsNeedingCitations" msg = Ok out'
    /\ gate_state fs0 out' b rs (cs ++ map JStr (if c then [msg] else [])).
Proof.
  intros H. destruct c; cbn [push_if map].
  2:{ exists out. rewrite app_nil_r. now split. }
  destruct H as [fs [gfs [-> [Hfs [Hg [Hb [Hr Hc]]]]]]].
  unfold gate_push. cbn [get prop bind]. rewrite Hg. cbn [get prop bind].
  rewrite Hc. cbn [bind set_prop].
  eexists. split; [reflexivity|].
  exists (assign (utf16 "gate")
                 (JObj (assign (utf16 "claimsNeedingCitations")
                               (JArr (cs ++ [JStr msg])) gfs))
                 fs),
         (assign (utf16 "claimsNeedingCitations") (JArr (cs ++ [JStr msg])) gfs).
  split; [reflexivity|]. split.
  { intros k Hk. rewrite lookup_assign_ne; [now apply Hfs|].
    now apply str_eqb_neq. }
  split; [apply lookup_assign_eq|].
  split; [now rewrite lookup_assign_ne|].
  split; [now rewrite lookup_assign_ne|].
  apply lookup_assign_eq.
Qed.

(** Line 154 sets [blocked] when a reason, the flag or a claim is there
    and otherwise leaves the flag as it is. *)
Lemma aggregate_state fs0 out b rs cs :
  gate_state fs0 out b rs cs ->
  exists out',
    aggregate out = Ok out'
    /\ gate_state fs0 out'
         (if nonempty rs || truthy b || nonempty cs
          then Some (JBool true) else b) rs cs.
Proof.
  intros H. pose proof H as [fs [gfs [-> [Hfs [Hg [Hb [Hr Hc]]]]]]].
  unfold aggregate. cbn [get prop bind]. rewrite Hg. cbn [get prop bind].
  rewrite Hr, Hb, Hc. cbn [length_truthy bind]. fold (nonempty rs).
  fold (nonempty cs).
  assert (Hset : gate_state fs0
            (set_prop (JObj fs) "gate" (set_prop (JObj gfs) "blocked" (JBool true)))
            (Some (JBool true)) rs cs).
  { cbn [set_prop]. do 2 eexists. split; [reflexivity|]. split.
    { intros k Hk. rewrite lookup_assign_ne; [now apply Hfs|].
      now apply str_eqb_neq. }
    split; [apply lookup_assign_eq|].
    split; [apply lookup_assign_eq|].
    split; now rewrite lookup_assign_ne. }
  destruct (nonempty rs); cbn [bind orb].
  { eexists. split; [reflexivity|exact Hset]. }
  destruct (truthy b); cbn [bind orb].
  { eexists. split; [reflexivity|exact Hset]. }
  cbn [length_truthy]. fold (nonempty cs).
  destruct (nonempty cs); cbn [bind].
  { eexists. split; [reflexivity|exact Hset]. }
  eexists. split; [reflexivity|exact H].
Qed.

(** Lines 144-154 on a result that has the fields they read. *)
Lemma post_validate_state fs0 html kws b rs cs :
  article_state fs0 html kws ->
  gate_state fs0 (JObj fs0) b rs cs ->
  exists out',
    post_validate (JObj fs0) = Ok out'
    /\ let rs' := rs ++ map JStr (structural_findings html kws) in
       let cs' := cs ++ map JStr (claim_findings html) in
       gate_state fs0 out'
         (if nonempty rs' || truthy b || nonempty cs'
          then Some (JBool true) else b) rs' cs'.
Proof.
  intros [article [Ha [Hhtml Hkws]]] H0.
  assert (Hart : forall out b rs cs,
             gate_state fs0 out b rs cs ->
             get (Some out) "article" = Ok (Some article)).
  { intros out' b' rs' cs' H'.
    pose proof (gate_state_others "article" H' eq_refl) as E.
    destruct H' as [fs [gfs [-> _]]]. unfold get. now rewrite E, Ha. }
  assert (Hget : forall j : json number,
             get (Some article) "articleHtmlContent" = Ok (Some (JStr html))
             /\ get (Some article) "secondaryKeywords" = Ok kws).
  { intros _. unfold get. rewrite Hhtml, Hkws.
    destruct article; try discriminate. now split. }
  destruct (Hget JNull) as [Hg1 Hg2]. clear Hget.
  unfold post_validate.
  assert (Htext : textOnly_of (JObj fs0) = Ok (textOnly html)).
  { unfold textOnly_of. cbn [opt_get prop]. rewrite Ha.
    replace (opt_get (Some article) "articleHtmlContent")
      with (Some (@JStr number html))
      by (destruct article; try discriminate; now rewrite <- Hhtml).
    unfold or_else, truthy. now destruct html. }
  rewrite Htext. cbn [bind].
  destruct (push_reason_state (word_count (textOnly html) <? 1200)
              MSG_SHORT H0) as [o1 [E1 H1]].
  rewrite E1. cbn [bind].
  destruct (push_reason_state (negb (test RE_DISCLAIMER (textOnly html)))
              MSG_DISCLAIMER H1) as [o2 [E2 H2]].
  rewrite E2. cbn [bind].
  rewrite (Hart _ _ _ _ H2). cbn [bind]. rewrite Hg2. cbn [bind].
  destruct (push_reason_state
              (match kws with Some (JArr l) => length l <? 3 | _ => true end)
              MSG_KEYWORDS H2) as [o3 [E3 H3]].
  rewrite E3. cbn [bind].
  rewrite (Hart _ _ _ _ H3). cbn [bind]. rewrite Hg1. cbn [bind].
  replace (toString (or_else (Some (JStr html)) (JStr []))) with (Ok html)
    by (unfold or_else, truthy; now destruct html).
  cbn [bind].
  destruct (push_claim_state
              (test RE_CLAIM (textOnly html) && negb (test RE_CITE html))
              MSG_CLAIMS H3) as [o4 [E4 H4]].
  rewrite E4. cbn [bind].
  destruct (aggregate_state H4) as [o5 [E5 H5]].
  exists o5. split; [exact E5|]. cbv zeta.
  unfold structural_findings, claim_findings.
  rewrite !map_app, !app_assoc.
  repeat rewrite <- app_assoc in H5. repeat rewrite <- app_assoc.
  exact H5.
Qed.

Lemma valid_object (fs : list (jsstring * json number))
      (props : list (jsstring * schema)) (req : list jsstring) (addl : bool) :
  valid (JObj fs) (SObject props req addl)
  = forallb (fun k => match lookup k fs with Some _ => true | None => false end)
            req
    && forallb (fun kv =>
                  match find (fun ks => str_eqb (fst kv) (fst ks)) props with
                  | Some ks => valid (snd kv) (snd ks)
                  | None => addl
                  end) fs.
Proof.
  cbn [valid]. f_equal.
  induction fs as [|[k v] fs IH]; [reflexivity|].
  cbn [forallb fst snd]. now rewrite IH.
Qed.

Lemma lookup_In (k : jsstring) (fs : list (jsstring * json number))
      (v : json number) :
  lookup k fs = Some v -> In (k, v) fs.
Proof.
  induction fs as [|[k' v'] fs IH]; simpl; [discriminate|].
  destruct (str_eqb k k') eqn:E.
  - intros [= ->]. apply str_eqb_eq in E. subst. now left.
  - intros H. right. now apply IH.
Qed.

(** A required property of a valid object is there and is valid. *)
Lemma valid_required (v : json number) (props : list (jsstring * schema))
      (req : list jsstring) (addl : bool) (k : jsstring)
      (ks : jsstring * schema) :
  valid v (SObject props req addl) = true ->
  In k req ->
  find (fun ks => str_eqb k (fst ks)) props = Some ks ->
  exists fs x,
    v = JObj fs /\ lookup k fs = Some x /\ valid x (snd ks) = true.
Proof.
  intros Hv Hk Hfind. destruct v; try discriminate.
  rewrite valid_object in Hv. apply andb_true_iff in Hv as [Hreq Hall].
  rewrite forallb_forall in Hreq, Hall.
  specialize (Hreq k Hk).
  destruct (lookup k fields) as [x|] eqn:E; [|discriminate].
  exists fields, x. split; [reflexivity|]. split; [exact E|].
  specialize (Hall (k, x) (lookup_In _ _ E)). cbn [fst snd] in Hall.
  now rewrite Hfind in Hall.
Qed.

Lemma valid_string (v : json number) :
  valid v SString = true -> exists s, v = JStr s.
Proof. destruct v; try discriminate. eauto. Qed.

Lemma valid_boolean (v : json number) :
  valid v SBoolean = true -> exists b, v = JBool b.
Proof. destruct v; try discriminate. eauto. Qed.

Lemma valid_array (v : json number) (items : schema) :
  valid v (SArray items) = true -> exists l, v = JArr l.
Proof. destruct v; try discriminate. eauto. Qed.

(** A conforming result has what post-validation reads. *)
Lemma conforming_generated (out : json number) :
  conforming out ->
  exists html kws b rs cs, generated out html kws b rs cs.
Proof.
  unfold conforming. cbn [articleSchema schema_body]. intros H.
  destruct (@valid_required _ _ _ _ (utf16 "article") _ H (or_introl eq_refl) eq_refl)
    as [fs [a [-> [Ha Hva]]]].
  destruct (@valid_required _ _ _ _ (utf16 "gate") _ H
              (or_intror (or_intror (or_introl eq_refl))) eq_refl)
    as [fs' [g [E [Hg Hvg]]]].
  injection E as <-. cbn [snd] in Hva, Hvg.
  destruct (@valid_required _ _ _ _ (utf16 "articleHtmlContent") _ Hva
              (or_intror (or_introl eq_refl)) eq_refl)
    as [afs [h [-> [Hh Hvh]]]].
  destruct (@valid_required _ _ _ _ (utf16 "secondaryKeywords") _ Hva
              (or_intror (or_intror (or_introl eq_refl))) eq_refl)
    as [afs' [kw [E [Hkw Hvkw]]]].
  injection E as <-. cbn [snd] in Hvh, Hvkw.
  destruct (@valid_required _ _ _ _ (utf16 "blocked") _ Hvg (or_introl eq_refl) eq_refl)
    as [gfs [b [-> [Hb Hvb]]]].
  destruct (@valid_required _ _ _ _ (utf16 "reasons") _ Hvg
              (or_intror (or_introl eq_refl)) eq_refl)
    as [gfs' [r [E [Hr Hvr]]]].
  injection E as <-.
  destruct (@valid_required _ _ _ _ (utf16 "claimsNeedingCitations") _ Hvg
              (or_intror (or_intror (or_introl eq_refl))) eq_refl)
    as [gfs' [c [E [Hc Hvc]]]].
  injection E as <-. cbn [snd] in Hvb, Hvr, Hvc.
  apply valid_string in Hvh as [html ->].
  apply valid_array in Hvkw as [kws ->].
  apply valid_boolean in Hvb as [bl ->].
  apply valid_array in Hvr as [rs ->].
  apply valid_array in Hvc as [cs ->].
  exists html, kws, bl, rs, cs, fs. split; [reflexivity|]. split.
  - exists (JObj afs). now repeat split.
  - exists fs, gfs. now repeat split.
Qed.

(** What post-validation does to such a result, as the caller sees it. *)
Lemma post_validate_generated out html kws b rs cs :
  generated out html kws b rs cs ->
  let rs' := rs ++ map JStr (structural_findings html (Some (JArr kws))) in
  let cs' := cs ++ map JStr (claim_findings html) in
  exists out',
    post_validate out = Ok out'
    /\ (forall k : string,
           str_eqb (utf16 k) (utf16 "gate") = false ->
           prop out' k = prop out k)
    /\ gate_field out' "reasons" = Some (JArr rs')
    /\ gate_field out' "claimsNeedingCitations" = Some (JArr cs')
    /\ gate_field out' "blocked"
       = Some (JBool (nonempty rs' || b || nonempty cs')).
Proof.
  intros [fs [-> [Ha Hg]]] rs' cs'.
  destruct (post_validate_state Ha Hg) as [out' [E H]]. cbv zeta in H.
  fold rs' cs' in H. exists out'. split; [exact E|]. split.
  { intros k Hk. rewrite (gate_state_others k H Hk). reflexivity. }
  destruct H as [fs' [gfs' [-> [_ [Hg' [Hb [Hr Hc]]]]]]].
  unfold gate_field. cbn [prop]. rewrite Hg'. cbn [opt_get prop].
  split; [exact Hr|]. split; [exact Hc|].
  rewrite Hb. cbn [truthy].
  now destruct (nonempty rs'), b, (nonempty cs').
Qed.

Lemma generated_gate out html kws b rs cs :
  generated out html kws b rs cs ->
  gate_field out "reasons" = Some (JArr rs)
  /\ gate_field out "claimsNeedingCitations" = Some (JArr cs)
  /\ gate_field out "blocked" = Some (JBool b).
Proof.
  intros [fs [-> [_ [fs' [gfs [E [_ [Hg [Hb [Hr Hc]]]]]]]]]].
  injection E as <-. unfold gate_field. cbn [prop]. rewrite Hg.
  cbn [opt_get prop]. now repeat split.
Qed.

End PostValidation.

(** ** The article operation *)

Section ArticleGate.

Context {P : Platform}.

Lemma handler_throws (body : value) (e : error) :
  prevalidate (or_else body (JObj [])) = Throw e ->
  article_handler body = Ret (send_error e).
Proof.
  intros H. unfold article_handler, try_catch, async_bind, sync.
  now rewrite H.
Qed.

Lemma handler_blocked (body : value) (reasons : list jsstring) :
  prevalidate (or_else body (JObj [])) = Ok reasons -> reasons <> [] ->
  article_handler body
  = Ret (Json200 (blocked_response (or_else body (JObj [])) reasons)).
Proof.
  intros H Hne. unfold article_handler, try_catch, async_bind, sync.
  rewrite H. cbn [io_bind]. now destruct reasons.
Qed.

Lemma handler_prompt_throws (body : value) (e : error) :
  prevalidate (or_else body (JObj [])) = Ok [] ->
  ARTICLE_USER (or_else body (JObj [])) = Throw e ->
  article_handler body = Ret (send_error e).
Proof.
  intros H Hu. unfold article_handler, try_catch, async_bind, sync.
  rewrite H. cbn [io_bind length Nat.eqb negb]. now rewrite Hu.
Qed.

(** A request that passes pre-validation and whose prompt can be built
    calls the backend once and answers from what the call returns. *)
Lemma handler_generates (body : value) (user : jsstring) :
  prevalidate (or_else body (JObj [])) = Ok [] ->
  ARTICLE_USER (or_else body (JObj [])) = Ok user ->
  exists k,
    article_handler body = Create (article_completion user) k
    /\ forall o, k o = Ret (after_generation o).
Proof.
  intros H Hu. unfold article_handler, try_catch, async_bind, sync.
  rewrite H. cbn [io_bind length Nat.eqb negb]. rewrite Hu.
  cbn [io_bind gpt5Structured]. eexists. split; [reflexivity|].
  intros o. cbn beta. unfold after_generation.
  destruct (completion_result o) as [out|e]; cbn [io_bind bind];
    [|reflexivity].
  now destruct (post_validate out).
Qed.

Lemma handler_run (body : value) (user : jsstring)
      (answer : completion -> outcome) :
  prevalidate (or_else body (JObj [])) = Ok [] ->
  ARTICLE_USER (or_else body (JObj [])) = Ok user ->
  run answer (article_handler body)
  = after_generation (answer (article_completion user))
  /\ calls answer (article_handler body) = 1.
Proof.
  intros H Hu. destruct (handler_generates body H Hu) as [k [-> Hk]].
  cbn [run calls]. now rewrite Hk.
Qed.

(** A result without a gate makes post-validation throw. *)
Lemma post_validate_no_gate (out : json number) :
  nullish (prop out "gate") = true ->
  exists e, post_validate out = Throw e.
Proof.
  intros Hg.
  assert (Hpush : forall c f m,
             (exists e, push_if c out f m = Throw e)
             \/ push_if c out f m = Ok out).
  { intros [|] f m; [left|now right]. cbn [push_if]. unfold gate_push.
    destruct out; cbn [get bind]; eauto;
      cbn [prop] in *;
      try (cbn [nullish] in Hg; cbn [get bind]; eauto; fail).
    destruct (lookup (utf16 "gate") fields) as [[]|];
      try discriminate; cbn [get bind]; eauto. }
  assert (Hagg : exists e, aggregate out = Throw e).
  { unfold aggregate.
    destruct out; cbn [get bind]; eauto; cbn [prop] in *;
      try (cbn [get bind]; eauto; fail).
    destruct (lookup (utf16 "gate") fields) as [[]|];
      try discriminate; cbn [get bind]; eauto. }
  unfold post_validate.
  destruct (textOnly_of out) as [text|e]; cbn [bind]; [|eauto].
  destruct (Hpush (word_count text <? 1200) "reasons"%string MSG_SHORT)
    as [[e ->]| ->]; cbn [bind]; [eauto|].
  destruct (Hpush (negb (test RE_DISCLAIMER text)) "reasons"%string MSG_DISCLAIMER)
    as [[e ->]| ->]; cbn [bind]; [eauto|].
  destruct (get (Some out) "article") as [article|e]; cbn [bind]; [|eauto].
  destruct (get article "secondaryKeywords") as [kws|e]; cbn [bind]; [|eauto].
  match goal with
  | |- context [push_if ?c out _ MSG_KEYWORDS] =>
    destruct (Hpush c "reasons"%string MSG_KEYWORDS) as [[e ->]| ->]
  end; cbn [bind]; [eauto|].
  destruct (get (Some out) "article") as [article'|e]; cbn [bind]; [|eauto].
  destruct (get article' "articleHtmlContent") as [html|e]; cbn [bind];
    [|eauto].
  destruct (toString _) as [html'|e]; cbn [bind]; [|eauto].
  match goal with
  | |- context [push_if ?c out _ MSG_CLAIMS] =>
    destruct (Hpush c "claimsNeedingCitations"%string MSG_CLAIMS) as [[e ->]| ->]
  end; cbn [bind]; [eauto|].
  exact Hagg.
Qed.

End ArticleGate.

(** ** The gate verdict *)

Section Verdict.

Context {P : Platform}.

Lemma nonempty_spec {A : Type} (l : list A) : nonempty l = true <-> l <> [].
Proof. destruct l; unfold nonempty; simpl; split; congruence. Qed.

(** C3. After the post-validation appends, [gate.blocked] is true exactly
    when [gate.reasons] is non-empty, or [gate.claimsNeedingCitations] is
    non-empty, or the flag reported by the generation backend was already
    true; otherwise it is false. *)
Theorem gate_blocked_aggregation (out : json number) :
  conforming out ->
  exists out' reasons' claims' blocked blocked',
    post_validate out = Ok out'
    /\ gate_field out "blocked" = Some (JBool blocked)
    /\ gate_field out' "reasons" = Some (JArr reasons')
    /\ gate_field out' "claimsNeedingCitations" = Some (JArr claims')
    /\ gate_field out' "blocked" = Some (JBool blocked')
    /\ (blocked' = true
        <-> reasons' <> [] \/ claims' <> [] \/ blocked = true).
Proof.
  intros H. apply conforming_generated in H as [html [kws [b [rs [cs H]]]]].
  destruct (post_validate_generated H) as [out' [E [_ [Hr [Hc Hb]]]]].
  destruct (generated_gate H) as [_ [_ Hb0]].
  do 5 eexists. repeat (split; [eassumption|]).
  rewrite !orb_true_iff, !nonempty_spec. tauto.
Qed.

(** C5. The word count is the number of maximal runs of non-whitespace
    code units of the article text in which every tag has been replaced
    by a space, and the too-short reason is appended exactly when that
    number is less than 1200. *)
Theorem too_short_reason (out : json number) :
  conforming out ->
  exists html text out' reasons added,
    response_field out "article" "articleHtmlContent" = Some (JStr html)
    /\ stripped html text
    /\ post_validate out = Ok out'
    /\ gate_field out "reasons" = Some (JArr reasons)
    /\ gate_field out' "reasons" = Some (JArr (reasons ++ added))
    /\ (In (JStr MSG_SHORT) added <-> count_tokens false text < 1200).
Proof.
  intros H. apply conforming_generated in H as [html [kws [b [rs [cs H]]]]].
  destruct (post_validate_generated H) as [out' [E [_ [Hr _]]]].
  destruct (generated_gate H) as [Hr0 _].
  exists html, (textOnly html), out', rs,
    (map JStr (structural_findings html (Some (JArr kws)))).
  split.
  { destruct H as [fs [-> [[a [Ha [Hh _]]] _]]].
    unfold response_field. cbn [prop]. rewrite Ha.
    destruct a; try discriminate. exact Hh. }
  split; [apply replace_all_stripped|].
  repeat (split; [assumption|]).
  unfold structural_findings. rewrite word_count_tokens.
  rewrite !map_app, !in_app_iff.
  destruct (count_tokens false (textOnly html) <? 1200) eqn:E1.
  - apply Nat.ltb_lt in E1. split; [tauto|]. intros _. left. now left.
  - apply Nat.ltb_ge in E1. split; [|lia].
    intros [[]|[Hin|Hin]];
      match type of Hin with
      | context [if ?c then _ else _] => destruct c
      end; cbn [map In] in Hin;
      first [destruct Hin as [Hin|[]]; vm_compute in Hin; discriminate
            |destruct Hin].
Qed.

(** C9. The checks started twice on the same article, each time from a
    fresh gate, give the same reasons and the same claims needing
    citations: the findings are a function of the article. *)
Theorem checks_deterministic (out1 out2 : json number) :
  conforming out1 -> conforming out2 ->
  prop out1 "article" = prop out2 "article" ->
  fresh_gate out1 -> fresh_gate out2 ->
  exists out1' out2' reasons claims,
    post_validate out1 = Ok out1'
    /\ post_validate out2 = Ok out2'
    /\ gate_field out1' "reasons" = Some (JArr reasons)
    /\ gate_field out2' "reasons" = Some (JArr reasons)
    /\ gate_field out1' "claimsNeedingCitations" = Some (JArr claims)
    /\ gate_field out2' "claimsNeedingCitations" = Some (JArr claims).
Proof.
  intros H1 H2 Ha [_ [F1r F1c]] [_ [F2r F2c]].
  apply conforming_generated in H1 as [h1 [k1 [b1 [r1 [c1 H1]]]]].
  apply conforming_generated in H2 as [h2 [k2 [b2 [r2 [c2 H2]]]]].
  destruct (post_validate_generated H1) as [o1 [E1 [_ [Hr1 [Hc1 _]]]]].
  destruct (post_validate_generated H2) as [o2 [E2 [_ [Hr2 [Hc2 _]]]]].
  destruct (generated_gate H1) as [G1r [G1c _]].
  destruct (generated_gate H2) as [G2r [G2c _]].
  assert (r1 = [] /\ c1 = [] /\ r2 = [] /\ c2 = []) as [-> [-> [-> ->]]]
    by (repeat split; congruence).
  assert (h1 = h2 /\ k1 = k2) as [-> ->].
  { destruct H1 as [fs1 [-> [[a1 [A1 [Hh1 Hk1]]] _]]].
    destruct H2 as [fs2 [-> [[a2 [A2 [Hh2 Hk2]]] _]]].
    cbn [prop] in Ha. rewrite A1, A2 in Ha. injection Ha as ->.
    split; congruence. }
  exists o1, o2. do 2 eexists. repeat (split; [eassumption|]). eassumption.
Qed.

(** C4, amended. The claim scanner appends at most one entry, the entry
    about claims without numbered citations; it appends none when a
    bracketed integer occurs anywhere in the HTML, and it appends one
    only if the text without tags contains one of the six verbs of the
    handler. *)
Theorem claim_scanner_findings (out : json number) :
  conforming out ->
  exists html out' claims added,
    response_field out "article" "articleHtmlContent" = Some (JStr html)
    /\ post_validate out = Ok out'
    /\ gate_field out "claimsNeedingCitations" = Some (JArr claims)
    /\ gate_field out' "claimsNeedingCitations"
       = Some (JArr (claims ++ added))
    /\ (added = [] \/ added = [JStr MSG_CLAIMS])
    /\ (has_bracketed_integer html -> added = [])
    /\ (added <> [] -> contains_claim_verb (textOnly html)).
Proof.
  intros H. apply conforming_generated in H as [html [kws [b [rs [cs H]]]]].
  destruct (post_validate_generated H) as [out' [E [_ [_ [Hc _]]]]].
  destruct (generated_gate H) as [_ [Hc0 _]].
  exists html, out', cs, (map JStr (claim_findings html)).
  split.
  { destruct H as [fs [-> [[a [Ha [Hh _]]] _]]].
    unfold response_field. cbn [prop]. rewrite Ha.
    destruct a; try discriminate. exact Hh. }
  repeat (split; [assumption|]).
  unfold claim_findings.
  destruct (test RE_CLAIM (textOnly html)) eqn:E1;
    destruct (test RE_CITE html) eqn:E2; cbn [andb negb map].
  - repeat split; auto. congruence.
  - repeat split; auto.
    + intros Hb. apply test_cite_spec in Hb. congruence.
    + intros _. now apply test_claim_contains.
  - repeat split; auto. congruence.
  - repeat split; auto. congruence.
Qed.

End Verdict.

(** ** Pre-validation and the generation call *)

Section Gate.

Context {P : Platform}.

(** When pre-validation runs to its end, it has collected a reason
    exactly when a field is missing, the number of sources is out of
    range or a source is rejected. *)
Lemma prevalidate_reasons (p : json number) (reasons : list jsstring) :
  prevalidate p = Ok reasons -> (reasons <> [] <-> reason_exists p).
Proof.
  unfold prevalidate, bad_sources, check_sources, reason_exists.
  intros H.
  assert (Hsrc : exists l,
             array_of (Some (or_else (prop p "sources") (JArr [])))
                      "(p.sources || [])" "filter" = Ok l
             /\ (prop p "sources" = Some (JArr l)
                 \/ (l = [] /\ forall l', prop p "sources" <> Some (JArr l')))).
  { destruct (prop p "sources") as [[]|] eqn:E; cbn [or_else truthy] in *;
      try (exists []; split; [reflexivity|right; split; congruence]);
      try (destruct (number_truthy n); cbn [array_of bind] in H;
           [discriminate|exists []; split; [reflexivity|right; split; congruence]]);
      try (destruct b; cbn [array_of bind] in H;
           [discriminate|exists []; split; [reflexivity|right; split; congruence]]);
      try (destruct (negb (is_empty s)); cbn [array_of bind] in H;
           [discriminate|exists []; split; [reflexivity|right; split; congruence]]);
      try (cbn [array_of bind] in H; discriminate).
    exists items. split; [reflexivity|now left]. }
  destruct Hsrc as [l [El Hl]]. rewrite El in H. cbn [bind] in H.
  set (bad := filter (fun s => negb (isAllowedSource s)) l) in *.
  assert (Hbad : bad <> [] <-> rejected_source p).
  { unfold rejected_source. split.
    - intros Hne. destruct bad as [|s bad'] eqn:Eb; [contradiction|].
      assert (Hin : In s bad) by (rewrite Eb; now left).
      apply filter_In in Hin as [Hin Hs]. apply negb_true_iff in Hs.
      destruct Hl as [Hl|[-> _]]; [|destruct Hin].
      now exists l, s.
    - intros [l' [s [Hs [Hin Hrej]]]] Hnil.
      destruct Hl as [Hl|[_ Hl]]; [|now apply (Hl l')].
      assert (l' = l) as -> by congruence.
      assert (In s bad) as Hb
          by (apply filter_In; split; [exact Hin|now rewrite Hrej]).
      rewrite Hnil in Hb. destruct Hb. }
  assert (Hreq : check_required p [] <> [] <-> missing_field p).
  { unfold check_required, missing_field.
    destruct (truthy (prop p "topic")), (truthy (prop p "primaryKeyword")),
      (truthy (prop p "outline")); cbn; split; try tauto; try congruence;
      intros [|[|]]; discriminate. }
  assert (Hcnt : forall rs, check_count p rs <> [] <-> rs <> [] \/ bad_source_count p).
  { intros rs. unfold check_count, bad_source_count.
    destruct (prop p "sources") as [[]|]; cbn beta iota;
      try (split; [intros _; right; intros ? ?; discriminate
                  |intros _; now destruct rs]).
    destruct ((length items <? 3) || (6 <? length items)) eqn:E.
    - split; [|intros _; now destruct rs].
      intros _. right. intros l' [= <-].
      apply orb_true_iff in E as [E|E]; apply Nat.ltb_lt in E; lia.
    - apply orb_false_iff in E as [E1 E2]. apply Nat.ltb_ge in E1, E2.
      split; [now left|]. intros [Hrs|Hc]; [exact Hrs|].
      specialize (Hc items eq_refl). lia. }
  specialize (Hcnt (check_required p [])).
  destruct (negb (length bad =? 0)) eqn:Eb.
  - destruct (array_join (utf16 ", ") bad); cbn [bind] in H; [|discriminate].
    injection H as <-. split.
    + intros _. right. right. apply Hbad. intros ->. discriminate.
    + intros _ Hnil. now apply app_eq_nil in Hnil as [_ ?].
  - injection H as <-. apply negb_false_iff, Nat.eqb_eq in Eb.
    apply length_zero_iff_nil in Eb. tauto.
Qed.

(** Whenever pre-validation does not let the request through, the
    handler answers without calling the generation backend. *)
Lemma prevalidation_guards_generation (body : value) :
  prevalidate (or_else body (JObj [])) <> Ok [] ->
  exists r, article_handler body = Ret r.
Proof.
  intros H. destruct (prevalidate (or_else body (JObj []))) as [rs|e] eqn:E.
  - eexists. apply (handler_blocked body E). congruence.
  - eexists. apply (handler_throws body E).
Qed.

(** C6, amended. When pre-validation collects at least one reason, the
    response has the title of the request, or an empty one when the
    request has none, an empty article text, no secondary keywords, empty
    metadata, [gate.blocked = true], the collected reasons and no claims
    needing citations. *)
Theorem blocked_response_fields (body : value) (reasons : list jsstring) :
  prevalidate (or_else body (JObj [])) = Ok reasons ->
  reasons <> [] ->
  exists resp,
    article_handler body = Ret (Json200 resp)
    /\ response_field resp "article" "articleTitle"
       = Some (or_else (prop (or_else body (JObj [])) "topic") (JStr []))
    /\ response_field resp "article" "articleHtmlContent" = Some (JStr [])
    /\ response_field resp "article" "secondaryKeywords" = Some (JArr [])
    /\ response_field resp "metadata" "metaTitle" = Some (JStr [])
    /\ response_field resp "metadata" "metaDescription" = Some (JStr [])
    /\ response_field resp "metadata" "socialTitle" = Some (JStr [])
    /\ response_field resp "metadata" "socialDescription" = Some (JStr [])
    /\ gate_field resp "blocked" = Some (JBool true)
    /\ gate_field resp "reasons" = Some (JArr (map JStr reasons))
    /\ gate_field resp "claimsNeedingCitations" = Some (JArr []).
Proof.
  intros H Hne. eexists. split; [apply (handler_blocked body H Hne)|].
  repeat split.
Qed.

(** C7. For a conforming result of the generation backend the handler
    answers with that result: the article and the metadata are the ones
    the backend produced, and the reasons and the claims needing
    citations that the backend reported are a prefix of the final ones. *)
Theorem post_validation_only_appends (body : value) (user : jsstring)
        (answer : completion -> outcome) (out : json number) :
  prevalidate (or_else body (JObj [])) = Ok [] ->
  ARTICLE_USER (or_else body (JObj [])) = Ok user ->
  completion_result (answer (article_completion user)) = Ok out ->
  conforming out ->
  exists out' reasons claims more_reasons more_claims,
    run answer (article_handler body) = Json200 out'
    /\ prop out' "article" = prop out "article"
    /\ prop out' "metadata" = prop out "metadata"
    /\ gate_field out "reasons" = Some (JArr reasons)
    /\ gate_field out "claimsNeedingCitations" = Some (JArr claims)
    /\ gate_field out' "reasons" = Some (JArr (reasons ++ more_reasons))
    /\ gate_field out' "claimsNeedingCitations"
       = Some (JArr (claims ++ more_claims)).
Proof.
  intros Hpre Huser Hout Hconf.
  destruct (handler_run body answer Hpre Huser) as [Hrun _].
  apply conforming_generated in Hconf as [html [kws [b [rs [cs H]]]]].
  destruct (post_validate_generated H) as [out' [E [Hsame [Hr [Hc _]]]]].
  destruct (generated_gate H) as [Hr0 [Hc0 _]].
  exists out', rs, cs. do 2 eexists.
  split.
  { rewrite Hrun. unfold after_generation. rewrite Hout. cbn [bind].
    now rewrite E. }
  split; [now apply Hsame|]. split; [now apply Hsame|].
  repeat (split; [eassumption|]). eassumption.
Qed.


(** C1 at a request whose [sources] is a string: a reason exists, and the
    handler answers with the 400 of its [catch] instead of a blocked
    verdict; the generation backend is not called. *)
Theorem string_sources_request_fails :
  let p := request_with (JStr (utf16 "https://www.who.int/")) in
  reason_exists p
  /\ check_count p (check_required p []) = [MSG_COUNT]
  /\ article_handler (Some p)
     = Ret (Text400 (utf16 "(p.sources || []).filter is not a function")).
Proof.
  cbv zeta. split; [|split; reflexivity].
  right. left. intros l H. discriminate.
Qed.

(** C10. There is a request whose [sources] is present and is not a
    sequence, here a plain string, and which lacks no required field,
    so that the one reason pre-validation has recorded is the reason of
    line 131 about its sources; and yet no blocked response is
    returned: filtering the string raises an error, which the handler
    catches and sends as a failure. *)
Theorem non_array_sources_surface_as_failure :
  exists (p : json number) (s : jsstring) (e : error),
    prop p "sources" = Some (JStr s)
    /\ check_required p [] = []
    /\ check_count p (check_required p []) = [MSG_COUNT]
    /\ bad_sources p = Throw e
    /\ article_handler (Some p) = Ret (Text400 (message e))
    /\ forall resp, article_handler (Some p) <> Ret (Json200 resp).
Proof.
  exists (JObj [ (utf16 "topic", JStr (utf16 "flu"));
                 (utf16 "primaryKeyword", JStr (utf16 "flu"));
                 (utf16 "outline", JStr (utf16 "H2 Symptoms"));
                 (utf16 "sources", JStr (utf16 "cdc.gov")) ]).
  do 2 eexists. split; [reflexivity|]. split; [reflexivity|].
  split; [reflexivity|]. split; [reflexivity|]. split; [reflexivity|].
  discriminate.
Qed.

End Gate.

(** ** The properties at concrete inputs *)

Lemma gate_blocked_aggregation_witness :
  conforming sample_result
  /\ exists out' reasons' claims' blocked blocked',
       post_validate sample_result = Ok out'
       /\ gate_field sample_result "blocked" = Some (JBool blocked)
       /\ gate_field out' "reasons" = Some (JArr reasons')
       /\ gate_field out' "claimsNeedingCitations" = Some (JArr claims')
       /\ gate_field out' "blocked" = Some (JBool blocked')
       /\ (blocked' = true
           <-> reasons' <> [] \/ claims' <> [] \/ blocked = true).
Proof.
  split; [reflexivity|].
  apply (@gate_blocked_aggregation reference_platform sample_result). reflexivity.
Defined.

Lemma too_short_reason_witness :
  conforming sample_result
  /\ exists html text out' reasons added,
       response_field sample_result "article" "articleHtmlContent"
       = Some (JStr html)
       /\ stripped html text
       /\ post_validate sample_result = Ok out'
       /\ gate_field sample_result "reasons" = Some (JArr reasons)
       /\ gate_field out' "reasons" = Some (JArr (reasons ++ added))
       /\ (In (JStr MSG_SHORT) added <-> count_tokens false text < 1200).
Proof.
  split; [reflexivity|].
  apply (@too_short_reason reference_platform sample_result). reflexivity.
Defined.

Lemma checks_deterministic_witness :
  conforming fresh_result /\ conforming fresh_result_again
  /\ prop fresh_result "article" = prop fresh_result_again "article"
  /\ fresh_gate fresh_result /\ fresh_gate fresh_result_again
  /\ exists out1' out2' reasons claims,
       post_validate fresh_result = Ok out1'
       /\ post_validate fresh_result_again = Ok out2'
       /\ gate_field out1' "reasons" = Some (JArr reasons)
       /\ gate_field out2' "reasons" = Some (JArr reasons)
       /\ gate_field out1' "claimsNeedingCitations" = Some (JArr claims)
       /\ gate_field out2' "claimsNeedingCitations" = Some (JArr claims).
Proof.
  assert (F1 : fresh_gate fresh_result) by (repeat split).
  assert (F2 : fresh_gate fresh_result_again) by (repeat split).
  split; [reflexivity|]. split; [reflexivity|]. split; [reflexivity|].
  split; [exact F1|]. split; [exact F2|].
  apply (@checks_deterministic reference_platform fresh_result
           fresh_result_again);
    [reflexivity|reflexivity|reflexivity|exact F1|exact F2].
Defined.

Lemma claim_scanner_findings_witness :
  conforming sample_result
  /\ exists html out' claims added,
       response_field sample_result "article" "articleHtmlContent"
       = Some (JStr html)
       /\ post_validate sample_result = Ok out'
       /\ gate_field sample_result "claimsNeedingCitations"
          = Some (JArr claims)
       /\ gate_field out' "claimsNeedingCitations"
          = Some (JArr (claims ++ added))
       /\ (added = [] \/ added = [JStr MSG_CLAIMS])
       /\ (has_bracketed_integer html -> added = [])
       /\ (added <> [] -> contains_claim_verb (textOnly html)).
Proof.
  split; [reflexivity|].
  apply (@claim_scanner_findings reference_platform sample_result). reflexivity.
Defined.

(** C4 as it is stated fails: an article with the claim verb of the
    specification as a whole word and without any bracketed integer gets
    no entry. *)
Lemma english_claim_unflagged :
  let out := result_with english_claim 3 false [] [] in
  conforming out
  /\ has_claim_word (textOnly english_claim)
  /\ ~ has_bracketed_integer english_claim
  /\ match @post_validate reference_platform out return Prop with
     | Ok out' => gate_field out' "claimsNeedingCitations" = Some (JArr [])
     | Throw _ => False
     end.
Proof.
  cbv zeta. split; [reflexivity|]. split.
  { exists (utf16 "reduces"). split; [now left|].
    exists (utf16 " Exercise "), (utf16 " blood pressure. ").
    repeat split. }
  split.
  { intros H. apply test_cite_spec in H. vm_compute in H. discriminate. }
  vm_compute. reflexivity.
Qed.

(** The verb of the handler between spaces is not found either: [\b]
    needs an ASCII word character on one side, and Arabic letters are
    none. *)
Example arabic_claim_unflagged :
  test RE_CLAIM (textOnly arabic_claim) = false
  /\ whole_word (utf16 "يقلل") (textOnly arabic_claim)
  /\ test RE_CLAIM (utf16 "xيقللx") = true.
Proof.
  split; [reflexivity|]. split; [|reflexivity].
  exists (utf16 " الرياضة "), (utf16 " ضغط الدم. "). repeat split.
Qed.

(** The length check at its boundary: 1199 words are too short, 1200
    are not. *)
Example word_count_boundary :
  word_count (textOnly (article_of_words 1198)) = 1199
  /\ structural_findings (article_of_words 1198)
       (Some (JArr (repeat (str "kw") 3))) = [MSG_SHORT]
  /\ word_count (textOnly (article_of_words 1199)) = 1200
  /\ structural_findings (article_of_words 1199)
       (Some (JArr (repeat (str "kw") 3))) = [].
Proof. vm_compute. repeat split. Qed.

(** The source validator on the hosts of the specification. *)
Example isAllowedSource_examples :
  map (fun s => isAllowedSource (JStr s))
      [ utf16 "https://who.int/"; utf16 "https://www.cdc.gov/flu";
        utf16 "https://pubmed.ncbi.nlm.nih.gov/1"; utf16 "https://nhs.uk/";
        utf16 "https://mayoclinic.org/"; utf16 "https://health.harvard.edu/";
        utf16 "https://example.com/"; utf16 "https://notwho.int/";
        utf16 "not a url" ]
  = [true; true; true; true; true; true; false; false; false].
Proof. reflexivity. Qed.

Lemma blocked_response_fields_witness :
  let body := Some (request_with (JArr [])) in
  prevalidate (or_else body (JObj [])) = Ok [MSG_COUNT]
  /\ [MSG_COUNT] <> []
  /\ exists resp,
       article_handler body = Ret (Json200 resp)
       /\ response_field resp "article" "articleTitle"
          = Some (or_else (prop (or_else body (JObj [])) "topic") (JStr []))
       /\ response_field resp "article" "articleHtmlContent" = Some (JStr [])
       /\ response_field resp "article" "secondaryKeywords" = Some (JArr [])
       /\ response_field resp "metadata" "metaTitle" = Some (JStr [])
       /\ response_field resp "metadata" "metaDescription" = Some (JStr [])
       /\ response_field resp "metadata" "socialTitle" = Some (JStr [])
       /\ response_field resp "metadata" "socialDescription" = Some (JStr [])
       /\ gate_field resp "blocked" = Some (JBool true)
       /\ gate_field resp "reasons" = Some (JArr (map JStr [MSG_COUNT]))
       /\ gate_field resp "claimsNeedingCitations" = Some (JArr []).
Proof.
  cbv zeta. split; [reflexivity|]. split; [discriminate|].
  apply (@blocked_response_fields reference_platform
           (Some (request_with (JArr []))) [MSG_COUNT]);
    [reflexivity|discriminate].
Defined.

(** C6 as it is stated fails: the blocked response carries the topic of
    the request as its title. *)
Lemma blocked_response_keeps_title :
  let body := Some (request_with (JArr [])) in
  prevalidate (or_else body (JObj [])) = Ok [MSG_COUNT]
  /\ exists resp,
       article_handler body = Ret (Json200 resp)
       /\ response_field resp "article" "articleTitle"
          = Some (JStr (utf16 "diabetes"))
       /\ utf16 "diabetes" <> [].
Proof.
  cbv zeta. split; [reflexivity|]. eexists. split; [reflexivity|].
  split; [reflexivity|discriminate].
Qed.

Lemma post_validation_only_appends_witness :
  let body := Some sample_request in
  let answer := answer_text (stringify sample_result) in
  prevalidate (or_else body (JObj [])) = Ok []
  /\ ARTICLE_USER (or_else body (JObj [])) = Ok sample_prompt
  /\ completion_result (answer (article_completion sample_prompt))
     = Ok sample_result
  /\ conforming sample_result
  /\ exists out' reasons claims more_reasons more_claims,
       run answer (article_handler body) = Json200 out'
       /\ prop out' "article" = prop sample_result "article"
       /\ prop out' "metadata" = prop sample_result "metadata"
       /\ gate_field sample_result "reasons" = Some (JArr reasons)
       /\ gate_field sample_result "claimsNeedingCitations"
          = Some (JArr claims)
       /\ gate_field out' "reasons" = Some (JArr (reasons ++ more_reasons))
       /\ gate_field out' "claimsNeedingCitations"
          = Some (JArr (claims ++ more_claims)).
Proof.
  cbv zeta.
  assert (H1 : prevalidate (or_else (Some sample_request) (JObj [])) = Ok [])
    by (vm_compute; reflexivity).
  assert (H2 : ARTICLE_USER (or_else (Some sample_request) (JObj []))
               = Ok sample_prompt) by (vm_compute; reflexivity).
  assert (H3 : completion_result
                 (answer_text (stringify sample_result)
                              (article_completion sample_prompt))
               = Ok sample_result) by (vm_compute; reflexivity).
  assert (H4 : conforming sample_result) by reflexivity.
  split; [exact H1|]. split; [exact H2|]. split; [exact H3|].
  split; [exact H4|].
  exact (@post_validation_only_appends reference_platform
           (Some sample_request) sample_prompt
           (answer_text (stringify sample_result)) sample_result
           H1 H2 H3 H4).
Defined.



(** The end-to-end examples of the specification: an article of 1300
    words with a disclaimer, four keywords and no claim verb is
    accepted; with two keywords it is blocked and keeps its article. *)
Example accepted_and_blocked :
  match @post_validate reference_platform
          (result_with (article_of_words 1299) 4 false [] [])
        return Prop with
  | Ok out => gate_field out "blocked" = Some (JBool false)
  | Throw _ => False
  end
  /\ match @post_validate reference_platform
             (result_with (article_of_words 1299) 2 false [] [])
           return Prop with
     | Ok out =>
       gate_field out "blocked" = Some (JBool true)
       /\ gate_field out "reasons" = Some (JArr [JStr MSG_KEYWORDS])
       /\ prop out "article"
          = prop (result_with (article_of_words 1299) 2 false [] [])
                 "article"
     | Throw _ => False
     end.
Proof. vm_compute. repeat split. Qed.

(** A source that cannot be printed has the effect of a [sources] that
    is no array: the sources are rejected one by one, and joining them
    for the reason throws. *)
Example unprintable_source_request_fails :
  match @article_handler reference_platform
          (Some (request_with
                   (JArr [ JObj [ field "toString" JNull ];
                           str "https://www.who.int/";
                           str "https://www.cdc.gov/" ])))
        return Prop with
  | Ret (Text400 text) =>
    text = utf16 "Cannot convert object to primitive value"
  | _ => False
  end.
Proof. vm_compute. reflexivity. Qed.

(** * Further properties of the server *)

(** ** The two handlers as a whole *)

Section Handlers.

Context {P : Platform}.

(** The three ways the article handler can go. *)
Lemma article_handler_cases (body : value) :
  match prevalidate (or_else body (JObj [])) with
  | Throw e => article_handler body = Ret (send_error e)
  | Ok [] =>
    match ARTICLE_USER (or_else body (JObj [])) with
    | Throw e => article_handler body = Ret (send_error e)
    | Ok user =>
      exists k,
        article_handler body = Create (article_completion user) k
        /\ forall o, k o = Ret (after_generation o)
    end
  | Ok reasons =>
    article_handler body
    = Ret (Json200 (blocked_response (or_else body (JObj [])) reasons))
  end.
Proof.
  destruct (prevalidate (or_else body (JObj []))) as [[|r rs]|e] eqn:E.
  - destruct (ARTICLE_USER (or_else body (JObj []))) as [user|e] eqn:U.
    + exact (handler_generates body E U).
    + exact (handler_prompt_throws body E U).
  - apply (handler_blocked body E). discriminate.
  - exact (handler_throws body E).
Qed.

Lemma send_error_nonempty (e : error) :
  exists text, send_error e = Text400 text /\ text <> [].
Proof.
  unfold send_error. destruct (message e) as [|c m] eqn:E; cbn [is_empty].
  - eexists. split; [reflexivity|discriminate].
  - eexists. split; [reflexivity|discriminate].
Qed.

(** The three ways the outline handler can go. *)
Lemma outline_handler_cases (body : value) :
  let p := or_else body (JObj []) in
  if truthy (prop p "topic") then
    match OUTLINE_USER (prop p "topic")
            (default_to (prop p "language") (JStr (utf16 "العربية"))) with
    | Throw e => outline_handler body = Ret (send_error e)
    | Ok user =>
      exists k,
        outline_handler body = Create (outline_completion user) k
        /\ forall o,
             k o = Ret (match data <- completion_result o ;;
                              get (Some data) "outline" with
                        | Ok outline =>
                          Json200 (JObj [ (utf16 "outline",
                                           or_else outline (JStr [])) ])
                        | Throw e => send_error e
                        end)
    end
  else outline_handler body = Ret (Text400 MSG_TOPIC).
Proof.
  cbv zeta. unfold outline_handler, try_catch, async_bind, sync.
  destruct (truthy (prop (or_else body (JObj [])) "topic"));
    cbn [negb io_bind]; [|reflexivity].
  destruct (OUTLINE_USER _ _) as [user|e]; cbn [io_bind gpt5Structured];
    [|reflexivity].
  eexists. split; [reflexivity|]. intros o. cbn beta.
  destruct (completion_result o) as [data|e]; cbn [io_bind bind];
    [|reflexivity].
  now destruct (get (Some data) "outline").
Qed.

(** X1. The article handler calls the generation backend once when
    pre-validation has collected no reason and the prompt could be
    built, and not at all otherwise, whatever the backend answers. *)
Theorem article_backend_calls (body : value) (answer : completion -> outcome) :
  calls answer (article_handler body)
  = match prevalidate (or_else body (JObj [])),
          ARTICLE_USER (or_else body (JObj [])) with
    | Ok [], Ok _ => 1
    | _, _ => 0
    end.
Proof.
  pose proof (article_handler_cases body) as H.
  destruct (prevalidate (or_else body (JObj []))) as [[|r rs]|e].
  - destruct (ARTICLE_USER (or_else body (JObj []))) as [user|e].
    + destruct H as [k [-> Hk]]. cbn [calls]. now rewrite Hk.
    + now rewrite H.
  - now rewrite H.
  - now rewrite H.
Qed.

(** X2. Neither handler ever sends a failure with an empty text: an
    error without a message is sent as [Bad Request]. *)
Theorem error_text_nonempty (body : value) (answer : completion -> outcome) :
  match run answer (article_handler body) return Prop with
  | Text400 text => text <> []
  | Json200 _ => True
  end
  /\ match run answer (outline_handler body) return Prop with
     | Text400 text => text <> []
     | Json200 _ => True
     end.
Proof.
  assert (Herr : forall e, match send_error e return Prop with
                           | Text400 text => text <> []
                           | Json200 _ => True
                           end).
  { intros e. destruct (send_error_nonempty e) as [t [-> Ht]]. exact Ht. }
  split.
  - pose proof (article_handler_cases body) as H.
    destruct (prevalidate (or_else body (JObj []))) as [[|r rs]|e].
    + destruct (ARTICLE_USER (or_else body (JObj []))) as [user|e].
      * destruct H as [k [-> Hk]]. cbn [run]. rewrite Hk. cbn [run].
        unfold after_generation.
        destruct (bind _ _); [exact I|apply Herr].
      * rewrite H. apply Herr.
    + rewrite H. exact I.
    + rewrite H. apply Herr.
  - pose proof (outline_handler_cases body) as H. cbv zeta in H.
    destruct (truthy _).
    + destruct (OUTLINE_USER _ _) as [user|e].
      * destruct H as [k [-> Hk]]. cbn [run]. rewrite Hk. cbn [run].
        destruct (bind _ _); [exact I|apply Herr].
      * rewrite H. apply Herr.
    + rewrite H. cbn [run]. discriminate.
Qed.

End Handlers.

(** ** The verdict of a response *)

Section VerdictInvariant.

Context {P : Platform}.

Lemma gate_field_set_blocked (fs gfs : list (list N * json number)) :
  gate_field
    (set_prop (JObj fs) "gate" (set_prop (JObj gfs) "blocked" (JBool true)))
    "blocked"
  = Some (JBool true).
Proof.
  unfold gate_field. cbn [set_prop prop]. rewrite lookup_assign_eq.
  cbn [opt_get prop]. apply lookup_assign_eq.
Qed.

(** Line 154 leaves no result with a reason or a claim and without the
    flag. *)
Lemma aggregate_blocked (o o' : json number) (l : list (json number)) :
  aggregate o = Ok o' ->
  gate_field o' "reasons" = Some (JArr l)
  \/ gate_field o' "claimsNeedingCitations" = Some (JArr l) ->
  l <> [] ->
  gate_field o' "blocked" = Some (JBool true).
Proof.
  intros H Hl Hne. unfold aggregate in H.
  destruct o as [| | | | |fs]; cbn [get prop bind] in H; try discriminate.
  destruct (lookup (utf16 "gate") fs) as [g|] eqn:Eg;
    cbn [get prop bind] in H; try discriminate.
  destruct g as [| | | | |gfs]; cbn [get prop bind] in H; try discriminate.
  destruct (length_truthy (lookup (utf16 "reasons") gfs) "length")
    as [hr|] eqn:Ehr; cbn [bind] in H; [|discriminate].
  assert (Hsame : o' = JObj fs ->
                  lookup (utf16 "reasons") gfs = Some (JArr l)
                  \/ lookup (utf16 "claimsNeedingCitations") gfs
                     = Some (JArr l)).
  { intros ->. unfold gate_field in Hl. cbn [prop] in Hl. rewrite Eg in Hl.
    exact Hl. }
  destruct hr; cbn [bind] in H.
  { injection H as <-. apply gate_field_set_blocked. }
  destruct (truthy (lookup (utf16 "blocked") gfs)); cbn [bind] in H.
  { injection H as <-. apply gate_field_set_blocked. }
  destruct (length_truthy (lookup (utf16 "claimsNeedingCitations") gfs)
                          "length") as [hc|] eqn:Ehc;
    cbn [bind] in H; [|discriminate].
  destruct hc.
  { injection H as <-. apply gate_field_set_blocked. }
  injection H as <-. destruct (Hsame eq_refl) as [E|E]; rewrite E in *.
  - cbn [length_truthy] in Ehr. destruct l; [contradiction|discriminate].
  - cbn [length_truthy] in Ehc. destruct l; [contradiction|discriminate].
Qed.

Lemma post_validate_aggregate (out out' : json number) :
  post_validate out = Ok out' -> exists o, aggregate o = Ok out'.
Proof.
  unfold post_validate. intros H.
  repeat match type of H with
         | bind ?r _ = Ok _ =>
           destruct r eqn:?; cbn [bind] in H; [|discriminate]
         end.
  eauto.
Qed.

(** X3. In every response of the article operation that is a payload, a
    non-empty [gate.reasons] or [gate.claimsNeedingCitations] comes with
    [gate.blocked = true], whether or not the result of the generation
    backend conforms to the schema. *)
Theorem payload_verdict_consistent (body : value)
        (answer : completion -> outcome) (resp : json number)
        (l : list (json number)) :
  run answer (article_handler body) = Json200 resp ->
  gate_field resp "reasons" = Some (JArr l)
  \/ gate_field resp "claimsNeedingCitations" = Some (JArr l) ->
  l <> [] ->
  gate_field resp "blocked" = Some (JBool true).
Proof.
  intros Hrun Hl Hne. pose proof (article_handler_cases body) as H.
  assert (Herr : forall e, send_error e <> Json200 resp)
    by (intros e; unfold send_error; discriminate).
  destruct (prevalidate (or_else body (JObj []))) as [[|r rs]|e].
  - destruct (ARTICLE_USER (or_else body (JObj []))) as [user|e].
    + destruct H as [k [E Hk]]. rewrite E in Hrun. cbn [run] in Hrun.
      rewrite Hk in Hrun. cbn [run] in Hrun. unfold after_generation in Hrun.
      destruct (completion_result _) as [out|e]; cbn [bind] in Hrun;
        [|now apply Herr in Hrun].
      destruct (post_validate out) as [out'|e] eqn:Ep;
        [|now apply Herr in Hrun].
      injection Hrun as ->.
      destruct (post_validate_aggregate _ Ep) as [o Ho].
      exact (aggregate_blocked _ Ho Hl Hne).
    + rewrite H in Hrun. now apply Herr in Hrun.
  - rewrite H in Hrun. cbn [run] in Hrun. injection Hrun as <-. reflexivity.
  - rewrite H in Hrun. now apply Herr in Hrun.
Qed.

End VerdictInvariant.

Lemma payload_verdict_consistent_witness :
  let body := Some (request_with (JArr [])) in
  let resp := blocked_response (request_with (JArr [])) [MSG_COUNT] in
  run (answer_text []) (@article_handler reference_platform body)
  = Json200 resp
  /\ (gate_field resp "reasons" = Some (JArr [JStr MSG_COUNT])
      \/ gate_field resp "claimsNeedingCitations"
         = Some (JArr [JStr MSG_COUNT]))
  /\ [@JStr Z MSG_COUNT] <> []
  /\ gate_field resp "blocked" = Some (JBool true).
Proof.
  cbv zeta.
  assert (H1 : run (answer_text [])
                   (@article_handler reference_platform
                      (Some (request_with (JArr []))))
               = Json200 (blocked_response (request_with (JArr []))
                                           [MSG_COUNT])) by reflexivity.
  assert (H2 : gate_field (blocked_response (request_with (JArr []))
                                            [MSG_COUNT]) "reasons"
               = Some (JArr [@JStr Z MSG_COUNT])
               \/ gate_field (blocked_response (request_with (JArr []))
                                               [MSG_COUNT])
                             "claimsNeedingCitations"
                  = Some (JArr [@JStr Z MSG_COUNT]))
    by (left; reflexivity).
  assert (H3 : [@JStr Z MSG_COUNT] <> []) by discriminate.
  split; [exact H1|]. split; [exact H2|]. split; [exact H3|].
  exact (@payload_verdict_consistent reference_platform _ _ _ _ H1 H2 H3).
Defined.

(** ** Pre-validation, the prompt and the completion *)

Section Requests.

Context {P : Platform}.

Lemma array_strings_printable (l : list (json number)) :
  forallb printable l = true -> exists ss, array_strings l = Ok ss.
Proof.
  induction l as [|e l IH]; cbn [forallb array_strings]; [eauto|].
  intros H. apply andb_true_iff in H as [He Hl].
  destruct (IH Hl) as [ss ->]. unfold printable in He.
  destruct e; cbn [bind]; eauto;
    destruct (toString _); try discriminate; cbn [bind]; eauto.
Qed.

Lemma forallb_filter {A : Type} (f g : A -> bool) (l : list A) :
  forallb f l = true -> forallb f (filter g l) = true.
Proof.
  rewrite !forallb_forall. intros H x Hx. apply filter_In in Hx as [Hx _].
  now apply H.
Qed.

(** Pre-validation runs to its end when [sources] is missing, falsy or
    an array of values that can be printed. *)
Lemma prevalidate_listable (p : json number) :
  sources_listable p = true -> exists reasons, prevalidate p = Ok reasons.
Proof.
  unfold sources_listable, prevalidate, bad_sources, check_sources.
  intros H.
  assert (Hl : exists l,
             array_of (Some (or_else (prop p "sources") (JArr [])))
                      "(p.sources || [])" "filter" = Ok l
             /\ forallb printable l = true).
  { destruct (prop p "sources") as [[]|]; cbn [or_else truthy] in *;
      try discriminate;
      try (exists []; split; reflexivity);
      try (apply negb_true_iff in H; rewrite H; exists []; split; reflexivity).
    exists items. split; [reflexivity|exact H]. }
  destruct Hl as [l [-> Hl]]. cbn [bind].
  destruct (negb (length _ =? 0)); [|eauto].
  unfold array_join.
  destruct (array_strings_printable _
              (forallb_filter _ (fun s => negb (isAllowedSource s)) _ Hl))
    as [ss ->].
  cbn [bind]. eauto.
Qed.

(** X4. For a request whose [sources] is missing, falsy or an array of
    printable values, pre-validation collects a reason exactly when a
    required field is missing, the number of sources is out of range or
    a source is rejected, and then the handler answers with the blocked
    response built from the collected reasons. *)
Theorem prevalidation_blocks (body : value) :
  sources_listable (or_else body (JObj [])) = true ->
  exists reasons,
    prevalidate (or_else body (JObj [])) = Ok reasons
    /\ (reasons <> [] <-> reason_exists (or_else body (JObj [])))
    /\ (reasons <> [] ->
        article_handler body
        = Ret (Json200 (blocked_response (or_else body (JObj [])) reasons))).
Proof.
  intros H. destruct (prevalidate_listable _ H) as [reasons E].
  exists reasons. split; [exact E|]. split.
  - exact (prevalidate_reasons _ E).
  - intros Hne. exact (handler_blocked body E Hne).
Qed.

Lemma filter_map_JStr (f : json number -> bool) (urls : list (list N)) :
  filter f (map JStr urls) = map JStr (filter (fun u => f (JStr u)) urls).
Proof.
  induction urls as [|u urls IH]; [reflexivity|]. cbn [map filter].
  destruct (f (JStr u)); cbn [map]; now rewrite IH.
Qed.

Lemma array_strings_JStr (l : list (list N)) :
  array_strings (map (@JStr number) l) = Ok l.
Proof.
  induction l as [|s l IH]; [reflexivity|].
  cbn [map array_strings toString bind]. now rewrite IH.
Qed.

Lemma join_In (sep u : list N) (l : list (list N)) :
  In u l -> exists a b, join sep l = a ++ u ++ b.
Proof.
  induction l as [|s l IH]; [contradiction|]. intros [->|Hin].
  - destruct l as [|s' l].
    + exists [], []. cbn [join]. now rewrite app_nil_r.
    + exists [], (sep ++ join sep (s' :: l)). reflexivity.
  - destruct (IH Hin) as [a [b E]]. destruct l as [|s' l]; [contradiction|].
    exists (s ++ sep ++ a), b. cbn [join] in *. rewrite E.
    now rewrite <- !app_assoc.
Qed.

(** X5. When the sources are strings and some are rejected, the request
    is blocked and the last reason is the fixed text followed by the
    rejected URLs, verbatim and in their order, separated by a comma and
    a space. *)
Theorem untrusted_reason_names_urls (body : value) (urls : list (list N))
        (url : list N) :
  prop (or_else body (JObj [])) "sources" = Some (JArr (map JStr urls)) ->
  In url urls ->
  isAllowedSource (JStr url) = false ->
  exists reasons a b,
    article_handler body
    = Ret (Json200 (blocked_response (or_else body (JObj [])) reasons))
    /\ last reasons []
       = MSG_UNTRUSTED
           ++ join (utf16 ", ")
                (filter (fun u => negb (isAllowedSource (JStr u))) urls)
    /\ last reasons [] = MSG_UNTRUSTED ++ a ++ url ++ b.
Proof.
  intros Hs Hin Hrej.
  set (rejected := filter (fun u => negb (isAllowedSource (JStr u))) urls).
  assert (Hr : In url rejected)
    by (apply filter_In; split; [exact Hin|now rewrite Hrej]).
  assert (E : prevalidate (or_else body (JObj []))
              = Ok (check_count (or_else body (JObj []))
                      (check_required (or_else body (JObj [])) [])
                    ++ [MSG_UNTRUSTED ++ join (utf16 ", ") rejected])).
  { unfold prevalidate, bad_sources, check_sources. rewrite Hs.
    cbn [or_else truthy array_of bind]. rewrite filter_map_JStr.
    fold rejected. rewrite length_map.
    destruct rejected as [|r rs] eqn:Er; [destruct Hr|].
    cbn [length Nat.eqb negb]. unfold array_join.
    rewrite array_strings_JStr. reflexivity. }
  destruct (join_In (utf16 ", ") _ _ Hr) as [a [b Hab]].
  eexists. exists a, b. split.
  - apply (handler_blocked body E). intros C. now apply app_eq_nil in C as [_ ?].
  - rewrite last_last. split; [reflexivity|now rewrite Hab].
Qed.

(** The prompt cannot be built when [internalLinks] is a value other
    than an array that [||] lets through. *)
Lemma ARTICLE_USER_links (p : json number) :
  truthy (prop p "internalLinks") && negb (is_array (prop p "internalLinks"))
  = true ->
  exists e, ARTICLE_USER p = Throw e.
Proof.
  intros H. apply andb_true_iff in H as [Ht Ha]. unfold ARTICLE_USER.
  repeat match goal with
         | |- exists e, bind ?r _ = Throw e =>
           lazymatch r with
           | array_of (Some (or_else (prop p "internalLinks") _)) _ _ => fail
           | _ => destruct r; cbn [bind]; [|eauto]
           end
         end.
  destruct (prop p "internalLinks") as [[]|]; cbn [or_else] in *;
    try discriminate; rewrite ?Ht; cbn [array_of bind]; eauto.
Qed.

(** X6. A request that passes pre-validation with an [internalLinks]
    that is truthy and is not an array gets a failure, and the
    generation backend is not called. *)
Theorem non_array_links_fail (body : value) :
  prevalidate (or_else body (JObj [])) = Ok [] ->
  truthy (prop (or_else body (JObj [])) "internalLinks")
  && negb (is_array (prop (or_else body (JObj [])) "internalLinks")) = true ->
  exists text, article_handler body = Ret (Text400 text).
Proof.
  intros Hpre H. destruct (ARTICLE_USER_links _ H) as [e He].
  rewrite (handler_prompt_throws body Hpre He).
  destruct (send_error_nonempty e) as [t [-> _]]. eauto.
Qed.

Lemma map_indexed_numbered (urls : list (list N)) :
  forall i,
    map_indexed
      (fun (s : json number) i =>
         s <- toString s ;;
         Ok (utf16 "[" ++ nat_toString (i + 1) ++ utf16 "] " ++ s))
      i (map JStr urls)
    = Ok (numbered i urls).
Proof.
  induction urls as [|u urls IH]; intros i; [reflexivity|].
  cbn [map map_indexed toString bind numbered]. now rewrite IH.
Qed.

End Requests.

(** [S] is somewhere in a concatenation. *)
Ltac find_infix S :=
  lazymatch goal with
  | |- exists a b, S ++ ?R = a ++ S ++ b => exists [], R; reflexivity
  | |- exists a b, ?X ++ ?Y = a ++ S ++ b =>
    let H := fresh in
    assert (H : exists a b, Y = a ++ S ++ b) by find_infix S;
    let a := fresh in
    let b := fresh in
    destruct H as [a [b H]]; exists (X ++ a), b; rewrite H;
    now rewrite app_assoc
  | |- exists a b, ?c :: ?Y = a ++ S ++ b =>
    let H := fresh in
    assert (H : exists a b, Y = a ++ S ++ b) by find_infix S;
    let a := fresh in
    let b := fresh in
    destruct H as [a [b H]]; exists (c :: a), b; now rewrite H
  end.

Section Prompt.

Context {P : Platform}.

(** X7. The prompt of the article lists the sources of the request in
    their order, one per line, numbered from 1. *)
Theorem prompt_lists_sources (p : json number) (urls : list (list N))
        (user : list N) :
  prop p "sources" = Some (JArr (map JStr urls)) ->
  ARTICLE_USER p = Ok user ->
  exists a b, user = a ++ join nl (numbered 0 urls) ++ b.
Proof.
  intros Hs H. unfold ARTICLE_USER in H. rewrite Hs in H.
  cbn [array_of] in H.
  repeat match type of H with
         | bind ?r _ = Ok _ =>
           lazymatch r with
           | map_indexed _ 0 (map JStr urls) =>
             rewrite map_indexed_numbered in H; cbn [bind] in H
           | Ok _ => cbn [bind] in H
           | _ => destruct r; cbn [bind] in H; [|discriminate]
           end
         end.
  injection H as <-.
  set (S := join nl (numbered 0 urls)).
  find_infix S.
Qed.

End Prompt.

(** ** What the backend returns *)

Section Completion.

Context {P : Platform}.

(** Without a content the text that is parsed is [{}]. *)
Lemma completion_result_empty (resp : json number) :
  truthy (completion_content resp) = false -> resp <> JNull ->
  completion_result (Resolved resp) = JSON_parse (utf16 "{}").
Proof.
  intros Hc Hn. unfold completion_result.
  assert (E : get (Some resp) "choices" = Ok (prop resp "choices"))
    by (destruct resp; try reflexivity; contradiction).
  rewrite E. cbn [bind]. fold (completion_content resp).
  unfold or_else. rewrite Hc.
  now destruct (completion_content resp).
Qed.

(** X8. A completion without content (no choices, no message, an empty
    or missing text) never gives an article: the text [{}] is parsed in
    its place, post-validation finds no gate in it, and the handler
    answers with a failure. *)
Theorem empty_completion_fails (body : value) (user : list N)
        (answer : completion -> outcome) (resp : json number) :
  JSON_parse (utf16 "{}") = Ok (JObj []) ->
  prevalidate (or_else body (JObj [])) = Ok [] ->
  ARTICLE_USER (or_else body (JObj [])) = Ok user ->
  answer (article_completion user) = Resolved resp ->
  truthy (completion_content resp) = false ->
  exists text, run answer (article_handler body) = Text400 text.
Proof.
  intros Hparse Hpre Huser Hans Hc.
  destruct (handler_run body answer Hpre Huser) as [-> _].
  unfold after_generation. rewrite Hans.
  assert (Herr : forall e, exists text, send_error e = Text400 text)
    by (intros e; destruct (send_error_nonempty e) as [t [-> _]]; eauto).
  destruct resp eqn:Er;
    try (rewrite completion_result_empty by (trivial; discriminate);
         rewrite Hparse; cbn [bind];
         destruct (post_validate_no_gate (JObj []) eq_refl) as [e ->];
         apply Herr).
  cbn [completion_result get bind]. apply Herr.
Qed.

(** X9. A result whose [articleHtmlContent] is a truthy value other
    than a string is not judged: stripping the tags throws, and the
    handler answers with a failure. *)
Theorem non_string_article_fails (body : value) (user : list N)
        (answer : completion -> outcome) (out : json number) :
  prevalidate (or_else body (JObj [])) = Ok [] ->
  ARTICLE_USER (or_else body (JObj [])) = Ok user ->
  completion_result (answer (article_completion user)) = Ok out ->
  html_not_text out = true ->
  exists text, run answer (article_handler body) = Text400 text.
Proof.
  intros Hpre Huser Hout Hhtml.
  destruct (handler_run body answer Hpre Huser) as [-> _].
  unfold after_generation. rewrite Hout. cbn [bind].
  assert (E : exists e, post_validate out = Throw e).
  { unfold post_validate, textOnly_of. unfold html_not_text in Hhtml.
    destruct (opt_get (opt_get (Some out) "article") "articleHtmlContent")
      as [[]|]; cbn [or_else] in *; try discriminate;
      rewrite ?Hhtml; cbn [bind]; eauto. }
  destruct E as [e ->]. destruct (send_error_nonempty e) as [t [-> _]]. eauto.
Qed.

(** X10. The outline handler answers [topic مطلوب] without calling the
    backend when the topic is missing or falsy; otherwise it calls the
    backend once if the prompt can be built and not at all if it
    cannot. *)
Theorem outline_backend_calls (body : value) (answer : completion -> outcome) :
  let p := or_else body (JObj []) in
  calls answer (outline_handler body)
  = (if truthy (prop p "topic") then
       match OUTLINE_USER (prop p "topic")
               (default_to (prop p "language") (JStr (utf16 "العربية"))) with
       | Ok _ => 1
       | Throw _ => 0
       end
     else 0)
  /\ (if truthy (prop p "topic") then True
      else run answer (outline_handler body) = Text400 MSG_TOPIC).
Proof.
  cbv zeta. pose proof (outline_handler_cases body) as H. cbv zeta in H.
  destruct (truthy _).
  - split; [|exact I]. destruct (OUTLINE_USER _ _) as [user|e].
    + destruct H as [k [-> Hk]]. cbn [calls]. now rewrite Hk.
    + now rewrite H.
  - now rewrite H.
Qed.

(** X11. With a topic and a prompt, the outline handler calls the
    backend once; a failure of the call is sent with its message, a
    result [null] is a failure too, and any other result is answered
    with one field [outline], which holds the [outline] of the result
    when that is truthy and the empty string otherwise. *)
Theorem outline_outcomes (body : value) (user : list N)
        (answer : completion -> outcome) :
  truthy (prop (or_else body (JObj [])) "topic") = true ->
  OUTLINE_USER (prop (or_else body (JObj [])) "topic")
    (default_to (prop (or_else body (JObj [])) "language")
                (JStr (utf16 "العربية"))) = Ok user ->
  calls answer (outline_handler body) = 1
  /\ match completion_result (answer (outline_completion user))
           return Prop with
     | Throw e =>
       run answer (outline_handler body)
       = Text400 (if is_empty (message e) then utf16 "Bad Request"
                  else message e)
     | Ok JNull => exists text, run answer (outline_handler body) = Text400 text
     | Ok data =>
       run answer (outline_handler body)
       = Json200 (JObj [ (utf16 "outline",
                          or_else (prop data "outline") (JStr [])) ])
     end.
Proof.
  intros Ht Hu. pose proof (outline_handler_cases body) as H. cbv zeta in H.
  rewrite Ht, Hu in H. destruct H as [k [-> Hk]]. cbn [calls run].
  rewrite Hk. cbn [calls run]. split; [reflexivity|].
  destruct (completion_result _) as [data|e]; cbn [bind]; [|reflexivity].
  destruct data; cbn [get]; try reflexivity.
  destruct (send_error_nonempty (cannot_read "null" "outline"))
    as [t [-> _]]. eauto.
Qed.

(** X12. A completion without content gives an outline response with an
    empty outline, not a failure. *)
Theorem outline_empty_completion (body : value) (user : list N)
        (answer : completion -> outcome) (resp : json number) :
  JSON_parse (utf16 "{}") = Ok (JObj []) ->
  truthy (prop (or_else body (JObj [])) "topic") = true ->
  OUTLINE_USER (prop (or_else body (JObj [])) "topic")
    (default_to (prop (or_else body (JObj [])) "language")
                (JStr (utf16 "العربية"))) = Ok user ->
  answer (outline_completion user) = Resolved resp ->
  resp <> JNull ->
  truthy (completion_content resp) = false ->
  run answer (outline_handler body)
  = Json200 (JObj [ (utf16 "outline", JStr []) ]).
Proof.
  intros Hparse Ht Hu Hans Hn Hc.
  pose proof (outline_handler_cases body) as H. cbv zeta in H.
  rewrite Ht, Hu in H. destruct H as [k [-> Hk]]. cbn [run].
  rewrite Hk. cbn [run]. rewrite Hans.
  rewrite (completion_result_empty Hc Hn), Hparse. reflexivity.
Qed.

End Completion.

(** ** The patterns once more *)

Lemma backtrack_spec (k : input -> option input) (run : list N) :
  forall (p : option N) (rest : list N),
    backtrack k p run rest <> None
    <-> exists a b, run = a ++ b /\ k (prev_after p a, b ++ rest) <> None.
Proof.
  induction run as [|c run IH]; intros p rest; cbn [backtrack].
  - split.
    + intros H. now exists [], [].
    + intros [a [b [E H]]]. symmetry in E.
      apply app_eq_nil in E as [-> ->]. exact H.
  - split.
    + intros H. destruct (backtrack k (Some c) run rest) eqn:E.
      * assert (Hn : backtrack k (Some c) run rest <> None) by congruence.
        apply IH in Hn as [a [b [-> Hk]]]. now exists (c :: a), b.
      * now exists [], (c :: run).
    + intros [a [b [E H]]]. destruct a as [|c' a].
      * cbn [app] in E. subst b. cbn [prev_after] in H.
        now destruct (backtrack k (Some c) run rest).
      * injection E as <- ->.
        assert (Hn : backtrack k (Some c) (a ++ b) rest <> None)
          by (apply IH; now exists a, b).
        now destruct (backtrack k (Some c) (a ++ b) rest).
Qed.

Lemma take_while_app (f : N -> bool) (ws t : list N) :
  forallb f ws = true ->
  take_while f (ws ++ t) = ws ++ take_while f t
  /\ drop_while f (ws ++ t) = drop_while f t.
Proof.
  induction ws as [|c ws IH]; cbn [forallb app take_while drop_while].
  - now split.
  - intros H. apply andb_true_iff in H as [-> H].
    destruct (IH H) as [-> ->]. now split.
Qed.

(** A greedy [[class]*] followed by [k] matches when [k] matches after
    some run of the class. *)
Lemma compile_star_class (ic : bool) (f : N -> bool)
      (k : input -> option input) (p : option N) (s : list N) :
  compile ic (Star (Cls f)) k (p, s) <> None
  <-> exists ws t,
        s = ws ++ t /\ forallb f ws = true
        /\ k (prev_after p ws, t) <> None.
Proof.
  cbn [compile]. unfold RegExp.rest. cbn [snd].
  pose proof (repeat_matcher_class f k (take_while f s) (n := length s) p
                (drop_while f s) (take_while_all _ _)
                (drop_while_stops _ _)) as H.
  rewrite <- take_drop_while in H. rewrite H.
  2:{ rewrite (take_drop_while f s) at 2. rewrite length_app. lia. }
  rewrite backtrack_spec. split.
  - intros [a [b [E Hk]]]. exists a, (b ++ drop_while f s).
    split; [|split; [|exact Hk]].
    + rewrite app_assoc, <- E. apply take_drop_while.
    + pose proof (take_while_all f s) as Hall. rewrite E in Hall.
      rewrite forallb_app in Hall. now apply andb_true_iff in Hall as [? _].
  - intros [ws [t [-> [Hws Hk]]]].
    destruct (take_while_app f ws t Hws) as [-> ->].
    exists ws, (take_while f t). split; [reflexivity|].
    now rewrite <- take_drop_while.
Qed.

Lemma same_ignoring_case_cons (c d : N) (w s : list N) :
  same_ignoring_case (c :: w) (d :: s)
  <-> canonicalize true c = canonicalize true d /\ same_ignoring_case w s.
Proof.
  unfold same_ignoring_case. cbn [map]. split.
  - intros [= H1 H2]. now split.
  - intros [-> ->]. reflexivity.
Qed.

(** A pattern of ordinary characters under the [i] flag. *)
Lemma compile_Lit_ignoring_case (s : list N) :
  forall (k : input -> option input) (p : option N) (text : list N),
    compile true (Lit s) k (p, text) <> None
    <-> exists w t,
          text = w ++ t /\ same_ignoring_case w s
          /\ k (prev_after p w, t) <> None.
Proof.
  induction s as [|c s IH]; intros k p text; cbn [Lit compile].
  - split.
    + intros H. now exists [], text.
    + intros [w [t [-> [E H]]]]. destruct w; [exact H|discriminate].
  - unfold char_matcher. cbn [snd]. split.
    + intros H. destruct text as [|ch text]; [contradiction|].
      destruct (canonicalize true ch =? canonicalize true c)%N eqn:E;
        [|contradiction].
      apply N.eqb_eq in E. apply IH in H as [w [t [-> [Hw Hk]]]].
      exists (ch :: w), t. split; [reflexivity|].
      split; [now apply same_ignoring_case_cons|exact Hk].
    + intros [w [t [-> [Hw Hk]]]]. destruct w as [|ch w]; [discriminate|].
      apply same_ignoring_case_cons in Hw as [Hc Hw].
      cbn [app]. rewrite Hc, N.eqb_refl. apply IH. now exists w, t.
Qed.

Lemma canonicalize_caseless (ch c : N) :
  caseless c = true ->
  canonicalize true ch = canonicalize true c -> ch = c.
Proof.
  unfold caseless, canonicalize. cbn [andb]. intros Hc.
  apply negb_true_iff, orb_false_iff in Hc as [H1 H2].
  rewrite H2.
  destruct ((97 <=? ch) && (ch <=? 122))%N eqn:E; [|auto].
  intros <-. apply andb_true_iff in E as [E1 E2].
  apply N.leb_le in E1, E2.
  apply andb_false_iff in H1 as [H1|H1]; apply N.leb_gt in H1; lia.
Qed.

Lemma same_ignoring_case_caseless (s : list N) :
  forallb caseless s = true ->
  forall w, same_ignoring_case w s -> w = s.
Proof.
  induction s as [|c s IH]; intros Hs [|ch w] H; try discriminate;
    [reflexivity|].
  cbn [forallb] in Hs. apply andb_true_iff in Hs as [Hc Hs].
  apply same_ignoring_case_cons in H as [H1 H2].
  f_equal; [now apply (canonicalize_caseless ch c)|now apply IH].
Qed.

Lemma test_spec (re : RegExp.t) (text : list N) :
  test re text = true
  <-> exists pre suf,
        text = pre ++ suf /\ match_here re (prev_after None pre, suf) <> None.
Proof.
  unfold test. split.
  - apply search_inv.
  - intros [pre [suf [-> H]]]. now apply search_app.
Qed.

(** The two Arabic forms of the disclaimer pattern. *)
Lemma compile_phrase (a b : list N) (p : option N) (text : list N) :
  forallb caseless a = true -> forallb caseless b = true ->
  compile true (Seq (Lit a) (Seq (Star (Cls is_space)) (Lit b)))
          (fun y => Some y) (p, text) <> None
  <-> exists ws post,
        text = a ++ ws ++ b ++ post /\ forallb is_space ws = true.
Proof.
  intros Ha Hb. cbn [compile]. rewrite compile_Lit_ignoring_case. split.
  - intros [w [t [-> [Hw H]]]].
    apply (same_ignoring_case_caseless Ha) in Hw. subst w.
    change (compile true (Star (Cls is_space))
              (compile true (Lit b) (fun y => Some y))
              (prev_after p a, t) <> None) in H.
    apply compile_star_class in H as [ws [t' [-> [Hws H]]]].
    apply compile_Lit_ignoring_case in H as [w [post [-> [Hw _]]]].
    apply (same_ignoring_case_caseless Hb) in Hw. subst w.
    now exists ws, post.
  - intros [ws [post [-> Hws]]]. exists a, (ws ++ b ++ post).
    split; [reflexivity|]. split; [reflexivity|].
    change (compile true (Star (Cls is_space))
              (compile true (Lit b) (fun y => Some y))
              (prev_after p a, ws ++ b ++ post) <> None).
    apply compile_star_class. exists ws, (b ++ post).
    split; [reflexivity|]. split; [exact Hws|].
    apply compile_Lit_ignoring_case. exists b, post.
    split; [reflexivity|]. split; [reflexivity|discriminate].
Qed.

(** The disclaimer pattern finds exactly the three forms. *)
Lemma test_disclaimer_spec (text : list N) :
  test RE_DISCLAIMER text = true <-> has_disclaimer text.
Proof.
  rewrite test_spec. unfold has_disclaimer, match_here, RE_DISCLAIMER.
  cbn [pattern ignoreCase].
  set (r1 := Seq (Lit (utf16 "إخلاء")) _).
  set (r2 := Seq (Lit (utf16 "تنبيه")) _).
  set (r3 := Lit (utf16 "Disclaimer")).
  assert (Halt : forall x,
             compile true (Alt r1 (Alt r2 r3)) (fun y => Some y) x <> None
             <-> compile true r1 (fun y => Some y) x <> None
                 \/ compile true r2 (fun y => Some y) x <> None
                 \/ compile true r3 (fun y => Some y) x <> None).
  { intros x. cbn [compile].
    destruct (compile true r1 _ x); [split; [now left|discriminate]|].
    destruct (compile true r2 _ x); [split; [right; now left|discriminate]|].
    split; [intros H; right; now right|intros [H|[H|H]]; auto]. }
  split.
  - intros [pre [suf [-> H]]]. apply Halt in H as [H|[H|H]].
    + left. apply compile_phrase in H as [ws [post [-> Hws]]];
        [|reflexivity|reflexivity]. now exists pre, ws, post.
    + right. left. apply compile_phrase in H as [ws [post [-> Hws]]];
        [|reflexivity|reflexivity]. now exists pre, ws, post.
    + right. right. apply compile_Lit_ignoring_case in H
        as [w [post [-> [Hw _]]]]. now exists pre, w, post.
  - intros [[pre [ws [post [-> Hws]]]]|[[pre [ws [post [-> Hws]]]]
                                       |[pre [w [post [-> Hw]]]]]];
      exists pre; eexists; (split; [reflexivity|]); apply Halt.
    + left. apply compile_phrase; [reflexivity|reflexivity|].
      now exists ws, post.
    + right. left. apply compile_phrase; [reflexivity|reflexivity|].
      now exists ws, post.
    + right. right. apply compile_Lit_ignoring_case. exists w, post.
      split; [reflexivity|]. split; [exact Hw|discriminate].
Qed.

Lemma prev_after_last (l : list N) :
  forall (p : option N) (c : N),
    prev_after p l = Some c ->
    (l = [] /\ p = Some c) \/ exists l', l = l' ++ [c].
Proof.
  induction l as [|x l IH]; intros p c H; cbn [prev_after] in H.
  - now left.
  - right. apply IH in H as [[-> [= ->]]|[l' ->]].
    + now exists [].
    + now exists (x :: l').
Qed.

(** The claim pattern finds a verb exactly where an ASCII word
    character stands right before it and right after it. *)
Lemma test_claim_spec (text : list N) :
  test RE_CLAIM text = true <-> flanked_claim_verb text.
Proof.
  split.
  - intros H. apply claim_pattern_word_characters in H
      as [pre [verb [post [Hin [-> [Hb Ha]]]]]].
    unfold word_before, word_after in *. cbn [fst snd] in *.
    destruct (prev_after None pre) as [b|] eqn:Eb; [|discriminate].
    apply prev_after_last in Eb as [[_ ?]|[pre' ->]]; [discriminate|].
    destruct post as [|a post]; [discriminate|].
    exists pre', b, verb, a, post. repeat split; trivial.
    now rewrite <- app_assoc.
  - intros [pre [b [verb [a [post [Hin [-> [Hb Ha]]]]]]]].
    apply test_spec. exists (pre ++ [b]), (verb ++ a :: post).
    split; [now rewrite <- app_assoc|].
    rewrite prev_after_app. cbn [prev_after].
    unfold match_here, RE_CLAIM. cbn [pattern ignoreCase compile].
    assert (Hv : word_after (Some b, verb ++ a :: post) = false
                 /\ word_before (prev_after (Some b) verb, a :: post) = false).
    { unfold word_before, word_after. cbn [fst snd].
      repeat (destruct Hin as [<-|Hin]; [split; reflexivity|]).
      destruct Hin. }
    destruct Hv as [Hv1 Hv2].
    unfold word_before at 1. cbn [fst]. rewrite Hb, Hv1. cbn [xorb].
    apply (compile_alternatives_complete CLAIM_VERBS _ _ verb Hin).
    rewrite compile_Lit_complete. cbn [compile]. rewrite Hv2.
    unfold word_after. cbn [snd]. rewrite Ha. discriminate.
Qed.

(** ** The reasons and the claims, exactly *)

Section Findings.

Context {P : Platform}.

Lemma generated_article out html kws b rs cs :
  generated out html kws b rs cs ->
  response_field out "article" "articleHtmlContent" = Some (JStr html)
  /\ response_field out "article" "secondaryKeywords" = Some (JArr kws).
Proof.
  intros [fs [-> [[a [Ha [Hh Hk]]] _]]].
  unfold response_field. cbn [prop]. rewrite Ha.
  destruct a; try discriminate. now split.
Qed.

(** X13. For a conforming result, post-validation appends to the
    reasons, in this order: the too-short reason when the text without
    tags has fewer than 1200 words, the disclaimer reason when that
    text has none of the three disclaimer forms, and the keyword reason
    when there are fewer than three secondary keywords; nothing else. *)
Theorem structural_reasons_exact (out : json number) :
  conforming out ->
  exists html text kws out' reasons (disclaimer : bool),
    response_field out "article" "articleHtmlContent" = Some (JStr html)
    /\ response_field out "article" "secondaryKeywords" = Some (JArr kws)
    /\ stripped html text
    /\ (disclaimer = true <-> has_disclaimer text)
    /\ post_validate out = Ok out'
    /\ gate_field out "reasons" = Some (JArr reasons)
    /\ gate_field out' "reasons"
       = Some (JArr (reasons
                     ++ map JStr
                          ((if count_tokens false text <? 1200
                            then [MSG_SHORT] else [])
                           ++ (if disclaimer then [] else [MSG_DISCLAIMER])
                           ++ (if length kws <? 3
                               then [MSG_KEYWORDS] else [])))).
Proof.
  intros H. apply conforming_generated in H as [html [kws [b [rs [cs H]]]]].
  destruct (post_validate_generated H) as [out' [E [_ [Hr _]]]].
  destruct (generated_gate H) as [Hr0 _].
  destruct (generated_article H) as [Hh Hk].
  exists html, (textOnly html), kws, out', rs,
    (test RE_DISCLAIMER (textOnly html)).
  repeat (split; [assumption|]). split; [apply replace_all_stripped|].
  split; [apply test_disclaimer_spec|].
  repeat (split; [assumption|]).
  rewrite Hr. unfold structural_findings. rewrite word_count_tokens.
  now destruct (test RE_DISCLAIMER (textOnly html)).
Qed.

(** X14. For a conforming result, the entry about claims is appended
    exactly when one of the six verbs stands in the text without tags
    right between two ASCII word characters and the HTML has no bracketed
    integer; a verb between spaces, Arabic letters or punctuation is
    not found. *)
Theorem claim_entry_exact (out : json number) :
  conforming out ->
  exists html text out' claims added,
    response_field out "article" "articleHtmlContent" = Some (JStr html)
    /\ stripped html text
    /\ post_validate out = Ok out'
    /\ gate_field out "claimsNeedingCitations" = Some (JArr claims)
    /\ gate_field out' "claimsNeedingCitations"
       = Some (JArr (claims ++ added))
    /\ (added = [JStr MSG_CLAIMS]
        <-> flanked_claim_verb text /\ ~ has_bracketed_integer html)
    /\ (added = []
        <-> ~ flanked_claim_verb text \/ has_bracketed_integer html).
Proof.
  intros H. apply conforming_generated in H as [html [kws [b [rs [cs H]]]]].
  destruct (post_validate_generated H) as [out' [E [_ [_ [Hc _]]]]].
  destruct (generated_gate H) as [_ [Hc0 _]].
  destruct (generated_article H) as [Hh _].
  exists html, (textOnly html), out', cs, (map JStr (claim_findings html)).
  repeat (split; [assumption|]). split; [apply replace_all_stripped|].
  repeat (split; [assumption|]).
  unfold claim_findings.
  pose proof (test_claim_spec (textOnly html)) as Hv.
  pose proof (test_cite_spec html) as Hi.
  destruct (test RE_CLAIM (textOnly html)), (test RE_CITE html);
    cbn [andb negb map]; split; split;
      try discriminate; try reflexivity; try tauto;
      try (intros [? ?]; exfalso); try (intros [?|?]; exfalso);
      try (intros _);
      intuition congruence.
Qed.

(** [textOnly] never lengthens the text and leaves a text without [<]
    as it is. *)
Lemma stripped_length (s r : list N) : stripped s r -> length r <= length s.
Proof.
  induction 1 as [|s body rest r [-> _] _ IH|c s r _ _ IH]; cbn [length].
  - lia.
  - rewrite length_app. cbn [length]. lia.
  - lia.
Qed.

Lemma stripped_plain (s r : list N) :
  stripped s r -> ~ In (chr "<") s -> r = s.
Proof.
  induction 1 as [|s body rest r [-> _] _ IH|c s r _ _ IH]; intros Hno.
  - reflexivity.
  - exfalso. apply Hno. now left.
  - f_equal. apply IH. intros Hin. apply Hno. now right.
Qed.

(** X15. Stripping the tags never lengthens the article text, and a
    text without [<] is counted as it is. *)
Theorem textOnly_plain (html : list N) :
  length (textOnly html) <= length html
  /\ (~ In (chr "<") html -> textOnly html = html).
Proof.
  pose proof (replace_all_stripped html) as H. fold (textOnly html) in H.
  split; [exact (stripped_length H)|exact (stripped_plain H)].
Qed.

End Findings.

(** ** The allow-list *)

Section AllowList.

Context {P : Platform}.

Lemma isAllowedSource_host (url hostname : list N) :
  URL_hostname url = Some hostname ->
  (isAllowedSource (JStr url) = true <-> trusted_host (toLowerCase hostname)).
Proof.
  intros H. unfold isAllowedSource, isAllowedSource_try, trusted_host.
  cbn [toString bind]. rewrite H. cbn beta iota.
  destruct (existsb _ SAFE_DOMAINS) eqn:E.
  - split; [intros _|reflexivity]. left. now apply safe_domain_check.
  - rewrite orb_true_iff, !endsWith_spec. split.
    + intros Hs. right. exact Hs.
    + intros [Hs|Hs]; [|exact Hs].
      apply safe_domain_check in Hs. congruence.
Qed.

Lemma trusted_host_subdomain (d pre : list N) :
  trusted_host d -> trusted_host (pre ++ utf16 "." ++ d).
Proof.
  intros [[sd [Hin [->|[q ->]]]]|[[q ->]|[q ->]]].
  - left. exists sd. split; [exact Hin|]. right. now exists pre.
  - left. exists sd. split; [exact Hin|]. right.
    exists (pre ++ utf16 "." ++ q). now rewrite <- !app_assoc.
  - right. left. exists (pre ++ utf16 "." ++ q). now rewrite <- !app_assoc.
  - right. right. exists (pre ++ utf16 "." ++ q). now rewrite <- !app_assoc.
Qed.

(** X16. The allow-list is closed under subdomains: when a URL is
    allowed, so is every URL whose host is a label path in front of the
    host of the first. *)
Theorem subdomains_allowed (url1 url2 host1 host2 pre : list N) :
  URL_hostname url1 = Some host1 ->
  URL_hostname url2 = Some host2 ->
  toLowerCase host2 = pre ++ utf16 "." ++ toLowerCase host1 ->
  isAllowedSource (JStr url1) = true ->
  isAllowedSource (JStr url2) = true.
Proof.
  intros H1 H2 E Ha. apply (isAllowedSource_host _ H1) in Ha.
  apply (isAllowedSource_host _ H2). rewrite E.
  now apply trusted_host_subdomain.
Qed.

Lemma last_suffix (c : N) (pre x s : list N) :
  pre ++ [c] = x ++ s -> s <> [] -> last s 0%N = c.
Proof.
  intros E Hs. apply (f_equal (fun l => last l 0%N)) in E.
  rewrite last_last in E. rewrite E. clear E.
  induction x as [|y x IH]; [reflexivity|].
  cbn [app]. destruct (x ++ s) eqn:Ex; [|exact IH].
  apply app_eq_nil in Ex as [_ ->]. contradiction.
Qed.

(** X17. A host with a trailing dot, the fully qualified form, is never
    allowed: no entry of the list and neither suffix ends in a dot. *)
Theorem trailing_dot_rejected (url hostname pre : list N) :
  URL_hostname url = Some hostname ->
  toLowerCase hostname = pre ++ utf16 "." ->
  isAllowedSource (JStr url) = false.
Proof.
  intros H E. destruct (isAllowedSource (JStr url)) eqn:Ha; [|reflexivity].
  apply (isAllowedSource_host _ H) in Ha. rewrite E in Ha. exfalso.
  assert (Hno : forall x s, pre ++ utf16 "." = x ++ s -> s <> [] ->
                            last s 0%N = chr ".")
    by (intros x s; apply last_suffix).
  destruct Ha as [[sd [Hin [Hs|[q Hs]]]]|[[q Hs]|[q Hs]]].
  - apply (Hno []) in Hs.
    + repeat (destruct Hin as [<-|Hin]; [discriminate|]). destruct Hin.
    + repeat (destruct Hin as [<-|Hin]; [discriminate|]). destruct Hin.
  - rewrite app_assoc in Hs. apply Hno in Hs.
    + repeat (destruct Hin as [<-|Hin]; [discriminate|]). destruct Hin.
    + repeat (destruct Hin as [<-|Hin]; [discriminate|]). destruct Hin.
  - apply Hno in Hs; discriminate.
  - apply Hno in Hs; discriminate.
Qed.

End AllowList.

(** ** The payload and the schema *)

Section Conformance.

Context {P : Platform}.

Lemma lookup_assign_some (k k' : list N) (v : json number)
      (fs : list (list N * json number)) :
  lookup k fs <> None -> lookup k (assign k' v fs) <> None.
Proof.
  intros H. destruct (str_eqb k k') eqn:E.
  - apply str_eqb_eq in E. subst. now rewrite lookup_assign_eq.
  - rewrite lookup_assign_ne; [exact H|exact E].
Qed.

(** Writing a valid value at a declared property keeps an object
    valid. *)
Lemma valid_assign (fs : list (list N * json number))
      (props : list (list N * schema)) (req : list (list N)) (addl : bool)
      (k : list N) (v : json number) (ks : list N * schema) :
  valid (JObj fs) (SObject props req addl) = true ->
  find (fun ks => str_eqb k (fst ks)) props = Some ks ->
  valid v (snd ks) = true ->
  valid (JObj (assign k v fs)) (SObject props req addl) = true.
Proof.
  rewrite !valid_object. intros H Hfind Hv.
  apply andb_true_iff in H as [Hreq Hall]. apply andb_true_iff. split.
  - rewrite forallb_forall in *. intros k0 Hk0. specialize (Hreq k0 Hk0).
    pose proof (@lookup_assign_some k0 k v fs) as Hl.
    destruct (lookup k0 (assign k v fs)); [reflexivity|].
    exfalso. apply Hl; [|reflexivity]. intros E. now rewrite E in Hreq.
  - clear Hreq. induction fs as [|[k' v'] fs IH].
    + cbn [assign forallb fst snd]. now rewrite Hfind, Hv.
    + cbn [forallb fst snd] in Hall. apply andb_true_iff in Hall as [H1 H2].
      cbn [assign]. destruct (str_eqb k k') eqn:E.
      * apply str_eqb_eq in E. subst k'. cbn [forallb fst snd].
        now rewrite Hfind, Hv, H2.
      * cbn [forallb fst snd]. rewrite H1. now apply IH.
Qed.

Lemma valid_strings (l : list (list N)) :
  forallb (fun e : json number => valid e SString) (map JStr l) = true.
Proof. induction l as [|s l IH]; [reflexivity|exact IH]. Qed.

Lemma gate_push_conforming (out out' : json number) (field : string)
      (msg : list N) :
  field = "reasons"%string \/ field = "claimsNeedingCitations"%string ->
  conforming out -> gate_push out field msg = Ok out' -> conforming out'.
Proof.
  intros Hf H E. unfold conforming in *.
  destruct (@valid_required _ _ _ _ _ (utf16 "gate") _ H
              ltac:(cbn; tauto) eq_refl) as [fs [g [-> [Hg Hgv]]]].
  unfold gate_push in E. cbn [get prop bind] in E. rewrite Hg in E.
  cbn [snd] in Hgv.
  assert (Hl : exists gfs l,
             g = JObj gfs /\ lookup (utf16 field) gfs = Some (JArr l)
             /\ forallb (fun e => valid e SString) l = true
             /\ exists ks, find (fun ks => str_eqb (utf16 field) (fst ks))
                             [ (utf16 "blocked", SBoolean);
                               (utf16 "reasons", SArray SString);
                               (utf16 "claimsNeedingCitations",
                                SArray SString) ] = Some ks
                           /\ snd ks = SArray SString).
  { destruct Hf as [-> | ->].
    - destruct (@valid_required _ _ _ _ _ (utf16 "reasons") _ Hgv
                  ltac:(cbn; tauto) eq_refl) as [gfs [x [-> [Hx Hxv]]]].
      cbn [snd] in Hxv. destruct x as [| | | |l|]; try discriminate.
      cbn [valid] in Hxv.
      exists gfs, l. repeat (split; [assumption || reflexivity|]).
      eexists. split; reflexivity.
    - destruct (@valid_required _ _ _ _ _ (utf16 "claimsNeedingCitations") _ Hgv
                  ltac:(cbn; tauto) eq_refl) as [gfs [x [-> [Hx Hxv]]]].
      cbn [snd] in Hxv. destruct x as [| | | |l|]; try discriminate.
      cbn [valid] in Hxv.
      exists gfs, l. repeat (split; [assumption || reflexivity|]).
      eexists. split; reflexivity. }
  destruct Hl as [gfs [l [-> [Hx [Hl [ks [Hfind Hks]]]]]]].
  cbn [get prop bind] in E. rewrite Hx in E. cbn [bind] in E.
  injection E as <-. cbn [set_prop].
  eapply valid_assign; [exact H|reflexivity|]. cbn [snd].
  eapply valid_assign; [exact Hgv|exact Hfind|]. rewrite Hks.
  cbn [valid]. rewrite forallb_app, Hl. reflexivity.
Qed.

Lemma push_if_conforming (c : bool) (out out' : json number)
      (field : string) (msg : list N) :
  field = "reasons"%string \/ field = "claimsNeedingCitations"%string ->
  conforming out -> push_if c out field msg = Ok out' -> conforming out'.
Proof.
  intros Hf H E. destruct c; cbn [push_if] in E.
  - eapply gate_push_conforming; eassumption.
  - now injection E as <-.
Qed.

Lemma aggregate_conforming (out out' : json number) :
  conforming out -> aggregate out = Ok out' -> conforming out'.
Proof.
  intros H E. unfold conforming in *.
  destruct (@valid_required _ _ _ _ _ (utf16 "gate") _ H
              ltac:(cbn; tauto) eq_refl) as [fs [g [-> [Hg Hgv]]]].
  cbn [snd] in Hgv.
  unfold aggregate in E. cbn [get prop bind] in E. rewrite Hg in E.
  destruct g as [| | | | |gfs]; try discriminate.
  repeat match type of E with
         | bind ?r _ = _ => destruct r; cbn [bind] in E; [|discriminate]
         end.
  match type of E with
  | (if ?c then _ else _) = _ => destruct c
  end.
  - injection E as <-. cbn [set_prop].
    eapply valid_assign; [exact H|reflexivity|]. cbn [snd].
    eapply valid_assign; [exact Hgv|reflexivity|]. reflexivity.
  - now injection E as <-.
Qed.

Lemma post_validate_conforming (out out' : json number) :
  conforming out -> post_validate out = Ok out' -> conforming out'.
Proof.
  intros H E. unfold post_validate in E.
  destruct (textOnly_of out) as [t|]; cbn [bind] in E; [|discriminate].
  cbv zeta in E.
  destruct (push_if _ out "reasons" MSG_SHORT) as [o1|] eqn:E1;
    cbn [bind] in E; [|discriminate].
  apply push_if_conforming in E1; [|now left|exact H].
  destruct (push_if _ o1 "reasons" MSG_DISCLAIMER) as [o2|] eqn:E2;
    cbn [bind] in E; [|discriminate].
  apply push_if_conforming in E2; [|now left|exact E1].
  destruct (get (Some o2) "article") as [a|]; cbn [bind] in E; [|discriminate].
  destruct (get a "secondaryKeywords") as [kws|];
    cbn [bind] in E; [|discriminate].
  destruct (push_if _ o2 "reasons" MSG_KEYWORDS) as [o3|] eqn:E3;
    cbn [bind] in E; [|discriminate].
  apply push_if_conforming in E3; [|now left|exact E2].
  destruct (get (Some o3) "article") as [a'|];
    cbn [bind] in E; [|discriminate].
  destruct (get a' "articleHtmlContent") as [h|];
    cbn [bind] in E; [|discriminate].
  destruct (toString _) as [h'|]; cbn [bind] in E; [|discriminate].
  destruct (push_if _ o3 "claimsNeedingCitations" MSG_CLAIMS) as [o4|] eqn:E4;
    cbn [bind] in E; [|discriminate].
  apply push_if_conforming in E4; [|now right|exact E3].
  eapply aggregate_conforming; eassumption.
Qed.

(** X18. Post-validation keeps the shape: for a result that conforms
    to [articleSchema], it returns a payload that conforms as well, so
    the client gets the declared keys and types whatever the checks
    found. *)
Theorem validated_payload_conforms (out : json number) :
  conforming out ->
  exists out', post_validate out = Ok out' /\ conforming out'.
Proof.
  intros H. pose proof H as Hg.
  apply conforming_generated in Hg as [html [kws [b [rs [cs Hg]]]]].
  destruct (post_validate_generated Hg) as [out' [E _]].
  exists out'. split; [exact E|]. eapply post_validate_conforming; eassumption.
Qed.

(** X19. The payload of a request stopped before generation conforms to
    [articleSchema] exactly when the topic of the request is a string
    or falsy: a truthy topic of another type is echoed as it is in
    [articleTitle], where the schema asks for a string. *)
Theorem blocked_payload_shape (p : json number) (reasons : list (list N)) :
  valid (blocked_response p reasons) (schema_body articleSchema)
  = match prop p "topic" with
    | Some (JStr _) => true
    | v => negb (truthy v)
    end.
Proof.
  unfold blocked_response, articleSchema. cbn [schema_body].
  set (title := or_else (prop p "topic") (JStr [])).
  assert (Ht : valid title SString
               = match prop p "topic" with
                 | Some (JStr _) => true
                 | v => negb (truthy v)
                 end).
  { subst title. unfold or_else.
    destruct (prop p "topic") as [[| b | n | s | l | fs]|];
      cbn [truthy valid negb]; try reflexivity.
    - now destruct b.
    - now destruct (number_truthy n).
    - now destruct (negb _). }
  rewrite <- Ht. clear Ht. generalize title. intros t.
  pose proof (valid_strings reasons) as Hr.
  rewrite valid_object. cbn [forallb fst snd lookup].
  change (find _ _) with
    (Some (utf16 "article",
           SObject [ (utf16 "articleTitle", SString);
                     (utf16 "articleHtmlContent", SString);
                     (utf16 "secondaryKeywords", SArray SString) ]
                   [ utf16 "articleTitle"; utf16 "articleHtmlContent";
                     utf16 "secondaryKeywords" ]
                   false)) at 1.
  cbn [snd].
  rewrite valid_object.
  destruct (valid t SString) eqn:Et.
  - destruct t; try discriminate.
    cbn -[valid_strings] in *. rewrite Hr. reflexivity.
  - destruct t; try discriminate; reflexivity.
Qed.

End Conformance.

(** ** The language of the article *)

Section Language.

Context {P : Platform}.

(** X20. The article operation has no default language: when the
    request leaves [language] out, the prompt asks for an article in the
    language [undefined]. *)
Theorem prompt_without_language (p : json number) (user : list N) :
  prop p "language" = None ->
  ARTICLE_USER p = Ok user ->
  exists rest,
    user = utf16 "اكتب مقالاً (~1500 كلمة) باللغة " ++ utf16 "undefined" ++ rest.
Proof.
  intros Hl H. unfold ARTICLE_USER in H. rewrite Hl in H.
  cbn [toString_value bind] in H.
  repeat match type of H with
         | bind ?r _ = Ok _ => destruct r; cbn [bind] in H; [|discriminate]
         end.
  injection H as <-. eexists. reflexivity.
Qed.

End Language.

Lemma prompt_without_language_witness :
  prop sample_request "language" = None
  /\ ARTICLE_USER sample_request = Ok sample_prompt
  /\ exists rest,
       sample_prompt
       = utf16 "اكتب مقالاً (~1500 كلمة) باللغة " ++ utf16 "undefined" ++ rest.
Proof.
  assert (H1 : prop sample_request "language" = None) by reflexivity.
  assert (H2 : ARTICLE_USER sample_request = Ok sample_prompt)
    by (vm_compute; reflexivity).
  split; [exact H1|]. split; [exact H2|].
  exact (@prompt_without_language reference_platform _ _ H1 H2).
Defined.

(** ** Closed instances *)

Lemma prevalidation_blocks_witness :
  let body := Some (request_with (JArr (map JStr mixed_urls))) in
  sources_listable (or_else body (JObj [])) = true
  /\ exists reasons,
       prevalidate (or_else body (JObj [])) = Ok reasons
       /\ (reasons <> [] <-> reason_exists (or_else body (JObj [])))
       /\ (reasons <> [] ->
           article_handler body
           = Ret (Json200 (blocked_response (or_else body (JObj []))
                                            reasons))).
Proof.
  cbv zeta. split; [reflexivity|].
  apply (@prevalidation_blocks reference_platform
           (Some (request_with (JArr (map JStr mixed_urls))))).
  reflexivity.
Defined.

Lemma untrusted_reason_names_urls_witness :
  let body := Some (request_with (JArr (map JStr mixed_urls))) in
  let url := utf16 "https://blog.example.org/sugar" in
  prop (or_else body (JObj [])) "sources" = Some (JArr (map JStr mixed_urls))
  /\ In url mixed_urls
  /\ @isAllowedSource reference_platform (JStr url) = false
  /\ exists reasons a b,
       article_handler body
       = Ret (Json200 (blocked_response (or_else body (JObj [])) reasons))
       /\ last reasons []
          = MSG_UNTRUSTED
              ++ join (utf16 ", ")
                   (filter (fun u => negb (isAllowedSource (JStr u)))
                           mixed_urls)
       /\ last reasons [] = MSG_UNTRUSTED ++ a ++ url ++ b.
Proof.
  cbv zeta.
  assert (H1 : prop (or_else (Some (request_with (JArr (map JStr mixed_urls))))
                             (JObj [])) "sources"
               = Some (JArr (map (@JStr Z) mixed_urls))) by reflexivity.
  assert (H2 : In (utf16 "https://blog.example.org/sugar") mixed_urls)
    by (do 3 right; left; reflexivity).
  assert (H3 : @isAllowedSource reference_platform
                 (JStr (utf16 "https://blog.example.org/sugar")) = false)
    by (vm_compute; reflexivity).
  split; [exact H1|]. split; [exact H2|]. split; [exact H3|].
  exact (@untrusted_reason_names_urls reference_platform _ _ _ H1 H2 H3).
Defined.

Lemma non_array_links_fail_witness :
  let body := Some request_with_link in
  prevalidate (or_else body (JObj [])) = Ok []
  /\ truthy (prop (or_else body (JObj [])) "internalLinks")
     && negb (is_array (prop (or_else body (JObj [])) "internalLinks")) = true
  /\ exists text, article_handler body = Ret (Text400 text).
Proof.
  cbv zeta.
  assert (H1 : prevalidate (or_else (Some request_with_link) (JObj []))
               = Ok []) by (vm_compute; reflexivity).
  assert (H2 : truthy (prop (or_else (Some request_with_link) (JObj []))
                            "internalLinks")
               && negb (is_array (prop (or_else (Some request_with_link)
                                                (JObj []))
                                       "internalLinks")) = true)
    by reflexivity.
  split; [exact H1|]. split; [exact H2|].
  exact (@non_array_links_fail reference_platform _ H1 H2).
Defined.

Lemma prompt_lists_sources_witness :
  prop sample_request "sources" = Some (JArr (map JStr trusted_urls))
  /\ ARTICLE_USER sample_request = Ok sample_prompt
  /\ exists a b, sample_prompt = a ++ join nl (numbered 0 trusted_urls) ++ b.
Proof.
  assert (H1 : prop sample_request "sources"
               = Some (JArr (map (@JStr Z) trusted_urls))) by reflexivity.
  assert (H2 : ARTICLE_USER sample_request = Ok sample_prompt)
    by (vm_compute; reflexivity).
  split; [exact H1|]. split; [exact H2|].
  exact (@prompt_lists_sources reference_platform _ _ _ H1 H2).
Defined.

Lemma empty_completion_fails_witness :
  let body := Some sample_request in
  let answer := answer_with no_choice in
  JSON_parse (utf16 "{}") = Ok (JObj [])
  /\ prevalidate (or_else body (JObj [])) = Ok []
  /\ ARTICLE_USER (or_else body (JObj [])) = Ok sample_prompt
  /\ answer (article_completion sample_prompt) = Resolved no_choice
  /\ truthy (completion_content no_choice) = false
  /\ exists text, run answer (article_handler body) = Text400 text.
Proof.
  cbv zeta.
  assert (H0 : @JSON_parse reference_platform (utf16 "{}") = Ok (JObj []))
    by reflexivity.
  assert (H1 : prevalidate (or_else (Some sample_request) (JObj [])) = Ok [])
    by (vm_compute; reflexivity).
  assert (H2 : ARTICLE_USER (or_else (Some sample_request) (JObj []))
               = Ok sample_prompt) by (vm_compute; reflexivity).
  assert (H3 : answer_with no_choice (article_completion sample_prompt)
               = Resolved no_choice) by reflexivity.
  assert (H4 : truthy (completion_content no_choice) = false) by reflexivity.
  split; [exact H0|]. split; [exact H1|]. split; [exact H2|].
  split; [exact H3|]. split; [exact H4|].
  exact (@empty_completion_fails reference_platform _ _ _ _ H0 H1 H2 H3 H4).
Defined.

Lemma non_string_article_fails_witness :
  let body := Some sample_request in
  @prevalidate extended_platform (@or_else extended_platform body (JObj [])) = Ok []
  /\ @ARTICLE_USER extended_platform (@or_else extended_platform body (JObj []))
     = Ok extended_prompt
  /\ @completion_result extended_platform
       (answer_numeric (article_completion extended_prompt))
     = Ok numeric_result
  /\ @html_not_text extended_platform numeric_result = true
  /\ exists text,
       run answer_numeric (@article_handler extended_platform body)
       = Text400 text.
Proof.
  cbv zeta.
  assert (H1 : @prevalidate extended_platform
                 (@or_else extended_platform (Some sample_request)
                            (JObj [])) = Ok [])
    by (vm_compute; reflexivity).
  assert (H2 : @ARTICLE_USER extended_platform
                 (@or_else extended_platform (Some sample_request)
                            (JObj []))
               = Ok extended_prompt) by (vm_compute; reflexivity).
  assert (H3 : @completion_result extended_platform
                 (answer_numeric
                    (article_completion extended_prompt))
               = Ok numeric_result) by (vm_compute; reflexivity).
  assert (H4 : @html_not_text extended_platform numeric_result = true)
    by reflexivity.
  split; [exact H1|]. split; [exact H2|]. split; [exact H3|].
  split; [exact H4|].
  exact (@non_string_article_fails extended_platform _ _ _ _ H1 H2 H3 H4).
Defined.

Lemma outline_outcomes_witness :
  let body := Some outline_request in
  let answer := answer_text (utf16 "{}") in
  truthy (prop (or_else body (JObj [])) "topic") = true
  /\ OUTLINE_USER (prop (or_else body (JObj [])) "topic")
       (default_to (prop (or_else body (JObj [])) "language")
                   (JStr (utf16 "العربية"))) = Ok outline_prompt
  /\ calls answer (outline_handler body) = 1
  /\ match completion_result (answer (outline_completion outline_prompt))
           return Prop with
     | Throw e =>
       run answer (outline_handler body)
       = Text400 (if is_empty (message e) then utf16 "Bad Request"
                  else message e)
     | Ok JNull =>
       exists text, run answer (outline_handler body) = Text400 text
     | Ok data =>
       run answer (outline_handler body)
       = Json200 (JObj [ (utf16 "outline",
                          or_else (prop data "outline") (JStr [])) ])
     end.
Proof.
  cbv zeta.
  assert (H1 : truthy (prop (or_else (Some outline_request) (JObj []))
                            "topic") = true) by reflexivity.
  assert (H2 : OUTLINE_USER (prop (or_else (Some outline_request) (JObj []))
                                  "topic")
                 (default_to (prop (or_else (Some outline_request) (JObj []))
                                   "language")
                             (JStr (utf16 "العربية"))) = Ok outline_prompt)
    by (vm_compute; reflexivity).
  split; [exact H1|]. split; [exact H2|].
  exact (@outline_outcomes reference_platform _ _ (answer_text (utf16 "{}"))
           H1 H2).
Defined.

Lemma outline_empty_completion_witness :
  let body := Some outline_request in
  let answer := answer_with no_choice in
  JSON_parse (utf16 "{}") = Ok (JObj [])
  /\ truthy (prop (or_else body (JObj [])) "topic") = true
  /\ OUTLINE_USER (prop (or_else body (JObj [])) "topic")
       (default_to (prop (or_else body (JObj [])) "language")
                   (JStr (utf16 "العربية"))) = Ok outline_prompt
  /\ answer (outline_completion outline_prompt) = Resolved no_choice
  /\ no_choice <> JNull
  /\ truthy (completion_content no_choice) = false
  /\ run answer (outline_handler body)
     = Json200 (JObj [ (utf16 "outline", JStr []) ]).
Proof.
  cbv zeta.
  assert (H0 : @JSON_parse reference_platform (utf16 "{}") = Ok (JObj []))
    by reflexivity.
  assert (H1 : truthy (prop (or_else (Some outline_request) (JObj []))
                            "topic") = true) by reflexivity.
  assert (H2 : OUTLINE_USER (prop (or_else (Some outline_request) (JObj []))
                                  "topic")
                 (default_to (prop (or_else (Some outline_request) (JObj []))
                                   "language")
                             (JStr (utf16 "العربية"))) = Ok outline_prompt)
    by (vm_compute; reflexivity).
  assert (H3 : answer_with no_choice (outline_completion outline_prompt)
               = Resolved no_choice) by reflexivity.
  assert (H4 : no_choice <> JNull) by discriminate.
  assert (H5 : truthy (completion_content no_choice) = false) by reflexivity.
  split; [exact H0|]. split; [exact H1|]. split; [exact H2|].
  split; [exact H3|]. split; [exact H4|]. split; [exact H5|].
  exact (@outline_empty_completion reference_platform _ _ _ _
           H0 H1 H2 H3 H4 H5).
Defined.

Lemma structural_reasons_exact_witness :
  conforming sample_result
  /\ exists html text kws out' reasons (disclaimer : bool),
       response_field sample_result "article" "articleHtmlContent"
       = Some (JStr html)
       /\ response_field sample_result "article" "secondaryKeywords"
          = Some (JArr kws)
       /\ stripped html text
       /\ (disclaimer = true <-> has_disclaimer text)
       /\ post_validate sample_result = Ok out'
       /\ gate_field sample_result "reasons" = Some (JArr reasons)
       /\ gate_field out' "reasons"
          = Some (JArr (reasons
                        ++ map JStr
                             ((if count_tokens false text <? 1200
                               then [MSG_SHORT] else [])
                              ++ (if disclaimer then []
                                  else [MSG_DISCLAIMER])
                              ++ (if length kws <? 3
                                  then [MSG_KEYWORDS] else [])))).
Proof.
  split; [reflexivity|].
  apply (@structural_reasons_exact reference_platform sample_result).
  reflexivity.
Defined.

Lemma claim_entry_exact_witness :
  let out := result_with flanked_claim 3 false [] [] in
  conforming out
  /\ exists html text out' claims added,
       response_field out "article" "articleHtmlContent" = Some (JStr html)
       /\ stripped html text
       /\ post_validate out = Ok out'
       /\ gate_field out "claimsNeedingCitations" = Some (JArr claims)
       /\ gate_field out' "claimsNeedingCitations"
          = Some (JArr (claims ++ added))
       /\ (added = [JStr MSG_CLAIMS]
           <-> flanked_claim_verb text /\ ~ has_bracketed_integer html)
       /\ (added = []
           <-> ~ flanked_claim_verb text \/ has_bracketed_integer html).
Proof.
  cbv zeta. split; [reflexivity|].
  apply (@claim_entry_exact reference_platform
           (result_with flanked_claim 3 false [] [])).
  reflexivity.
Defined.

Lemma textOnly_plain_witness :
  let html := utf16 "plain text" in
  ~ In (chr "<") html
  /\ length (textOnly html) <= length html
  /\ textOnly html = html.
Proof.
  cbv zeta.
  assert (H : ~ In (chr "<") (utf16 "plain text")).
  { intros H. vm_compute in H.
    repeat (destruct H as [H|H]; [discriminate H|]). exact H. }
  destruct (textOnly_plain (utf16 "plain text")) as [H1 H2].
  split; [exact H|]. split; [exact H1|exact (H2 H)].
Defined.

Lemma subdomains_allowed_witness :
  let url1 := utf16 "https://who.int/" in
  let url2 := utf16 "https://www.emro.who.int/en/" in
  let host1 := utf16 "who.int" in
  let host2 := utf16 "www.emro.who.int" in
  let pre := utf16 "www.emro" in
  URL_hostname url1 = Some host1
  /\ URL_hostname url2 = Some host2
  /\ toLowerCase host2 = pre ++ utf16 "." ++ toLowerCase host1
  /\ @isAllowedSource reference_platform (JStr url1) = true
  /\ @isAllowedSource reference_platform (JStr url2) = true.
Proof.
  cbv zeta.
  assert (H1 : @URL_hostname reference_platform (utf16 "https://who.int/")
               = Some (utf16 "who.int")) by (vm_compute; reflexivity).
  assert (H2 : @URL_hostname reference_platform
                 (utf16 "https://www.emro.who.int/en/")
               = Some (utf16 "www.emro.who.int")) by (vm_compute; reflexivity).
  assert (H3 : @toLowerCase reference_platform (utf16 "www.emro.who.int")
               = utf16 "www.emro" ++ utf16 "."
                 ++ @toLowerCase reference_platform (utf16 "who.int"))
    by (vm_compute; reflexivity).
  assert (H4 : @isAllowedSource reference_platform
                 (JStr (utf16 "https://who.int/")) = true)
    by (vm_compute; reflexivity).
  split; [exact H1|]. split; [exact H2|]. split; [exact H3|].
  split; [exact H4|].
  exact (@subdomains_allowed reference_platform _ _ _ _ _ H1 H2 H3 H4).
Defined.

Lemma trailing_dot_rejected_witness :
  let url := utf16 "https://www.who.int./" in
  let hostname := utf16 "www.who.int." in
  URL_hostname url = Some hostname
  /\ toLowerCase hostname = utf16 "www.who.int" ++ utf16 "."
  /\ @isAllowedSource reference_platform (JStr url) = false.
Proof.
  cbv zeta.
  assert (H1 : @URL_hostname reference_platform
                 (utf16 "https://www.who.int./")
               = Some (utf16 "www.who.int.")) by (vm_compute; reflexivity).
  assert (H2 : @toLowerCase reference_platform (utf16 "www.who.int.")
               = utf16 "www.who.int" ++ utf16 ".")
    by (vm_compute; reflexivity).
  split; [exact H1|]. split; [exact H2|].
  exact (@trailing_dot_rejected reference_platform _ _ _ H1 H2).
Defined.

Lemma validated_payload_conforms_witness :
  conforming sample_result
  /\ exists out', post_validate sample_result = Ok out' /\ conforming out'.
Proof.
  split; [reflexivity|].
  apply (@validated_payload_conforms reference_platform sample_result).
  reflexivity.
Defined.
